(** * Multi-agent chat system: orchestration and hybrid memory retrieval

    A shallow embedding of the coordinator ([agents/coordinator.py]), the
    memory agent ([agents/memory_agent.py]), the vector store
    ([memory/vector_store.py]), the analysis agent
    ([agents/analysis_agent.py]), the research agent
    ([agents/research_agent.py]) and the knowledge table's search
    ([memory/knowledge_base.py]), with the properties of the system's
    specification stated and settled over it.

    Conventions of the embedding.
    - Python [str] values are [string]s (sequences of 8-bit characters): the
      model covers ASCII text, on which [str.lower], [str.split] and
      [str.title] are the functions of module [Py] below.
    - A finite float is a rational number ([Q]).  Where a result of the
      program depends on how an operation rounds (the similarity score, the
      planner's mean) the operation rounds through [Float.round]; the
      entries of the vectors, the distances the index reports and the match
      ratio of the keyword search stand as exact values.
    - An exception that a call raises is the result [None]; [Raise.bind]
      passes it on.
    - A [dict] whose iteration order matters is an association list in
      insertion order; a [dict] with a fixed set of optional keys is a record
      of [option] fields, a missing key being [None].
    - State is passed explicitly; the clock's reading is an argument; a
      request's [limit] is a [nat] (the program passes 5 and 10).
    - What the program takes from outside itself is a Section variable: the
      interpreter's [hash] and [numpy.linalg.norm].  The coordinator's
      pipeline also takes the research agent's lookup and the analyses that
      read the records' prose as Section variables; modules [ResearchAgent]
      and [TextAnalyses] embed them.
      [faiss.IndexFlatL2] is modelled by what the library documents of it:
      exhaustive search, squared Euclidean distances, nearest first, and the
      assertion that the number of neighbours asked for is positive. *)

From Stdlib Require Import Bool Arith List Lia ZArith QArith Qabs Lqa.
From Stdlib Require Import Ascii String DecimalString DecimalNat.
From Stdlib Require Import Permutation Sorted.
Import ListNotations.

Open Scope string_scope.
Open Scope list_scope.
Open Scope nat_scope.

(** ** Python built-ins used by the program *)

Module Py.

(** [c.isspace()] on ASCII: TAB..CR, FS..US and the blank. *)
Definition isspace (c : ascii) : bool :=
  let n := nat_of_ascii c in
  ((9 <=? n) && (n <=? 13)) || ((28 <=? n) && (n <=? 32)).

Definition isupper (c : ascii) : bool :=
  let n := nat_of_ascii c in (65 <=? n) && (n <=? 90).

Definition islower (c : ascii) : bool :=
  let n := nat_of_ascii c in (97 <=? n) && (n <=? 122).

Definition isdigit (c : ascii) : bool :=
  let n := nat_of_ascii c in (48 <=? n) && (n <=? 57).

Definition isalnum (c : ascii) : bool := isupper c || islower c || isdigit c.

Definition lower_char (c : ascii) : ascii :=
  if isupper c then ascii_of_nat (nat_of_ascii c + 32) else c.

Definition upper_char (c : ascii) : ascii :=
  if islower c then ascii_of_nat (nat_of_ascii c - 32) else c.

(** [s.lower()] *)
Fixpoint lower (s : string) : string :=
  match s with
  | EmptyString => EmptyString
  | String c s' => String (lower_char c) (lower s')
  end.

(** [sub in s] *)
Fixpoint contains (sub s : string) : bool :=
  prefix sub s ||
  match s with
  | EmptyString => false
  | String _ s' => contains sub s'
  end.

(** [s.count(c)] for a one-character pattern *)
Fixpoint count (c : ascii) (s : string) : nat :=
  match s with
  | EmptyString => 0
  | String d s' => (if Ascii.eqb d c then 1 else 0) + count c s'
  end.

(** [s.split()]: maximal runs of non-blank characters. [cur] is the word
    being read. *)
Fixpoint split_from (cur s : string) : list string :=
  match s with
  | EmptyString => if String.eqb cur "" then [] else [cur]
  | String c s' =>
      if isspace c
      then (if String.eqb cur "" then split_from "" s' else cur :: split_from "" s')
      else split_from (cur ++ String c "") s'
  end.

Definition split (s : string) : list string := split_from "" s.

(** [sep.join(l)] *)
Definition join (sep : string) (l : list string) : string := String.concat sep l.

(** [s[:n]] on a string *)
Definition str_prefix (n : nat) (s : string) : string := substring 0 n s.

(** [s.title()] on ASCII: a letter is upper-cased when it follows a
    non-letter, lower-cased otherwise. *)
Fixpoint title_from (after_letter : bool) (s : string) : string :=
  match s with
  | EmptyString => EmptyString
  | String c s' =>
      if isupper c || islower c
      then String (if after_letter then lower_char c else upper_char c) (title_from true s')
      else String c (title_from false s')
  end.

Definition title (s : string) : string := title_from false s.

(** [str(n)] for a non-negative integer *)
Definition str_of_nat (n : nat) : string := NilEmpty.string_of_uint (Nat.to_uint n).

(** [any(kw in s for kw in kws)] *)
Definition any_in (kws : list string) (s : string) : bool :=
  existsb (fun kw => contains kw s) kws.

(** [x in l] for a list or set of strings *)
Definition mem (x : string) (l : list string) : bool := existsb (String.eqb x) l.

(** [l[-n:]] for [n >= 0]: the last [n] elements, and the whole list for
    [n = 0] (since [-0 = 0]). *)
Definition last_n {A : Type} (n : nat) (l : list A) : list A :=
  match n with
  | O => l
  | S _ => skipn (List.length l - n) l
  end.

(** The exact sum of a list of numbers *)
Definition sum (l : list Q) : Q := fold_left Qplus l 0%Q.

(** [a > b] on floats *)
Definition gt (a b : Q) : bool := negb (Qle_bool a b).

(** [s.split(sep)] for a non-empty [sep]: the pieces between the occurrences
    of [sep], found from the left and without overlap; there is always at
    least one piece.  [cur] is the piece being read, [skip] the number of
    characters of the separator just found that are still to be passed. *)
Fixpoint split_on_from (sep : string) (skip : nat) (cur s : string) : list string :=
  match s with
  | EmptyString => [cur]
  | String c s' =>
      match skip with
      | S k => split_on_from sep k cur s'
      | O =>
          if prefix sep s
          then cur :: split_on_from sep (String.length sep - 1) "" s'
          else split_on_from sep 0 (cur ++ String c "") s'
      end
  end.

Definition split_on (sep s : string) : list string := split_on_from sep 0 "" s.

(** [s.lstrip()], [s.rstrip()] and [s.strip()] when [drop] is [isspace];
    [s.rstrip(chars)] when [drop] tells the characters of [chars]. *)
Fixpoint lstrip_where (drop : ascii -> bool) (s : string) : string :=
  match s with
  | EmptyString => EmptyString
  | String c s' => if drop c then lstrip_where drop s' else s
  end.

Fixpoint rstrip_where (drop : ascii -> bool) (s : string) : string :=
  match s with
  | EmptyString => EmptyString
  | String c s' =>
      match rstrip_where drop s' with
      | EmptyString => if drop c then EmptyString else String c EmptyString
      | rest => String c rest
      end
  end.

Definition strip (s : string) : string := rstrip_where isspace (lstrip_where isspace s).

(** [s.rstrip(".")] *)
Definition rstrip_dots (s : string) : string := rstrip_where (Ascii.eqb ".") s.

End Py.

(** ** [list.sort(key=..., reverse=...)]

    Python's sort is stable, with [reverse=True] too: elements whose keys
    compare equal keep their relative order.  It is modelled by the stable
    insertion sort below; [before k1 k2] says that an element of key [k1] may
    stand in front of one of key [k2] ([k1 <= k2] for an ascending sort,
    [k2 <= k1] for [reverse=True]). *)

Module Sorting.

Section Stable.

Variables A K : Type.
Variable key : A -> K.
Variable before : K -> K -> bool.

Fixpoint insert (x : A) (l : list A) : list A :=
  match l with
  | [] => [x]
  | y :: l' => if before (key x) (key y) then x :: y :: l' else y :: insert x l'
  end.

Definition sort (l : list A) : list A := fold_right insert [] l.

(** The order of the result: each element may stand before all later ones. *)
Definition in_order (a b : A) : Prop := before (key a) (key b) = true.

(** Two keys compare equal. *)
Definition same_key (k1 k2 : K) : bool := before k1 k2 && before k2 k1.

End Stable.

Arguments insert {A K} key before x l.
Arguments sort {A K} key before l.
Arguments in_order {A K} key before a b.
Arguments same_key {K} before k1 k2.

End Sorting.

(** ** Dictionaries in insertion order *)

Module Dict.

Section Dict.

Variable V : Type.

Definition t := list (string * list V).

(** [d.values()] *)
Definition values (d : t) : list (list V) := map snd d.

(** [if k not in d: d[k] = []] followed by [d[k].append(v)]: an existing key
    keeps its place, a new key goes last. *)
Fixpoint append_to (k : string) (v : V) (d : t) : t :=
  match d with
  | [] => [(k, [v])]
  | (k', l) :: d' =>
      if String.eqb k' k then (k', l ++ [v]) :: d' else (k', l) :: append_to k v d'
  end.

(** All values of all keys, key by key: the order in which
    [for vs in d.values(): out.extend(vs)] collects them. *)
Definition flatten (d : t) : list V := List.concat (values d).

End Dict.

Arguments values {V} d.
Arguments append_to {V} k v d.
Arguments flatten {V} d.

End Dict.

(** ** Floating-point arithmetic

    An operation on floats returns the exact result rounded to the format of
    its operands: binary32 for [numpy.float32] values, binary64 for Python
    floats.  [round] is that rounding.  Its laws are those of rounding to
    nearest in a binary format of at least eleven significant bits, on the
    range where the format neither overflows nor underflows. *)

Module Float.

Class Rounding := {
  round : Q -> Q;
  round_proper : forall x y : Q, (x == y -> round x == round y)%Q;
  round_monotone : forall x y : Q, (x <= y -> round x <= round y)%Q;
  round_one : (round 1 == 1)%Q;
  round_error : forall x : Q, (Qabs (round x - x) <= Qabs x * (1 # 1024))%Q
}.

End Float.

(** ** Exceptions

    A call that raises returns [None]; a caller without a handler raises
    with it. *)

Module Raise.

Definition bind {A B : Type} (call : option A) (rest : A -> option B) : option B :=
  match call with
  | Some a => rest a
  | None => None
  end.

End Raise.

Notation "x <- call ;; rest" := (Raise.bind call (fun x => rest))
  (at level 61, call at next level, right associativity).

(** ** The vector store ([memory/vector_store.py]) *)

Module VectorStore.

Definition vector := list Q.

(** [VECTOR_DIMENSION] of [core/config.py] *)
Definition VECTOR_DIMENSION : nat := 384.

(** The store: [index] holds the vectors given to the flat L2 index, in the
    order they were added ([index.ntotal] is its length). *)
Record t := mk {
  dimension : nat;
  index : list vector;
  id_to_vector : list (string * vector);
  vector_to_id : list string
}.

(** [VectorStore()] *)
Definition init : t := mk VECTOR_DIMENSION [] [] [].

(** [self.id_to_vector[memory_id] = vector] *)
Fixpoint assign (k : string) (v : vector) (d : list (string * vector)) :=
  match d with
  | [] => [(k, v)]
  | (k', v') :: d' => if String.eqb k' k then (k, v) :: d' else (k', v') :: assign k v d'
  end.

(** [vector[position] += 1.0] *)
Fixpoint bump (position : nat) (v : vector) : vector :=
  match v, position with
  | [], _ => []
  | x :: v', O => (x + 1)%Q :: v'
  | x :: v', S p => x :: bump p v'
  end.

(** Squared Euclidean distance of two vectors of one length. *)
Definition l2sqr (u v : vector) : Q :=
  Py.sum (map (fun p => ((fst p - snd p) * (fst p - snd p))%Q) (combine u v)).

(** What the flat L2 index reports for one query: exhaustive search over the
    stored vectors; for the [k] nearest, the squared Euclidean distance to the
    query and the position of the vector in the index, nearest first.
    (Vectors at one distance are reported by position here; the library fixes
    no order among them.  [search] below never asks for more than the index
    holds.) *)
Definition nearest (xb : list vector) (xq : vector) (k : nat) : list (Q * nat) :=
  firstn k (Sorting.sort fst Qle_bool
              (combine (map (l2sqr xq) xb) (seq 0 (List.length xb)))).

(** [faiss.IndexFlatL2.search]: the library's [search] opens with
    [assert k > 0], so a request for no neighbour raises AssertionError. *)
Definition IndexFlatL2_search (xb : list vector) (xq : vector) (k : nat)
  : option (list (Q * nat)) :=
  if k =? 0 then None else Some (nearest xb xq k).

(** [self.index.ntotal] *)
Definition size (vs : t) : nat := List.length (index vs).

Section Embedding.

(** The two functions the embedding takes from outside the program: the
    interpreter's [hash] on strings and [numpy.linalg.norm]. *)
Variable hash : string -> Z.
Variable norm : vector -> Q.

(** The format the similarity score is computed in. *)
Context {fl : Float.Rounding}.

(** The loop of [text_to_vector] over the words of the text. *)
Fixpoint count_words (dim : nat) (words : list string) (v : vector) : vector :=
  match words with
  | [] => v
  | word :: rest =>
      let word := string_of_list_ascii (filter Py.isalnum (list_ascii_of_string word)) in
      if String.eqb word ""
      then count_words dim rest v
      else count_words dim rest (bump (Z.to_nat (hash word mod Z.of_nat dim)) v)
  end.

Definition text_to_vector (vs : t) (text : string) : vector :=
  let words := Py.split (Py.lower text) in
  let v := count_words (dimension vs) words (repeat 0%Q (dimension vs)) in
  let magnitude := norm v in
  if Py.gt magnitude 0 then map (fun x => (x / magnitude)%Q) v else v.

Definition add (vs : t) (memory_id text : string) : t :=
  let v := text_to_vector vs text in
  mk (dimension vs)
     (index vs ++ [v])
     (assign memory_id v (id_to_vector vs))
     (vector_to_id vs ++ [memory_id]).

(** [1.0 / (1.0 + dist)]: an addition and a division, each rounded. *)
Definition similarity (dist : Q) : Q := Float.round (1 / Float.round (1 + dist)).

(** The loop of [search] over the pairs the index returned. *)
Fixpoint to_results (ids : list string) (found : list (Q * nat)) : list (string * Q) :=
  match found with
  | [] => []
  | (dist, idx) :: rest =>
      match nth_error ids idx with
      | Some memory_id => (memory_id, similarity dist) :: to_results ids rest
      | None => to_results ids rest
      end
  end.

Definition search (vs : t) (query_text : string) (top_k : nat)
  : option (list (string * Q)) :=
  if size vs =? 0 then Some []
  else
    let query_vector := text_to_vector vs query_text in
    let top_k := Nat.min top_k (size vs) in
    found <- IndexFlatL2_search (index vs) query_vector top_k ;;
    Some (to_results (vector_to_id vs) found).

End Embedding.

End VectorStore.

(** ** The memory agent ([agents/memory_agent.py]) *)

Module MemoryAgent.

(** [d.get(key, default)] on a record of optional keys *)
Definition get {A : Type} (field : option A) (default : A) : A :=
  match field with
  | Some v => v
  | None => default
  end.

(** The metadata dictionaries the program builds: the keys it ever writes. *)
Record Metadata := mk_metadata {
  topic : option string;
  source : option string;
  confidence : option Q;
  agent : option string;
  query : option string;
  complexity : option string
}.

(** [{}] *)
Definition no_metadata : Metadata := mk_metadata None None None None None None.

Record MemoryRecord := mk_record {
  id : string;
  type : string;
  content : string;
  metadata : Metadata;
  timestamp : string
}.

(** A copy of a record with the scores the search paths attach to it. *)
Record ScoredRecord := mk_scored {
  record : MemoryRecord;
  match_score : option Q;
  similarity_score : option Q
}.

(** The payload of a request to the agent. *)
Record Payload := mk_payload {
  operation : option string;
  p_memory_type : option string;
  p_content : option string;
  p_metadata : option Metadata;
  p_limit : option nat;
  p_query : option string;
  p_search_type : option string
}.

Definition empty_payload : Payload := mk_payload None None None None None None None.

Record StoreResult := mk_stored {
  memory_id : string;
  stored_status : string;
  stored_type : string
}.

Record RetrieveResult := mk_retrieved {
  memories : list MemoryRecord;
  retrieved_count : nat
}.

Record SearchResult := mk_searched {
  searched_query : string;
  results : list ScoredRecord;
  count : nat
}.

Inductive Result :=
| Stored (r : StoreResult)
| Retrieved (r : RetrieveResult)
| Searched (r : SearchResult)
| Error (message : string).

(** The payload of the agent's response message. *)
Record Response := mk_response {
  response_operation : string;
  result : Result;
  status : string
}.

(** The agent's state. *)
Record t := mk {
  vector_store : VectorStore.t;
  conversation_memory : list MemoryRecord;
  knowledge_base : Dict.t MemoryRecord;
  agent_state_memory : Dict.t MemoryRecord;
  memory_id_counter : nat
}.

(** [MemoryAgent()] *)
Definition init : t := mk VectorStore.init [] [] [] 0.

(** The records of the three stores in the order the agent walks them:
    conversation, then knowledge topic by topic, then agent state agent by
    agent. *)
Definition all_memories (st : t) : list MemoryRecord :=
  conversation_memory st ++ Dict.flatten (knowledge_base st)
    ++ Dict.flatten (agent_state_memory st).

Definition has_id (memory_id : string) (m : MemoryRecord) : bool :=
  String.eqb (id m) memory_id.

Definition _find_memory_by_id (st : t) (memory_id : string) : option MemoryRecord :=
  match find (has_id memory_id) (conversation_memory st) with
  | Some m => Some m
  | None =>
      match find (has_id memory_id) (Dict.flatten (knowledge_base st)) with
      | Some m => Some m
      | None => find (has_id memory_id) (Dict.flatten (agent_state_memory st))
      end
  end.

(** Timestamps are ["%Y-%m-%d %H:%M:%S"] strings, compared as strings;
    [reverse=True] puts the later one first. *)
Definition later_first (t1 t2 : string) : bool := String.leb t2 t1.

Definition _retrieve_collect (st : t) (memory_type : string) (limit : nat)
  : list MemoryRecord :=
  (if String.eqb memory_type "conversation" || String.eqb memory_type "all"
   then Py.last_n limit (conversation_memory st) else [])
  ++ (if String.eqb memory_type "knowledge" || String.eqb memory_type "all"
      then Dict.flatten (knowledge_base st) else [])
  ++ (if String.eqb memory_type "agent_state" || String.eqb memory_type "all"
      then Dict.flatten (agent_state_memory st) else []).

Definition _retrieve_memory (st : t) (payload : Payload) : RetrieveResult :=
  let memory_type := get (p_memory_type payload) "all" in
  let limit := get (p_limit payload) 10 in
  let results := _retrieve_collect st memory_type limit in
  let results := Sorting.sort timestamp later_first results in
  let results := firstn limit results in
  mk_retrieved results (List.length results).

(** [len(set(words))]: the distinct words. *)
Definition distinct (words : list string) : list string := nodup string_dec words.

Definition keyword_match_score (query_lower : string) (m : MemoryRecord) : Q :=
  let query_words := distinct (Py.split query_lower) in
  let content := Py.lower (content m) in
  let topic := Py.lower (get (topic (metadata m)) "") in
  let content_words := Py.split content in
  let topic_words := Py.split topic in
  if Py.contains query_lower content || Py.contains query_lower topic
  then 1
  else
    let overlap :=
      filter (fun w => Py.mem w content_words || Py.mem w topic_words) query_words in
    match overlap with
    | [] => 0
    | _ => inject_Z (Z.of_nat (List.length overlap))
           / inject_Z (Z.of_nat (List.length query_words))
    end.

(** [x.get(key, 0)] on a score *)
Definition score (s : option Q) : Q := get s 0%Q.

(** [reverse=True] on scores: the higher one first. *)
Definition higher_first (s1 s2 : Q) : bool := Qle_bool s2 s1.

(** The loop of [_keyword_search] over all memories. *)
Fixpoint keyword_matches (query_lower : string) (l : list MemoryRecord)
  : list ScoredRecord :=
  match l with
  | [] => []
  | m :: l' =>
      let s := keyword_match_score query_lower m in
      if Py.gt s 0
      then mk_scored m (Some s) None :: keyword_matches query_lower l'
      else keyword_matches query_lower l'
  end.

Definition _keyword_search (st : t) (query : string) (limit : nat) : list ScoredRecord :=
  let query_lower := Py.lower query in
  let results := keyword_matches query_lower (all_memories st) in
  let results := Sorting.sort (fun x => score (match_score x)) higher_first results in
  firstn limit results.

(** The first loop of [_search_memory]: the records of the ids the vector
    store returned. *)
Fixpoint vector_hits (st : t) (similar_ids : list (string * Q)) : list ScoredRecord :=
  match similar_ids with
  | [] => []
  | (memory_id, similarity) :: rest =>
      match _find_memory_by_id st memory_id with
      | Some m => mk_scored m None (Some similarity) :: vector_hits st rest
      | None => vector_hits st rest
      end
  end.

(** The second loop: keyword hits whose id the vector path has not found. *)
Fixpoint keyword_only (existing_ids : list string) (keyword_results : list ScoredRecord)
  : list ScoredRecord :=
  match keyword_results with
  | [] => []
  | kr :: rest =>
      if negb (Py.mem (id (record kr)) existing_ids)
      then mk_scored (record kr) (match_score kr) (Some (7 # 10))
             :: keyword_only existing_ids rest
      else keyword_only existing_ids rest
  end.

(** [get_statistics] *)
Record Statistics := mk_statistics {
  conversation_count : nat;
  knowledge_topics : nat;
  total_knowledge : nat;
  agent_states : nat;
  vector_store_size : nat
}.

Definition get_statistics (st : t) : Statistics :=
  mk_statistics
    (List.length (conversation_memory st))
    (List.length (knowledge_base st))
    (list_sum (map (@List.length MemoryRecord) (Dict.values (knowledge_base st))))
    (List.length (agent_state_memory st))
    (VectorStore.size (vector_store st)).

Section Embedding.

Variable hash : string -> Z.
Variable norm : VectorStore.vector -> Q.
Context {fl : Float.Rounding}.

(** [now] is the reading of [datetime.now()], already formatted. *)
Definition _store_memory (st : t) (payload : Payload) (now : string) : StoreResult * t :=
  let memory_type := get (p_memory_type payload) "conversation" in
  let content := get (p_content payload) "" in
  let metadata := get (p_metadata payload) no_metadata in
  let memory_id := ("mem_" ++ Py.str_of_nat (memory_id_counter st))%string in
  let counter := memory_id_counter st + 1 in
  let timestamp := now in
  let memory_record := mk_record memory_id memory_type content metadata timestamp in
  let conversation :=
    if String.eqb memory_type "conversation"
    then conversation_memory st ++ [memory_record]
    else conversation_memory st in
  let knowledge :=
    if String.eqb memory_type "conversation" then knowledge_base st
    else if String.eqb memory_type "knowledge"
    then Dict.append_to (get (topic metadata) "general") memory_record (knowledge_base st)
    else knowledge_base st in
  let agent_state :=
    if String.eqb memory_type "conversation" then agent_state_memory st
    else if String.eqb memory_type "knowledge" then agent_state_memory st
    else if String.eqb memory_type "agent_state"
    then Dict.append_to (get (agent metadata) "unknown") memory_record
           (agent_state_memory st)
    else agent_state_memory st in
  let search_text := (get (topic metadata) "" ++ " " ++ content)%string in
  let vs := VectorStore.add hash norm (vector_store st) memory_id search_text in
  (mk_stored memory_id "stored" memory_type,
   mk vs conversation knowledge agent_state counter).

Definition vector_path (st : t) (query search_type : string) (limit : nat)
  : option (list ScoredRecord) :=
  if Py.mem search_type ["vector"; "hybrid"]
  then
    similar_ids <- VectorStore.search hash norm (vector_store st) query limit ;;
    Some (vector_hits st similar_ids)
  else Some [].

Definition keyword_path (st : t) (query search_type : string) (limit : nat)
  (results : list ScoredRecord) : list ScoredRecord :=
  if Py.mem search_type ["keyword"; "hybrid"]
  then keyword_only (map (fun r => id (record r)) results)
         (_keyword_search st query limit)
  else [].

(** The rest of [_search_memory] once the vector path has returned: the
    keyword path, the merge, the sort and the cut. *)
Definition merged (st : t) (query search_type : string) (limit : nat)
  (results : list ScoredRecord) : SearchResult :=
  let results := results ++ keyword_path st query search_type limit results in
  let results :=
    Sorting.sort (fun x => score (similarity_score x)) higher_first results in
  let results := firstn limit results in
  mk_searched query results (List.length results).

Definition _search_memory (st : t) (payload : Payload) : option SearchResult :=
  let query := get (p_query payload) "" in
  let search_type := get (p_search_type payload) "hybrid" in
  let limit := get (p_limit payload) 5 in
  results <- vector_path st query search_type limit ;;
  Some (merged st query search_type limit results).

(** [process_message], on the payload of the message: the response payload
    and the agent's next state.  The agent has no handler: what a search
    raises, [process_message] raises. *)
Definition process_message (st : t) (payload : Payload) (now : string)
  : option (Response * t) :=
  let operation := get (operation payload) "retrieve" in
  if String.eqb operation "store"
  then let '(r, st') := _store_memory st payload now in
       Some (mk_response operation (Stored r) "stored", st')
  else if String.eqb operation "retrieve"
  then Some (mk_response operation (Retrieved (_retrieve_memory st payload)) "retrieved",
             st)
  else if String.eqb operation "search"
  then
    r <- _search_memory st payload ;;
    Some (mk_response operation (Searched r) "searched", st)
  else Some (mk_response operation (Error ("Unknown operation: " ++ operation)%string)
               "error",
             st).

(** [store_conversation] and [store_knowledge] *)
Definition store_conversation (st : t) (user_query agent_name response : string)
  (metadata : Metadata) (now : string) : StoreResult * t :=
  let meta := mk_metadata (topic metadata) (source metadata) (confidence metadata)
                (Some agent_name) (Some user_query) (complexity metadata) in
  _store_memory st
    (mk_payload None (Some "conversation") (Some response) (Some meta) None None None)
    now.

Definition store_knowledge (st : t) (topic content source : string) (confidence : Q)
  (agent_name : string) (now : string) : StoreResult * t :=
  _store_memory st
    (mk_payload None (Some "knowledge") (Some content)
       (Some (mk_metadata (Some topic) (Some source) (Some confidence) (Some agent_name)
                None None))
       None None None)
    now.

(** The states the agent can be in: it starts empty, and only a store
    changes it. *)
Inductive reachable : t -> Prop :=
| reachable_init : reachable init
| reachable_store st payload now :
    reachable st -> reachable (snd (_store_memory st payload now)).

End Embedding.

End MemoryAgent.

(** ** The analysis agent ([agents/analysis_agent.py]) *)

Module AnalysisAgent.

Import MemoryAgent (get).

(** A research result, as the research agent builds it. *)
Record ResearchRecord := mk_research {
  topic : option string;
  summary : option string;
  details : option string;
  source : option string;
  confidence : option Q
}.

Record Comparison := mk_comparison {
  approach : string;
  description : string;
  analysis : string
}.

Record Tradeoff := mk_tradeoff {
  tradeoff_approach : string;
  advantages : list string;
  disadvantages : list string;
  tradeoff_summary : string
}.

Record AreaChallenges := mk_area {
  area : string;
  challenges : list string
}.

Record Insight := mk_insight {
  insight_topic : string;
  insight : string;
  insight_confidence : Q
}.

(** The dictionary an analysis returns: the keys the analyses modelled here
    write and the coordinator reads. *)
Record Analysis := mk_analysis {
  type : option string;
  comparison : option string;
  items_compared : option nat;
  comparisons : option (list Comparison);
  recommendation : option string;
  tradeoffs : option (list Tradeoff);
  challenges_by_area : option (list AreaChallenges);
  common_challenges : option (list string);
  insights : option (list Insight);
  analysis_summary : option string;
  analysis_confidence : option Q
}.

(** [{}] *)
Definition no_analysis : Analysis :=
  mk_analysis None None None None None None None None None None None.

(** [max(data, key=...)]: the first element of greatest key. *)
Fixpoint max_by (key : ResearchRecord -> Q) (best : ResearchRecord)
  (rest : list ResearchRecord) : ResearchRecord :=
  match rest with
  | [] => best
  | x :: rest' => max_by key (if Py.gt (key x) (key best) then x else best) rest'
  end.

Definition _generate_recommendation (data : list ResearchRecord) (task : string) : string :=
  match data with
  | [] => "Insufficient data for recommendation"
  | first :: rest =>
      let best_item := max_by (fun x => get (confidence x) 0%Q) first rest in
      ("Based on the analysis, " ++ get (topic best_item) ""
       ++ " appears most suitable due to its strong foundation and proven effectiveness in the domain.")%string
  end.

(** [enumerate(l, start)] *)
Definition enumerate {A : Type} (l : list A) (start : nat) : list (nat * A) :=
  combine (seq start (List.length l)) l.

Definition _compare_data (data : list ResearchRecord) (task : string) : Analysis :=
  if List.length data <? 2
  then mk_analysis None (Some "Insufficient data for comparison") None None None None
         None None None None (Some (3 # 10))
  else
    let comparisons :=
      map (fun p : nat * ResearchRecord =>
             let (i, item) := p in
             mk_comparison
               (get (topic item) ("Item " ++ Py.str_of_nat (i + 1))%string)
               (get (summary item) "")
               (get (details item) ""))
          (enumerate data 0) in
    let recommendation := _generate_recommendation data task in
    mk_analysis (Some "comparison") None (Some (List.length data)) (Some comparisons)
      (Some recommendation) None None None None None (Some (85 # 100)).

Definition _general_analysis (data : list ResearchRecord) (task : string) : Analysis :=
  let insights :=
    map (fun item =>
           mk_insight (get (topic item) "") (get (summary item) "")
             (get (confidence item) (8 # 10)))
        data in
  mk_analysis (Some "general_analysis") None None None None None None None
    (Some insights)
    (Some ("Analyzed " ++ Py.str_of_nat (List.length data) ++ " information sources")%string)
    (Some (80 # 100)).

(** [counts[x] = counts.get(x, 0) + 1] on a dictionary in insertion order *)
Fixpoint count_one (x : string) (counts : list (string * nat)) : list (string * nat) :=
  match counts with
  | [] => [(x, 1)]
  | (y, n) :: rest =>
      if String.eqb y x then (y, n + 1) :: rest else (y, n) :: count_one x rest
  end.

(** The counting loop over a list of names. *)
Definition count_all (names : list string) : list (string * nat) :=
  fold_left (fun counts x => count_one x counts) names [].

(** The tail of [_find_common_approaches] and [_find_common_challenges]: the
    names by falling count, the first three of them, or the default when
    there is none. *)
Definition most_common (names : list string) (default : string) : list string :=
  let common := Sorting.sort snd (fun a b => Nat.leb b a) (count_all names) in
  match common with
  | [] => [default]
  | _ => map fst (firstn 3 common)
  end.

Record Methodology := mk_methodology {
  methodology_topic : string;
  methods_identified : list string;
  methodology_description : string
}.

Definition _find_common_approaches (methodologies : list Methodology) : list string :=
  most_common (flat_map methods_identified methodologies)
    "Various domain-specific methods".

Definition _find_common_challenges (all_challenges : list AreaChallenges) : list string :=
  most_common (flat_map challenges all_challenges)
    "Implementation and resource considerations".

Section Reasoner.

(** The four analyses that extract text from the knowledge base's prose are
    taken as given. *)
Variable _synthesize_data : list ResearchRecord -> string -> Analysis.
Variable _analyze_tradeoffs : list ResearchRecord -> string -> Analysis.
Variable _analyze_methodology : list ResearchRecord -> string -> Analysis.
Variable _identify_challenges : list ResearchRecord -> string -> Analysis.

Definition _analyze (data : list ResearchRecord) (analysis_type task : string) : Analysis :=
  if String.eqb analysis_type "comparison" then _compare_data data task
  else if String.eqb analysis_type "synthesis" then _synthesize_data data task
  else if String.eqb analysis_type "trade_offs" then _analyze_tradeoffs data task
  else if String.eqb analysis_type "methodology" then _analyze_methodology data task
  else if String.eqb analysis_type "challenges" then _identify_challenges data task
  else _general_analysis data task.

(** The payload of a request to the agent, and of its response. *)
Record Payload := mk_payload {
  p_task : option string;
  p_data : option (list ResearchRecord);
  p_analysis_type : option string
}.

Record Response := mk_response {
  task : string;
  response_analysis : Analysis;
  status : string
}.

Definition process_message (payload : Payload) : Response :=
  let task := get (p_task payload) "" in
  let data := get (p_data payload) [] in
  let analysis_type := get (p_analysis_type payload) "general" in
  let analysis_result := _analyze data analysis_type task in
  mk_response task analysis_result "completed".

End Reasoner.

End AnalysisAgent.

(** ** The coordinator ([agents/coordinator.py]) *)

Module Coordinator.

Import MemoryAgent (get).

(** The complexity levels of [core/config.py] *)
Definition COMPLEXITY_SIMPLE : string := "simple".
Definition COMPLEXITY_MEDIUM : string := "medium".
Definition COMPLEXITY_COMPLEX : string := "complex".

(** The keyword lists of [_analyze_complexity] *)
Definition complex_keywords : list string :=
  ["compare"; "analyze"; "evaluate"; "research and";
   "find and"; "identify and"; "synthesize"; "trade-offs";
   "trade-off"; "advantages and disadvantages"; "pros and cons"].

Definition medium_keywords : list string :=
  ["explain"; "describe"; "how"; "why"; "relationship";
   "difference"; "similarity"; "methodology"].

Definition memory_keywords : list string :=
  ["earlier"; "previous"; "before"; "discussed";
   "we talked"; "mentioned"; "said"].

Definition _analyze_complexity (query : string) : string :=
  let query_lower := Py.lower query in
  if Py.any_in memory_keywords query_lower then COMPLEXITY_SIMPLE
  else if Py.any_in complex_keywords query_lower then COMPLEXITY_COMPLEX
  else if Py.any_in medium_keywords query_lower then COMPLEXITY_MEDIUM
  else if (1 <? Py.count "?" query) || (2 <? Py.count "," query) then COMPLEXITY_COMPLEX
  else COMPLEXITY_SIMPLE.

(** The keyword list of [_create_execution_plan] *)
Definition plan_memory_keywords : list string :=
  ["earlier"; "previous"; "before"; "discussed"; "we talked"].

(** The table of [_extract_research_topics], in its order *)
Definition topic_keywords : list (string * list string) :=
  [("neural networks", ["neural network"; "neural net"]);
   ("transformers", ["transformer"; "transformer architecture"]);
   ("reinforcement learning", ["reinforcement learning"; "rl"; "reinforcement"]);
   ("machine learning", ["machine learning"; "ml"]);
   ("deep learning", ["deep learning"]);
   ("cnn", ["cnn"; "convolutional"]);
   ("rnn", ["rnn"; "recurrent"])].

Definition stop_words : list string :=
  ["what"; "are"; "the"; "is"; "a"; "an"; "how"; "why"; "about"].

Definition _extract_research_topics (query : string) : list string :=
  let query_lower := Py.lower query in
  let topics :=
    map fst (filter (fun e => Py.any_in (snd e) query_lower) topic_keywords) in
  let topics :=
    match topics with
    | [] =>
        let words := Py.split query_lower in
        let meaningful_words :=
          filter (fun w => negb (Py.mem w stop_words) && (3 <? String.length w)) words in
        match meaningful_words with
        | [] => []
        | _ => [Py.join " " (firstn 3 meaningful_words)]
        end
    | _ => topics
    end in
  firstn 2 topics.

Definition _determine_analysis_type (query : string) : string :=
  let query_lower := Py.lower query in
  if Py.contains "compare" query_lower || Py.contains "comparison" query_lower
  then "comparison"
  else if Py.contains "trade-off" query_lower || Py.contains "tradeoffs" query_lower
  then "trade_offs"
  else if Py.contains "methodology" query_lower || Py.contains "methods" query_lower
  then "methodology"
  else if Py.contains "challenge" query_lower || Py.contains "challenges" query_lower
  then "challenges"
  else if Py.contains "analyze" query_lower || Py.contains "analysis" query_lower
  then "synthesis"
  else "general".

(** A step of the execution plan. *)
Record Step := mk_step {
  step : nat;
  agent : string;
  action : string;
  topic : option string;
  analysis_type : option string;
  reason : string;
  depends_on : option (list nat)
}.

(** [sum(l)] over floats: the additions are made from the left, each one
    rounded. *)
Definition float_sum {fl : Float.Rounding} (l : list Q) : Q :=
  fold_left (fun total x => Float.round (total + x)%Q) l 0%Q.

(** The mean the planner takes over the memory results: the sum of the
    scores, then its division by the count, rounded. *)
Definition memory_confidence {fl : Float.Rounding}
  (memory_results : MemoryAgent.SearchResult) : Q :=
  Float.round
    (float_sum (map (fun m => MemoryAgent.score (MemoryAgent.similarity_score m))
                    (MemoryAgent.results memory_results))
     / inject_Z (Z.of_nat (Nat.max (MemoryAgent.count memory_results) 1)))%Q.

(** The value of [needs_research] when the plan is built; [0.8] is the float
    the literal denotes. *)
Definition needs_research {fl : Float.Rounding} (complexity : string)
  (memory_results : MemoryAgent.SearchResult) : bool :=
  if 0 <? MemoryAgent.count memory_results
  then negb (Py.gt (memory_confidence memory_results) (Float.round (8 # 10))
             && String.eqb complexity COMPLEXITY_SIMPLE)
  else true.

(** The research loop: one step per topic, numbered from [step_num]. *)
Fixpoint research_steps (step_num : nat) (research_topics : list string) : list Step :=
  match research_topics with
  | [] => []
  | topic :: rest =>
      mk_step step_num "ResearchAgent" "research" (Some topic) None
        ("Retrieve information about " ++ topic)%string None
      :: research_steps (step_num + 1) rest
  end.

Definition _create_execution_plan {fl : Float.Rounding} (query complexity : string)
  (memory_results : MemoryAgent.SearchResult) : list Step :=
  let query_lower := Py.lower query in
  if Py.any_in plan_memory_keywords query_lower
  then [mk_step 1 "MemoryAgent" "retrieve_conversation" None None
          "Query asks about previous conversation" None]
  else
    let research_topics := _extract_research_topics query in
    let needs_research := needs_research complexity memory_results in
    let step_num := 1 in
    let research :=
      if needs_research && negb (Nat.eqb (List.length research_topics) 0)
      then research_steps step_num research_topics else [] in
    let step_num := step_num + List.length research in
    let analysis :=
      if Py.mem complexity [COMPLEXITY_MEDIUM; COMPLEXITY_COMPLEX]
      then
        let analysis_type := _determine_analysis_type query in
        [mk_step step_num "AnalysisAgent" "analyze" None (Some analysis_type)
           ("Perform " ++ analysis_type ++ " analysis on research results")%string
           (Some (seq 1 (step_num - 1)))]
      else [] in
    research ++ analysis.

(** What a collaborator hands back for a step. *)
Record ResearchPayload := mk_research_payload {
  research_query : string;
  research_results : list AnalysisAgent.ResearchRecord;
  research_task : string;
  research_status : string
}.

(** [MemoryFailed] is the dictionary [_call_memory_agent] puts in the place
    of a response when the memory agent raises:
    [{"result": {"memories": []}, "status": "error"}]. *)
Inductive StepPayload :=
| FromResearch (p : ResearchPayload)
| FromAnalysis (p : AnalysisAgent.Response)
| FromMemory (p : MemoryAgent.Response)
| MemoryFailed.

Record ExecResult := mk_exec {
  exec_agent : string;
  exec_action : string;
  exec_result : StepPayload
}.

(** [exec_result["result"].get("results", [])] *)
Definition payload_results (p : StepPayload) : list AnalysisAgent.ResearchRecord :=
  match p with
  | FromResearch r => research_results r
  | _ => []
  end.

(** [exec_result["result"].get("analysis", {})] *)
Definition payload_analysis (p : StepPayload) : AnalysisAgent.Analysis :=
  match p with
  | FromAnalysis r => AnalysisAgent.response_analysis r
  | _ => AnalysisAgent.no_analysis
  end.

(** [exec_result["result"].get("result", {}).get("memories", [])] *)
Definition payload_memories (p : StepPayload) : list MemoryAgent.MemoryRecord :=
  match p with
  | FromMemory r =>
      match MemoryAgent.result r with
      | MemoryAgent.Retrieved m => MemoryAgent.memories m
      | _ => []
      end
  | _ => []
  end.

Definition nl : string := String (ascii_of_nat 10) "".

Definition no_memory_sentence : string :=
  "I don't have any relevant information from our previous conversations.".

Definition not_enough_sentence : string :=
  "I don't have enough information to provide a comprehensive answer to your query.".

(** The lines of the memory-only answer. *)
Definition memory_lines (memories : list MemoryAgent.MemoryRecord) : list string :=
  match memories with
  | [] => [no_memory_sentence]
  | _ =>
      ("Based on our previous conversation:" ++ nl)%string
      :: flat_map
           (fun p : nat * MemoryAgent.MemoryRecord =>
              let (i, mem) := p in
              let content := MemoryAgent.content mem in
              let topic := get (MemoryAgent.topic (MemoryAgent.metadata mem)) "" in
              (if String.eqb topic "" then []
               else [(nl ++ Py.str_of_nat i ++ ". Regarding " ++ topic ++ ":")%string])
              ++ [("   " ++ Py.str_prefix 200 content)%string])
           (AnalysisAgent.enumerate (firstn 3 memories) 1)
  end.

(** The lines for the research findings. *)
Definition research_lines (memory_results : MemoryAgent.SearchResult)
  (research_results : list AnalysisAgent.ResearchRecord) : list string :=
  match research_results with
  | [] => []
  | _ =>
      (if 0 <? MemoryAgent.count memory_results
       then [("Building on our previous discussion and new research:" ++ nl)%string]
       else [])
      ++ flat_map
           (fun p : nat * AnalysisAgent.ResearchRecord =>
              let (i, result) := p in
              let topic := get (AnalysisAgent.topic result) "" in
              let summary := get (AnalysisAgent.summary result) "" in
              let details := get (AnalysisAgent.details result) "" in
              [(nl ++ Py.str_of_nat i ++ ". " ++ Py.title topic ++ ":")%string;
               ("   " ++ summary)%string]
              ++ (if negb (String.eqb details "") && negb (String.eqb details summary)
                  then [("   " ++ details)%string] else []))
           (AnalysisAgent.enumerate research_results 1)
  end.

(** The lines for one analysis. *)
Definition analysis_lines (analysis : AnalysisAgent.Analysis) : list string :=
  let analysis_type := get (AnalysisAgent.type analysis) "" in
  (nl ++ nl ++ "Analysis (" ++ analysis_type ++ "):")%string
  :: (if String.eqb analysis_type "comparison"
      then
        map (fun comp =>
               (nl ++ "- " ++ AnalysisAgent.approach comp ++ ": "
                ++ AnalysisAgent.description comp)%string)
            (get (AnalysisAgent.comparisons analysis) [])
        ++ (let recommendation := get (AnalysisAgent.recommendation analysis) "" in
            if String.eqb recommendation "" then []
            else [(nl ++ "Recommendation: " ++ recommendation)%string])
      else if String.eqb analysis_type "trade_off_analysis"
      then
        flat_map
          (fun to =>
             [(nl ++ "- " ++ AnalysisAgent.tradeoff_approach to ++ ":")%string;
              ("  Advantages: " ++ Py.join ", " (AnalysisAgent.advantages to))%string;
              ("  Disadvantages: " ++ Py.join ", " (AnalysisAgent.disadvantages to))%string])
          (get (AnalysisAgent.tradeoffs analysis) [])
      else if String.eqb analysis_type "challenge_identification"
      then
        map (fun area_challenges =>
               (nl ++ "- " ++ AnalysisAgent.area area_challenges ++ ": "
                ++ Py.join ", " (AnalysisAgent.challenges area_challenges))%string)
            (get (AnalysisAgent.challenges_by_area analysis) [])
        ++ (match get (AnalysisAgent.common_challenges analysis) [] with
            | [] => []
            | common => [(nl ++ "Common challenges: " ++ Py.join ", " common)%string]
            end)
      else
        let summary := get (AnalysisAgent.analysis_summary analysis) "" in
        if String.eqb summary "" then [] else [(nl ++ summary)%string]).

(** [len(execution_results) == 1 and execution_results[0]["agent"] == "MemoryAgent"] *)
Definition memory_only (execution_results : list ExecResult) : option ExecResult :=
  match execution_results with
  | [only] => if String.eqb (exec_agent only) "MemoryAgent" then Some only else None
  | _ => None
  end.

Definition _synthesize_response (execution_results : list ExecResult)
  (memory_results : MemoryAgent.SearchResult) : string :=
  match memory_only execution_results with
  | Some only => Py.join nl (memory_lines (payload_memories (exec_result only)))
  | None =>
      let research_results :=
        flat_map (fun r => if String.eqb (exec_agent r) "ResearchAgent"
                           then payload_results (exec_result r) else [])
                 execution_results in
      let analysis_results :=
        flat_map (fun r => if String.eqb (exec_agent r) "ResearchAgent" then []
                           else if String.eqb (exec_agent r) "AnalysisAgent"
                           then [payload_analysis (exec_result r)] else [])
                 execution_results in
      let response_parts :=
        research_lines memory_results research_results
        ++ flat_map analysis_lines analysis_results in
      match response_parts with
      | [] => Py.join nl [not_enough_sentence]
      | _ => Py.join nl response_parts
      end
  end.

Section Pipeline.

(** What the coordinator's collaborators take from outside: the embedding's
    [hash] and [norm], the research agent's lookup in its knowledge table, and
    the text-extracting analyses. *)
Variable hash : string -> Z.
Variable norm : VectorStore.vector -> Q.
Variable _research : string -> list AnalysisAgent.ResearchRecord.
Variable _synthesize_data : list AnalysisAgent.ResearchRecord -> string -> AnalysisAgent.Analysis.
Variable _analyze_tradeoffs : list AnalysisAgent.ResearchRecord -> string -> AnalysisAgent.Analysis.
Variable _analyze_methodology : list AnalysisAgent.ResearchRecord -> string -> AnalysisAgent.Analysis.
Variable _identify_challenges : list AnalysisAgent.ResearchRecord -> string -> AnalysisAgent.Analysis.
Context {fl : Float.Rounding}.

(** [response.payload.get("result", {})] after a search request *)
Definition search_result (r : MemoryAgent.Response) : MemoryAgent.SearchResult :=
  match MemoryAgent.result r with
  | MemoryAgent.Searched s => s
  | _ => MemoryAgent.mk_searched "" [] 0
  end.

(** [_check_memory] has no handler: what the memory agent raises, it raises. *)
Definition _check_memory (st : MemoryAgent.t) (query now : string)
  : option MemoryAgent.SearchResult :=
  let payload :=
    MemoryAgent.mk_payload (Some "search") None None None (Some 5) (Some query)
      (Some "hybrid") in
  response <- MemoryAgent.process_message hash norm st payload now ;;
  Some (search_result (fst response)).

Definition _call_research_agent (s : Step) : StepPayload :=
  let topic := get (topic s) "" in
  let results := _research topic in
  FromResearch
    (mk_research_payload topic results (reason s)
       (match results with [] => "no_results" | _ => "completed" end)).

Definition _call_analysis_agent (s : Step)
  (research_data : list AnalysisAgent.ResearchRecord) : StepPayload :=
  let analysis_type := get (analysis_type s) "general" in
  FromAnalysis
    (AnalysisAgent.process_message _synthesize_data _analyze_tradeoffs
       _analyze_methodology _identify_challenges
       (AnalysisAgent.mk_payload (Some (reason s)) (Some research_data)
          (Some analysis_type))).

Definition _call_memory_agent (st : MemoryAgent.t) (s : Step) (now : string)
  : StepPayload :=
  let payload :=
    if String.eqb (action s) "retrieve_conversation"
    then MemoryAgent.mk_payload (Some "retrieve") (Some "conversation") None None
           (Some 10) None None
    else MemoryAgent.mk_payload (Some "retrieve") (Some "all") None None
           (Some 5) None None in
  match MemoryAgent.process_message hash norm st payload now with
  | Some response => FromMemory (fst response)
  | None => MemoryFailed
  end.

(** The loop of [_execute_plan]; [research_data] is what the research steps
    run so far have returned. *)
Fixpoint execute_from (st : MemoryAgent.t) (now : string)
  (research_data : list AnalysisAgent.ResearchRecord) (plan : list Step)
  : list ExecResult :=
  match plan with
  | [] => []
  | s :: rest =>
      if String.eqb (agent s) "ResearchAgent"
      then
        let result := _call_research_agent s in
        mk_exec (agent s) (action s) result
        :: execute_from st now (research_data ++ payload_results result) rest
      else if String.eqb (agent s) "AnalysisAgent"
      then
        mk_exec (agent s) (action s) (_call_analysis_agent s research_data)
        :: execute_from st now research_data rest
      else if String.eqb (agent s) "MemoryAgent"
      then
        mk_exec (agent s) (action s) (_call_memory_agent st s now)
        :: execute_from st now research_data rest
      else execute_from st now research_data rest
  end.

Definition _execute_plan (st : MemoryAgent.t) (now : string) (plan : list Step)
  : list ExecResult :=
  execute_from st now [] plan.

(** The knowledge records [_store_interaction] writes, one per research
    result. *)
Fixpoint store_research (st : MemoryAgent.t)
  (found : list AnalysisAgent.ResearchRecord) (now : string) : MemoryAgent.t :=
  match found with
  | [] => st
  | r :: rest =>
      let st' :=
        snd (MemoryAgent.store_knowledge hash norm st
               (get (AnalysisAgent.topic r) "") (get (AnalysisAgent.summary r) "")
               (get (AnalysisAgent.source r) "") (get (AnalysisAgent.confidence r) (8 # 10))
               "ResearchAgent" now) in
      store_research st' rest now
  end.

Definition _store_interaction (st : MemoryAgent.t) (query complexity response : string)
  (execution_results : list ExecResult) (now : string) : MemoryAgent.t :=
  let st :=
    snd (MemoryAgent.store_conversation hash norm st query "Coordinator" response
           (MemoryAgent.mk_metadata None None None None None (Some complexity)) now) in
  store_research st
    (flat_map (fun r => if String.eqb (exec_agent r) "ResearchAgent"
                        then payload_results (exec_result r) else [])
              execution_results)
    now.

(** [process_query]: the response returned to the caller, and the memory
    agent's state afterwards.  [now] is the clock's reading during the query. *)
Definition process_query (st : MemoryAgent.t) (user_query now : string)
  : option (string * MemoryAgent.t) :=
  let complexity := _analyze_complexity user_query in
  memory_results <- _check_memory st user_query now ;;
  let plan := _create_execution_plan user_query complexity memory_results in
  let execution_results := _execute_plan st now plan in
  let final_response := _synthesize_response execution_results memory_results in
  Some (final_response,
        _store_interaction st user_query complexity final_response execution_results
          now).

End Pipeline.

End Coordinator.

(** ** The knowledge table ([memory/knowledge_base.py]) *)

Module KnowledgeBase.

Record Entry := mk_entry {
  summary : string;
  details : option string;
  source : string;
  confidence : Q
}.

(** A table from topic to entry, in the order it is written; as in a [dict],
    no topic occurs twice. *)
Definition table := list (string * Entry).

(** [db.get(key)]: the entry under a key, if there is one. *)
Definition lookup (db : table) (key : string) : option Entry :=
  option_map snd (find (fun kv => String.eqb (fst kv) key) db).

Section Table.

(** [KNOWLEDGE_DB] *)
Variable KNOWLEDGE_DB : table.

Definition search_knowledge (query : string) : option Entry :=
  let query_lower := Py.lower query in
  match lookup KNOWLEDGE_DB query_lower with
  | Some value => Some value
  | None =>
      option_map snd
        (find (fun kv => Py.contains query_lower (fst kv) || Py.contains (fst kv) query_lower)
              KNOWLEDGE_DB)
  end.

End Table.

End KnowledgeBase.

(** ** The research agent ([agents/research_agent.py]) *)

Module ResearchAgent.

Import MemoryAgent (get).

Section Table.

Variable KNOWLEDGE_DB : KnowledgeBase.table.

(** The first loop of [_research]: topics that occur in the query or that
    hold a word of the query. *)
Definition first_pass (query_lower : string) : KnowledgeBase.table :=
  filter (fun kv => Py.contains (fst kv) query_lower
                    || existsb (fun word => Py.contains word (fst kv))
                               (Py.split query_lower))
         KNOWLEDGE_DB.

(** The second loop: topics sharing a whole word with the query. *)
Definition second_pass (query_lower : string) : KnowledgeBase.table :=
  filter (fun kv => existsb (fun word => Py.mem word (Py.split (fst kv)))
                            (Py.split query_lower))
         KNOWLEDGE_DB.

(** [matched_topics], each topic with its entry. *)
Definition matched_topics (query_lower : string) : KnowledgeBase.table :=
  match first_pass query_lower with
  | [] => second_pass query_lower
  | matched => matched
  end.

(** The result built for a matched topic. *)
Definition result_of (kv : string * KnowledgeBase.Entry) : AnalysisAgent.ResearchRecord :=
  let (topic, knowledge) := kv in
  AnalysisAgent.mk_research (Some topic)
    (Some (KnowledgeBase.summary knowledge))
    (Some (get (KnowledgeBase.details knowledge) (KnowledgeBase.summary knowledge)))
    (Some (KnowledgeBase.source knowledge))
    (Some (KnowledgeBase.confidence knowledge)).

(** The general result given when nothing matched. *)
Definition fallback_of (knowledge : KnowledgeBase.Entry) : AnalysisAgent.ResearchRecord :=
  AnalysisAgent.mk_research (Some "machine learning (general)")
    (Some "General machine learning information as fallback.")
    (Some (KnowledgeBase.summary knowledge))
    (Some (KnowledgeBase.source knowledge))
    (Some (6 # 10)).

Definition _research (query : string) : list AnalysisAgent.ResearchRecord :=
  let query_lower := Py.lower query in
  let results := map result_of (matched_topics query_lower) in
  match results with
  | [] =>
      match KnowledgeBase.lookup KNOWLEDGE_DB "machine learning" with
      | Some knowledge => [fallback_of knowledge]
      | None => []
      end
  | _ => results
  end.

(** The payload of a request to the agent. *)
Record Payload := mk_payload {
  p_query : option string;
  p_task : option string
}.

Definition process_message (payload : Payload) : Coordinator.ResearchPayload :=
  let query := get (p_query payload) "" in
  let task_description := get (p_task payload) query in
  let results := _research query in
  Coordinator.mk_research_payload query results task_description
    (match results with [] => "no_results" | _ => "completed" end).

End Table.

End ResearchAgent.

(** ** The analyses that read the records' prose ([agents/analysis_agent.py])

    Each returns the dictionary the source builds.  [_identify_challenges]
    writes keys of [AnalysisAgent.Analysis] only; the other three have keys of
    their own. *)

Module TextAnalyses.

Import MemoryAgent (get).
Import AnalysisAgent.

(** [l if l else default] *)
Definition or_default (l default : list string) : list string :=
  match l with
  | [] => default
  | _ => l
  end.

(** A loop whose body may raise: the first failure ends it. *)
Fixpoint for_each {A B : Type} (body : A -> option B) (l : list A) : option (list B) :=
  match l with
  | [] => Some []
  | x :: rest =>
      match body x with
      | None => None
      | Some y =>
          match for_each body rest with
          | None => None
          | Some ys => Some (y :: ys)
          end
      end
  end.

(** *** Synthesis *)

Record Synthesis := mk_synthesis {
  synthesis_type : string;
  key_points : list string;
  synthesis : string;
  sources_consulted : list string;
  synthesis_confidence : Q
}.

(** [if source not in sources: sources.append(source)] *)
Definition consult (sources : list string) (source : string) : list string :=
  if Py.mem source sources then sources else sources ++ [source].

Definition _synthesize_data (data : list ResearchRecord) (task : string) : Synthesis :=
  let key_points :=
    map (fun item => (get (topic item) "" ++ ": " ++ get (summary item) "")%string) data in
  let sources :=
    fold_left (fun sources item => consult sources (get (source item) "Unknown")) data [] in
  mk_synthesis "synthesis" key_points (Py.join " " key_points) sources (82 # 100).

(** *** Trade-offs *)

Record TradeoffAnalysis := mk_tradeoff_analysis {
  tradeoff_type : string;
  analysed_tradeoffs : list Tradeoff;
  overall_conclusion : string;
  tradeoff_confidence : Q
}.

Definition _conclude_tradeoffs (tradeoffs : list Tradeoff) : string :=
  ("Analysis of " ++ Py.str_of_nat (List.length tradeoffs)
   ++ " approaches reveals that each has specific strengths and limitations. Selection should be based on specific use case requirements and available resources.")%string.

(** The advantages and the disadvantages read from the clause that follows
    "Trade-offs:" in the details.  [None] is the IndexError of
    [pros_cons[1]]. *)
Definition clause_tradeoffs (details : string) : option (list string * list string) :=
  let details_lower := Py.lower details in
  if Py.contains "trade-off" details_lower || Py.contains "trade-offs" details_lower
  then
    match Py.split_on "Trade-offs:" details with
    | _ :: tradeoff_text :: _ =>
        if Py.contains "but" (Py.lower tradeoff_text)
        then
          match Py.split_on "but" tradeoff_text with
          | first :: second :: _ => Some ([Py.strip first], [Py.strip second])
          | _ => None
          end
        else Some ([], [Py.strip tradeoff_text])
    | _ => Some ([], [])
    end
  else Some ([], []).

(** The body of the loop of [_analyze_tradeoffs]. *)
Definition tradeoff_of (item : ResearchRecord) : option Tradeoff :=
  let topic := get (topic item) "" in
  let details := get (details item) "" in
  match clause_tradeoffs details with
  | None => None
  | Some (advantages, disadvantages) =>
      let details_lower := Py.lower details in
      let advantages :=
        advantages
        ++ (if Py.contains "excellent" details_lower || Py.contains "good" details_lower
            then [(topic ++ " shows strong performance in specific areas")%string]
            else []) in
      let disadvantages :=
        disadvantages
        ++ (if Py.contains "expensive" details_lower || Py.contains "require" details_lower
            then [(topic ++ " has resource requirements")%string]
            else []) in
      Some (mk_tradeoff topic
              (or_default advantages ["Specific strengths in domain"])
              (or_default disadvantages ["Resource considerations"])
              (get (summary item) ""))
  end.

Definition _analyze_tradeoffs (data : list ResearchRecord) (task : string)
  : option TradeoffAnalysis :=
  match for_each tradeoff_of data with
  | None => None
  | Some tradeoffs =>
      Some (mk_tradeoff_analysis "trade_off_analysis" tradeoffs
              (_conclude_tradeoffs tradeoffs) (80 # 100))
  end.

(** *** Methodology *)

Record MethodologyAnalysis := mk_methodology_analysis {
  methodology_type : string;
  methodologies : list Methodology;
  common_approaches : list string;
  methodology_confidence : Q
}.

Definition method_keywords : list string :=
  ["DQN"; "PPO"; "Q-Learning"; "Policy Gradient"; "LSTM"; "GRU"; "CNN"; "RNN";
   "Transformer"].

(** The methods found in the details of one record. *)
Definition methods_of (details : string) : list string :=
  let details_lower := Py.lower details in
  if Py.contains "methods" details_lower || Py.contains "algorithms" details_lower
  then filter (fun method_keyword => Py.contains (Py.lower method_keyword) details_lower)
         method_keywords
  else [].

Definition methodology_of (item : ResearchRecord) : Methodology :=
  mk_methodology (get (topic item) "")
    (or_default (methods_of (get (details item) "")) ["Domain-specific approaches"])
    (get (summary item) "").

Definition _analyze_methodology (data : list ResearchRecord) (task : string)
  : MethodologyAnalysis :=
  let methodologies := map methodology_of data in
  mk_methodology_analysis "methodology_analysis" methodologies
    (_find_common_approaches methodologies) (78 # 100).

(** *** Challenges *)

(** The challenges listed after "Challenges ... include" in the details. *)
Definition listed_challenges (details : string) : list string :=
  if Py.contains "challenge" (Py.lower details)
  then
    match Py.split_on "Challenges" details with
    | _ :: challenge_text :: _ =>
        if Py.contains "include" (Py.lower challenge_text)
        then
          match Py.split_on "include" challenge_text with
          | _ :: listed :: _ =>
              map (fun c => Py.rstrip_dots (Py.strip c)) (firstn 3 (Py.split_on "," listed))
          | _ => []
          end
        else []
    | _ => []
    end
  else [].

(** The generic challenges, for a record that lists none. *)
Definition generic_challenges (details : string) : list string :=
  let details_lower := Py.lower details in
  (if Py.contains "data" details_lower
   then ["Data requirements and availability"] else [])
  ++ (if Py.contains "computational" details_lower || Py.contains "compute" details_lower
      then ["Computational resource requirements"] else [])
  ++ (if Py.contains "complex" details_lower
      then ["System complexity and implementation"] else []).

Definition area_of (item : ResearchRecord) : AreaChallenges :=
  let details := get (details item) "" in
  let challenges :=
    match listed_challenges details with
    | [] => generic_challenges details
    | listed => listed
    end in
  mk_area (get (topic item) "") (or_default challenges ["Implementation considerations"]).

Definition _identify_challenges (data : list ResearchRecord) (task : string) : Analysis :=
  let all_challenges := map area_of data in
  mk_analysis (Some "challenge_identification") None None None None None
    (Some all_challenges) (Some (_find_common_challenges all_challenges))
    None None (Some (83 # 100)).

(** *** What the coordinator reads

    The coordinator reads an analysis through the keys of
    [AnalysisAgent.Analysis]; of the other dictionaries it finds these. *)

Definition synthesis_read (r : Synthesis) : Analysis :=
  mk_analysis (Some (synthesis_type r)) None None None None None None None None None
    (Some (synthesis_confidence r)).

Definition methodology_read (r : MethodologyAnalysis) : Analysis :=
  mk_analysis (Some (methodology_type r)) None None None None None None None None None
    (Some (methodology_confidence r)).

Definition tradeoffs_read (r : TradeoffAnalysis) : Analysis :=
  mk_analysis (Some (tradeoff_type r)) None None None None
    (Some (analysed_tradeoffs r)) None None None None (Some (tradeoff_confidence r)).

End TextAnalyses.

(** ** Concrete collaborators

    Instances of what the model takes from outside, for running it on
    examples. *)

Module Fixture.

(** A hash that sends words of different lengths to different buckets. *)
Definition hash (word : string) : Z := Z.of_nat (String.length word).

(** The Euclidean norm, exact on vectors whose squared length is the square
    of a rational and rounded down on its numerator and denominator
    otherwise. *)
Definition norm (v : VectorStore.vector) : Q :=
  let s := Qred (Py.sum (map (fun x => (x * x)%Q) v)) in
  (inject_Z (Z.sqrt (Qnum s)) / inject_Z (Z.sqrt (Zpos (Qden s))))%Q.

(** A knowledge table with one entry. *)
Definition _research (topic : string) : list AnalysisAgent.ResearchRecord :=
  if String.eqb topic "cnn"
  then [AnalysisAgent.mk_research (Some "cnn") (Some "Convolutional networks.")
          (Some "Used for images.") (Some "Computer Vision Research") (Some (93 # 100))]
  else [].

Definition no_extraction (data : list AnalysisAgent.ResearchRecord) (task : string)
  : AnalysisAgent.Analysis := AnalysisAgent.no_analysis.

Definition noon : string := "2024-05-01 12:00:00".

(** Exact arithmetic, the rounding of a format so fine that it leaves every
    result of the examples as it is. *)
Lemma exact_error (x : Q) : (Qabs (x - x) <= Qabs x * (1 # 1024))%Q.
Proof.
  setoid_replace (x - x)%Q with 0%Q by ring. simpl.
  apply Qmult_le_0_compat; [apply Qabs_nonneg | discriminate].
Qed.

Definition exact : Float.Rounding :=
  {| Float.round := fun x => x;
     Float.round_proper := fun x y H => H;
     Float.round_monotone := fun x y H => H;
     Float.round_one := Qeq_refl 1;
     Float.round_error := exact_error |}.

(** A knowledge table of three topics, the general one among them. *)
Definition KNOWLEDGE_DB : KnowledgeBase.table :=
  [("neural networks",
    KnowledgeBase.mk_entry "Computing systems of connected nodes."
      (Some "Feedforward, convolutional and recurrent types.") "AI Research Database"
      (95 # 100));
   ("machine learning",
    KnowledgeBase.mk_entry "Learning from data." None "ML Textbooks" (93 # 100));
   ("deep learning",
    KnowledgeBase.mk_entry "Networks with many layers."
      (Some "Enabled by GPUs and large datasets.") "Deep Learning Literature"
      (94 # 100))].

(** The texts of the example of the similarity score.  Each has one word
    three times and seven words once, so that its vector of counts has length
    4 and its unit vector the entries 3/4 and 1/4: numbers that binary floats
    hold exactly.  The texts share the first six words and differ in the last
    two. *)
Definition stored_text : string :=
  "a a a bb ccc dddd eeeee ffffff ggggggg hhhhhhhh".

Definition query_text : string :=
  "a a a bb ccc dddd eeeee ffffff iiiiiiiii jjjjjjjjjj".

(** A store request for a category, with an optional topic. *)
Definition store (st : MemoryAgent.t) (memory_type : string) (topic : option string)
  (content : string) : MemoryAgent.t :=
  snd (MemoryAgent._store_memory hash norm st
         (MemoryAgent.mk_payload (Some "store") (Some memory_type) (Some content)
            (Some (MemoryAgent.mk_metadata topic None None None None None))
            None None None)
         noon).

(** A conversation record, a knowledge record and a record of a category
    that does not exist, stored in this order.  The words of each text have
    different lengths, and there are four of them or one, so that [norm] is
    exact on their vectors. *)
Definition three_stores : MemoryAgent.t :=
  store
    (store
       (store MemoryAgent.init "conversation" None "Convolutional networks process images")
       "knowledge" (Some "cnn") "good image filter")
    "bogus" None "images".

End Fixture.

(** * Properties *)

(** ** Facts about the stable sort *)

Module SortingFacts.

Import Sorting.

Section Stable.

Variables A K : Type.
Variable key : A -> K.
Variable before : K -> K -> bool.

Local Abbreviation insert := (insert key before).
Local Abbreviation sort := (sort key before).
Local Abbreviation in_order := (in_order key before).
Local Abbreviation same_key := (same_key before).

Lemma insert_perm x l : Permutation (insert x l) (x :: l).
Proof.
  induction l as [|y l IH]; simpl.
  - apply Permutation_refl.
  - destruct (before (key x) (key y)).
    + apply Permutation_refl.
    + eapply Permutation_trans; [apply perm_skip, IH | apply perm_swap].
Qed.

Lemma sort_perm l : Permutation (sort l) l.
Proof.
  induction l as [|x l IH]; simpl.
  - constructor.
  - eapply Permutation_trans; [apply insert_perm | now apply perm_skip].
Qed.

Lemma sort_length l : List.length (sort l) = List.length l.
Proof. apply Permutation_length, sort_perm. Qed.

Lemma sort_In x l : In x (sort l) <-> In x l.
Proof.
  split; apply Permutation_in; [apply sort_perm | apply Permutation_sym, sort_perm].
Qed.

Lemma sort_NoDup_map {B : Type} (f : A -> B) l :
  NoDup (map f l) -> NoDup (map f (sort l)).
Proof.
  apply Permutation_NoDup, Permutation_map, Permutation_sym, sort_perm.
Qed.

Hypothesis before_total : forall k1 k2, before k1 k2 = true \/ before k2 k1 = true.
Hypothesis before_trans :
  forall k1 k2 k3, before k1 k2 = true -> before k2 k3 = true -> before k1 k3 = true.

Lemma insert_sorted x l :
  StronglySorted in_order l -> StronglySorted in_order (insert x l).
Proof.
  induction 1 as [|y l Hs IH Hy]; simpl.
  - repeat constructor.
  - destruct (before (key x) (key y)) eqn:E.
    + constructor; [now constructor|].
      constructor; [exact E|].
      rewrite Forall_forall in *. intros z Hz.
      unfold in_order. eapply before_trans; [exact E | now apply Hy].
    + constructor; [exact IH|].
      rewrite Forall_forall in *. intros z Hz.
      apply (Permutation_in _ (insert_perm x l)) in Hz.
      destruct Hz as [<- | Hz]; [|now apply Hy].
      unfold in_order. destruct (before_total (key x) (key y)); congruence.
Qed.

Lemma sort_sorted l : StronglySorted in_order (sort l).
Proof.
  induction l as [|x l IH]; simpl; [constructor | now apply insert_sorted].
Qed.

(** Stability: the elements of any one key class come out in the order they
    went in. *)
Lemma insert_stable k x l :
  StronglySorted in_order l ->
  filter (fun y => same_key (key y) k) (insert x l) =
  filter (fun y => same_key (key y) k) (x :: l).
Proof.
  induction 1 as [|y l Hs IH Hy]; [reflexivity|].
  cbn [insert]. destruct (before (key x) (key y)) eqn:E; [reflexivity|].
  cbn [filter] in *. rewrite IH.
  destruct (same_key (key x) k) eqn:Ex; [|reflexivity].
  destruct (same_key (key y) k) eqn:Ey; [|reflexivity].
  exfalso. unfold same_key in Ex, Ey.
  apply andb_prop in Ex as [Ex1 Ex2]. apply andb_prop in Ey as [Ey1 Ey2].
  rewrite (before_trans _ _ _ Ex1 Ey2) in E. discriminate.
Qed.

Lemma sort_stable k l :
  filter (fun y => same_key (key y) k) (sort l) =
  filter (fun y => same_key (key y) k) l.
Proof.
  induction l as [|x l IH]; [reflexivity|].
  cbn [sort fold_right]. rewrite insert_stable by apply sort_sorted.
  cbn [filter]. fold (sort l). now rewrite IH.
Qed.

End Stable.

End SortingFacts.

(** ** Facts about the built-ins *)

Module PyFacts.

Lemma prefix_iff (a s : string) :
  prefix a s = true <-> exists post, s = (a ++ post)%string.
Proof.
  revert s. induction a as [|c a IH]; intros s; simpl.
  - destruct s; split; intros; try reflexivity; eexists; reflexivity.
  - destruct s as [|d s].
    + split; [discriminate | intros [post H]; discriminate].
    + simpl. destruct (ascii_dec c d) as [->|Hne].
      * rewrite IH. split; intros [post H]; exists post.
        -- now rewrite H.
        -- now inversion H.
      * split; [discriminate | intros [post H]; inversion H; congruence].
Qed.

(** [kw] occurs in [s]: [s] is some text, then [kw], then some text. *)
Definition occurs (kw s : string) : Prop :=
  exists pre post, s = (pre ++ kw ++ post)%string.

Lemma contains_iff (kw s : string) : Py.contains kw s = true <-> occurs kw s.
Proof.
  induction s as [|c s IH]; cbn [Py.contains].
  - rewrite orb_false_r, prefix_iff. split.
    + intros [post H]. exists "", post. exact H.
    + intros [pre [post H]]. destruct pre; [now exists post|discriminate].
  - rewrite orb_true_iff, prefix_iff, IH. split.
    + intros [[post H] | [pre [post H]]].
      * exists "", post. exact H.
      * exists (String c pre), post. simpl. now rewrite H.
    + intros [pre [post H]]. destruct pre as [|d pre].
      * left. now exists post.
      * right. exists pre, post. simpl in H. now inversion H.
Qed.

Lemma any_in_iff (kws : list string) (s : string) :
  Py.any_in kws s = true <-> exists kw, In kw kws /\ occurs kw s.
Proof.
  unfold Py.any_in. rewrite existsb_exists.
  split; intros [kw [Hin H]]; exists kw; split; auto; now apply contains_iff.
Qed.

(** The number of characters of [s] equal to [c]. *)
Definition occurrences (c : ascii) (s : string) : nat :=
  List.length (filter (Ascii.eqb c) (list_ascii_of_string s)).

Lemma count_occurrences c s : Py.count c s = occurrences c s.
Proof.
  unfold occurrences. induction s as [|d s IH]; simpl; [reflexivity|].
  rewrite (Ascii.eqb_sym c d). destruct (Ascii.eqb d c); simpl; now rewrite IH.
Qed.

Lemma mem_iff x l : Py.mem x l = true <-> In x l.
Proof.
  unfold Py.mem. rewrite existsb_exists. split.
  - intros [y [Hin H]]. apply String.eqb_eq in H. now subst.
  - intros H. exists x. split; [exact H | apply String.eqb_refl].
Qed.

Lemma gt_iff (a b : Q) : Py.gt a b = true <-> (b < a)%Q.
Proof.
  unfold Py.gt. rewrite negb_true_iff. split.
  - intros H. apply Qnot_le_lt. intros Hle. apply Qle_bool_iff in Hle. congruence.
  - intros H. destruct (Qle_bool a b) eqn:E; [|reflexivity].
    apply Qle_bool_iff in E. exfalso. exact (Qlt_not_le _ _ H E).
Qed.

(** Decimal numerals determine the number. *)
Lemma str_of_nat_inj n m : Py.str_of_nat n = Py.str_of_nat m -> n = m.
Proof.
  unfold Py.str_of_nat. intros H.
  apply (f_equal NilEmpty.uint_of_string) in H.
  rewrite !NilEmpty.usu in H. injection H as H.
  apply (f_equal Nat.of_uint) in H. now rewrite !DecimalNat.Unsigned.of_to in H.
Qed.

(** The order on time stamps is transitive. *)
Lemma compare_le_trans (a b c : string) :
  String.compare a b <> Gt -> String.compare b c <> Gt -> String.compare a c <> Gt.
Proof.
  revert b c. induction a as [|x a IH]; intros [|y b] [|z c]; simpl; try congruence.
  unfold Ascii.compare.
  destruct (N.compare_spec (N_of_ascii x) (N_of_ascii y)) as [Hxy|Hxy|Hxy];
    destruct (N.compare_spec (N_of_ascii y) (N_of_ascii z)) as [Hyz|Hyz|Hyz];
    try congruence;
    destruct (N.compare_spec (N_of_ascii x) (N_of_ascii z)) as [Hxz|Hxz|Hxz];
    try congruence; try lia.
  intros H1 H2. now apply (IH b c).
Qed.

Lemma leb_trans (a b c : string) :
  String.leb a b = true -> String.leb b c = true -> String.leb a c = true.
Proof.
  unfold String.leb. intros H1 H2.
  assert (H : String.compare a c <> Gt).
  { apply (compare_le_trans a b c).
    - destruct (String.compare a b); congruence.
    - destruct (String.compare b c); congruence. }
  destruct (String.compare a c); congruence.
Qed.

Lemma last_n_length {A : Type} (n : nat) (l : list A) :
  0 < n -> List.length (Py.last_n n l) <= n.
Proof.
  destruct n; [lia|]. intros _. unfold Py.last_n. rewrite length_skipn. lia.
Qed.

End PyFacts.

(** ** The request the index refuses *)

Module ReturnFacts.

Import MemoryAgent.

Lemma bind_some {A B : Type} (call : option A) (rest : A -> option B) (b : B) :
  (x <- call ;; rest x) = Some b <-> exists a, call = Some a /\ rest a = Some b.
Proof.
  destruct call as [a|]; simpl; split.
  - intros H. now exists a.
  - intros [a' [E H]]. now injection E as ->.
  - discriminate.
  - intros [a [E _]]. discriminate.
Qed.

Section Embedding.

Variable hash : string -> Z.
Variable norm : VectorStore.vector -> Q.
Context {fl : Float.Rounding}.

(** The index holds something and is asked for no neighbour: the one request
    it refuses. *)
Definition refused (vs : VectorStore.t) (top_k : nat) : bool :=
  negb (VectorStore.size vs =? 0) && (top_k =? 0).

(** The pairs [search] returns when the index accepts the request. *)
Definition similar_ids (vs : VectorStore.t) (query_text : string) (top_k : nat)
  : list (string * Q) :=
  if VectorStore.size vs =? 0 then []
  else
    VectorStore.to_results (VectorStore.vector_to_id vs)
      (VectorStore.nearest (VectorStore.index vs)
         (VectorStore.text_to_vector hash norm vs query_text)
         (Nat.min top_k (VectorStore.size vs))).

Lemma search_cases (vs : VectorStore.t) (query_text : string) (top_k : nat) :
  VectorStore.search hash norm vs query_text top_k
  = if refused vs top_k then None else Some (similar_ids vs query_text top_k).
Proof.
  unfold VectorStore.search, refused, similar_ids.
  destruct (VectorStore.size vs =? 0) eqn:E; [reflexivity|].
  apply Nat.eqb_neq in E. unfold VectorStore.IndexFlatL2_search.
  destruct top_k as [|k]; [reflexivity|].
  replace (Nat.min (S k) (VectorStore.size vs) =? 0) with false; [reflexivity|].
  symmetry. apply Nat.eqb_neq. lia.
Qed.

(** The records of the vector path when the index accepts the request. *)
Definition vector_results (st : t) (query search_type : string) (limit : nat)
  : list ScoredRecord :=
  if Py.mem search_type ["vector"; "hybrid"]
  then vector_hits st (similar_ids (vector_store st) query limit)
  else [].

(** A search that takes the vector path and that the index refuses. *)
Definition search_refused (st : t) (payload : Payload) : bool :=
  Py.mem (get (p_search_type payload) "hybrid") ["vector"; "hybrid"]
  && refused (vector_store st) (get (p_limit payload) 5).

(** What [_search_memory] returns when the index accepts the request. *)
Definition searched (st : t) (payload : Payload) : SearchResult :=
  let query := get (p_query payload) "" in
  let search_type := get (p_search_type payload) "hybrid" in
  let limit := get (p_limit payload) 5 in
  merged st query search_type limit (vector_results st query search_type limit).

Lemma vector_path_cases (st : t) (query search_type : string) (limit : nat) :
  vector_path hash norm st query search_type limit
  = if Py.mem search_type ["vector"; "hybrid"] && refused (vector_store st) limit
    then None
    else Some (vector_results st query search_type limit).
Proof.
  unfold vector_path, vector_results. destruct (Py.mem search_type _); [|reflexivity].
  rewrite search_cases. cbn [andb]. now destruct (refused _ _).
Qed.

Lemma search_memory_cases (st : t) (payload : Payload) :
  _search_memory hash norm st payload
  = if search_refused st payload then None else Some (searched st payload).
Proof.
  unfold _search_memory, search_refused, searched. rewrite vector_path_cases.
  now destruct (_ && _).
Qed.

Lemma not_refused (vs : VectorStore.t) (top_k : nat) :
  1 <= top_k \/ VectorStore.size vs = 0 -> refused vs top_k = false.
Proof.
  unfold refused. intros [H | H].
  - replace (top_k =? 0) with false by (symmetry; apply Nat.eqb_neq; lia).
    apply andb_false_r.
  - now rewrite H.
Qed.

End Embedding.

End ReturnFacts.

(** ** The coordinator's classification and planning *)

Module CoordinatorFacts.

Import Coordinator PyFacts.

(** The query contains one of the keywords, letter case apart. *)
Definition mentions (query : string) (keywords : list string) : Prop :=
  exists kw, In kw keywords /\ occurs kw (Py.lower query).

(** More than one question mark, or more than two commas. *)
Definition several_clauses (query : string) : Prop :=
  1 < occurrences "?" query \/ 2 < occurrences "," query.

(** The specification's classification: five rules in priority order, each
    applying only when no earlier one does. *)
Inductive spec_classify (query : string) : string -> Prop :=
| classify_memory :
    mentions query memory_keywords ->
    spec_classify query "simple"
| classify_complex :
    ~ mentions query memory_keywords ->
    mentions query complex_keywords ->
    spec_classify query "complex"
| classify_medium :
    ~ mentions query memory_keywords ->
    ~ mentions query complex_keywords ->
    mentions query medium_keywords ->
    spec_classify query "medium"
| classify_clauses :
    ~ mentions query memory_keywords ->
    ~ mentions query complex_keywords ->
    ~ mentions query medium_keywords ->
    several_clauses query ->
    spec_classify query "complex"
| classify_default :
    ~ mentions query memory_keywords ->
    ~ mentions query complex_keywords ->
    ~ mentions query medium_keywords ->
    ~ several_clauses query ->
    spec_classify query "simple".

Lemma mentions_iff query keywords :
  mentions query keywords <-> Py.any_in keywords (Py.lower query) = true.
Proof. symmetry. apply any_in_iff. Qed.

Lemma not_mentions_iff query keywords :
  ~ mentions query keywords <-> Py.any_in keywords (Py.lower query) = false.
Proof. rewrite mentions_iff. apply not_true_iff_false. Qed.

Lemma several_clauses_iff query :
  several_clauses query <->
  (1 <? Py.count "?" query) || (2 <? Py.count "," query) = true.
Proof.
  unfold several_clauses.
  now rewrite orb_true_iff, !Nat.ltb_lt, !count_occurrences.
Qed.

Lemma not_several_clauses_iff query :
  ~ several_clauses query <->
  (1 <? Py.count "?" query) || (2 <? Py.count "," query) = false.
Proof. rewrite several_clauses_iff. apply not_true_iff_false. Qed.

(** C6. The level [_analyze_complexity] returns is the one the
    specification's priority order selects, and no other: memory-reference
    keyword, else complex-intent keyword, else medium-intent keyword, else
    several question marks or commas, else simple. *)
Theorem analyze_complexity_priority (query level : string) :
  spec_classify query level <-> _analyze_complexity query = level.
Proof.
  unfold _analyze_complexity. split.
  - intros H. destruct H as [Hm | Hm Hc | Hm Hc Hd | Hm Hc Hd Hs | Hm Hc Hd Hs];
      repeat match goal with
             | H : ~ mentions _ _ |- _ => apply not_mentions_iff in H; rewrite H
             | H : mentions _ _ |- _ => apply mentions_iff in H; rewrite H
             | H : ~ several_clauses _ |- _ => apply not_several_clauses_iff in H; rewrite H
             | H : several_clauses _ |- _ => apply several_clauses_iff in H; rewrite H
             end; reflexivity.
  - destruct (Py.any_in memory_keywords _) eqn:Em.
    { intros <-. apply classify_memory. now apply mentions_iff. }
    apply not_mentions_iff in Em.
    destruct (Py.any_in complex_keywords _) eqn:Ec.
    { intros <-. apply classify_complex; [exact Em | now apply mentions_iff]. }
    apply not_mentions_iff in Ec.
    destruct (Py.any_in medium_keywords _) eqn:Ed.
    { intros <-. apply classify_medium; [exact Em | exact Ec | now apply mentions_iff]. }
    apply not_mentions_iff in Ed.
    destruct ((1 <? Py.count "?" query) || (2 <? Py.count "," query)) eqn:Es.
    { intros <-. apply classify_clauses; auto. now apply several_clauses_iff. }
    intros <-. apply classify_default; auto. now apply not_several_clauses_iff.
Qed.

(** The research steps of a plan. *)
Definition research_steps_of (plan : list Step) : list Step :=
  filter (fun s => String.eqb (agent s) "ResearchAgent") plan.

Lemma research_steps_of_research n topics :
  research_steps_of (research_steps n topics) = research_steps n topics.
Proof.
  revert n. induction topics as [|t topics IH]; intros n; [reflexivity|].
  cbn. unfold research_steps_of in IH. now rewrite IH.
Qed.

Lemma research_steps_nil n topics : research_steps n topics = [] <-> topics = [].
Proof. destruct topics; simpl; split; congruence. Qed.

Lemma research_steps_numbers n topics :
  map step (research_steps n topics) = seq n (List.length topics)
  /\ List.length (research_steps n topics) = List.length topics
  /\ Forall (fun s => depends_on s = None) (research_steps n topics).
Proof.
  revert n. induction topics as [|t topics IH]; intros n; simpl.
  - repeat split. constructor.
  - rewrite Nat.add_1_r. destruct (IH (S n)) as [H1 [H2 H3]]. rewrite H1, H2.
    repeat split. now constructor.
Qed.

Section Planner.

Context {fl : Float.Rounding}.

(** The scores of the returned memory records. *)
Definition scores (memory_results : MemoryAgent.SearchResult) : list Q :=
  map (fun m => MemoryAgent.score (MemoryAgent.similarity_score m))
      (MemoryAgent.results memory_results).

(** Their mean as floating-point arithmetic takes it: the scores are added
    one after the other to a total that starts at 0, each sum rounded; the
    total is divided by their number and the quotient rounded. *)
Fixpoint added_to (total : Q) (l : list Q) : Q :=
  match l with
  | [] => total
  | x :: l' => added_to (Float.round (total + x)) l'
  end.

Definition float_mean (l : list Q) : Q :=
  Float.round (added_to 0 l / inject_Z (Z.of_nat (List.length l))).

(** The three conditions under which memory alone is held to suffice; 0.8 is
    the float the literal denotes. *)
Definition sufficient_memory (complexity : string)
  (memory_results : MemoryAgent.SearchResult) : Prop :=
  MemoryAgent.results memory_results <> []
  /\ (Float.round (8 # 10) < float_mean (scores memory_results))%Q
  /\ complexity = COMPLEXITY_SIMPLE.

Lemma float_sum_added_to (l : list Q) : float_sum l = added_to 0 l.
Proof.
  unfold float_sum. generalize 0%Q as total.
  induction l as [|x l IH]; intros total; simpl; [reflexivity | apply IH].
Qed.

Lemma plan_research_steps query complexity memory_results :
  Py.any_in plan_memory_keywords (Py.lower query) = false ->
  research_steps_of (_create_execution_plan query complexity memory_results) =
  if needs_research complexity memory_results
  then research_steps 1 (_extract_research_topics query) else [].
Proof.
  intros Hq. unfold _create_execution_plan. rewrite Hq.
  unfold research_steps_of. rewrite filter_app.
  fold (research_steps_of
          (if needs_research complexity memory_results
              && negb (List.length (_extract_research_topics query) =? 0)
           then research_steps 1 (_extract_research_topics query) else [])).
  replace (filter _ (if Py.mem complexity _ then _ else _)) with (@nil Step)
    by (destruct (Py.mem complexity _); reflexivity).
  rewrite app_nil_r.
  destruct (needs_research complexity memory_results); [|reflexivity].
  destruct (_extract_research_topics query); [reflexivity|].
  apply research_steps_of_research.
Qed.

Lemma needs_research_false_iff complexity memory_results :
  MemoryAgent.count memory_results = List.length (MemoryAgent.results memory_results) ->
  needs_research complexity memory_results = false <->
  sufficient_memory complexity memory_results.
Proof.
  intros Hcount.
  unfold needs_research, sufficient_memory, memory_confidence, float_mean, scores.
  rewrite float_sum_added_to, Hcount, length_map.
  destruct (MemoryAgent.results memory_results) as [|r rs] eqn:E.
  - simpl. split; [discriminate | intros [H _]; congruence].
  - replace (0 <? List.length (r :: rs)) with true by reflexivity.
    rewrite Nat.max_l by (simpl; lia).
    rewrite negb_false_iff, andb_true_iff, gt_iff, String.eqb_eq.
    split; [intros [H1 H2] | intros [_ [H1 H2]]]; repeat split; auto; discriminate.
Qed.

(** C1. A query with the memory-reference keyword "mentioned" is classified
    as a memory query, yet the planner, whose own keyword list lacks
    "mentioned" and "said", plans two research steps for it and no memory
    step. *)
Theorem mentioned_query_is_researched :
  Py.any_in memory_keywords (Py.lower "You mentioned cnn and rnn") = true
  /\ _create_execution_plan "You mentioned cnn and rnn"
       (_analyze_complexity "You mentioned cnn and rnn")
       (MemoryAgent.mk_searched "You mentioned cnn and rnn" [] 0)
     = [mk_step 1 "ResearchAgent" "research" (Some "cnn") None
          "Retrieve information about cnn" None;
        mk_step 2 "ResearchAgent" "research" (Some "rnn") None
          "Retrieve information about rnn" None].
Proof. split; vm_compute; reflexivity. Qed.

(** X1. With one of the planner's own five keywords the plan is the single
    memory step, whatever the complexity and the memory results. *)
Theorem memory_query_plan query complexity memory_results :
  Py.any_in plan_memory_keywords (Py.lower query) = true ->
  _create_execution_plan query complexity memory_results =
  [mk_step 1 "MemoryAgent" "retrieve_conversation" None None
     "Query asks about previous conversation" None].
Proof. intros H. unfold _create_execution_plan. now rewrite H. Qed.

(** C8, amended. For a query without any of the planner's memory keywords,
    the plan has no research step exactly when memory suffices (results
    non-empty, the mean of their scores, as floating-point arithmetic takes
    it, above 0.8, complexity simple) or no research topic can be extracted
    from the query; and when memory does not suffice the research steps are
    one per extracted topic, numbered from 1. *)
Theorem research_omitted_iff query complexity memory_results :
  Py.any_in plan_memory_keywords (Py.lower query) = false ->
  MemoryAgent.count memory_results = List.length (MemoryAgent.results memory_results) ->
  (research_steps_of (_create_execution_plan query complexity memory_results) = [] <->
   sufficient_memory complexity memory_results \/ _extract_research_topics query = [])
  /\ (~ sufficient_memory complexity memory_results ->
      research_steps_of (_create_execution_plan query complexity memory_results) =
      research_steps 1 (_extract_research_topics query)).
Proof.
  intros Hq Hcount. rewrite (plan_research_steps _ _ _ Hq).
  pose proof (needs_research_false_iff complexity memory_results Hcount) as Hn.
  destruct (needs_research complexity memory_results).
  - rewrite research_steps_nil. split.
    + split; [now right | intros [H | H]; [apply Hn in H; discriminate | exact H]].
    + reflexivity.
  - assert (Hs : sufficient_memory complexity memory_results) by now apply Hn.
    split; [split; auto | contradiction].
Qed.

(** X2. The steps of a plan are numbered 1, 2, ... in plan order, and a step
    depends only on steps before it. *)
Theorem plan_steps_in_order query complexity memory_results :
  let plan := _create_execution_plan query complexity memory_results in
  map step plan = seq 1 (List.length plan)
  /\ Forall (fun s => forall d, In d (MemoryAgent.get (depends_on s) []) -> 1 <= d < step s)
       plan.
Proof.
  intros plan. subst plan. unfold _create_execution_plan.
  destruct (Py.any_in plan_memory_keywords _).
  { split; [reflexivity|]. repeat constructor; simpl in *; tauto. }
  set (research := if _ && _ then _ else _).
  assert (Hr : map step research = seq 1 (List.length research)
               /\ Forall (fun s => depends_on s = None) research).
  { subst research. destruct (_ && _).
    - destruct (research_steps_numbers 1 (_extract_research_topics query)) as [H1 [H2 H3]].
      now rewrite H2.
    - split; [reflexivity | constructor]. }
  destruct Hr as [Hr1 Hr2].
  destruct (Py.mem complexity _).
  - rewrite map_app, length_app, Hr1. simpl.
    rewrite Nat.add_1_r, seq_S. split; [reflexivity|].
    apply Forall_app. split.
    + eapply Forall_impl; [|exact Hr2]. intros s Hs d. rewrite Hs. simpl. tauto.
    + constructor; [|constructor]. intros d. simpl.
      rewrite Nat.sub_0_r. intros Hd. apply in_seq in Hd. lia.
  - rewrite app_nil_r. split; [exact Hr1|].
    eapply Forall_impl; [|exact Hr2]. intros s Hs d. rewrite Hs. simpl. tauto.
Qed.

(** The specification's scenario: "What are the main types of neural networks?"
    holds no keyword of any list and a single question mark, so it is simple;
    with an empty memory the plan is one research step on neural networks and no
    analysis step. *)
Theorem neural_networks_scenario :
  _analyze_complexity "What are the main types of neural networks?" = "simple"
  /\ _create_execution_plan "What are the main types of neural networks?" "simple"
       (MemoryAgent.mk_searched "What are the main types of neural networks?" [] 0)
     = [mk_step 1 "ResearchAgent" "research" (Some "neural networks") None
          "Retrieve information about neural networks" None].
Proof. split; vm_compute; reflexivity. Qed.

Lemma empty_query_plan memory_results :
  _create_execution_plan "" (_analyze_complexity "") memory_results = [].
Proof.
  unfold _create_execution_plan.
  change (Py.any_in plan_memory_keywords (Py.lower "")) with false.
  change (_extract_research_topics "") with (@nil string).
  change (_analyze_complexity "") with "simple".
  cbn [List.length Nat.eqb negb]. rewrite andb_false_r. reflexivity.
Qed.

End Planner.

Section Pipeline.

Variable hash : string -> Z.
Variable norm : VectorStore.vector -> Q.
Variable _research : string -> list AnalysisAgent.ResearchRecord.
Variables _synthesize_data _analyze_tradeoffs _analyze_methodology _identify_challenges :
  list AnalysisAgent.ResearchRecord -> string -> AnalysisAgent.Analysis.
Context {fl : Float.Rounding}.

Local Abbreviation process_query :=
  (process_query hash norm _research _synthesize_data _analyze_tradeoffs
     _analyze_methodology _identify_challenges).

(** What [_check_memory] finds: it asks for five records, a request the index
    never refuses. *)
Definition memory_found (st : MemoryAgent.t) (query : string) : MemoryAgent.SearchResult :=
  ReturnFacts.searched hash norm st
    (MemoryAgent.mk_payload (Some "search") None None None (Some 5) (Some query)
       (Some "hybrid")).

Lemma check_memory_returns (st : MemoryAgent.t) (query now : string) :
  _check_memory hash norm st query now = Some (memory_found st query).
Proof.
  unfold _check_memory, MemoryAgent.process_message. cbn [MemoryAgent.operation MemoryAgent.get].
  cbn [String.eqb Ascii.eqb Bool.eqb]. rewrite ReturnFacts.search_memory_cases.
  unfold ReturnFacts.search_refused. cbn [MemoryAgent.p_limit MemoryAgent.get].
  rewrite ReturnFacts.not_refused by (left; lia). rewrite andb_false_r. reflexivity.
Qed.

(** [process_query] always returns. *)
Lemma process_query_returns (st : MemoryAgent.t) (query now : string) :
  process_query st query now
  = let memory_results := memory_found st query in
    let plan := _create_execution_plan query (_analyze_complexity query) memory_results in
    let execution_results :=
      _execute_plan hash norm _research _synthesize_data _analyze_tradeoffs
        _analyze_methodology _identify_challenges st now plan in
    let final_response := _synthesize_response execution_results memory_results in
    Some (final_response,
          _store_interaction hash norm st query (_analyze_complexity query) final_response
            execution_results now).
Proof. unfold Coordinator.process_query. now rewrite check_memory_returns. Qed.

(** C5, amended. [process_query] validates nothing and signals no failure:
    on the empty query it returns, in every memory state and whatever the
    collaborators, the fixed insufficient-information sentence. *)
Theorem empty_query_answer (st : MemoryAgent.t) (now : string) :
  option_map fst (process_query st "" now)
  = Some "I don't have enough information to provide a comprehensive answer to your query.".
Proof.
  rewrite process_query_returns. cbn [option_map fst]. rewrite empty_query_plan.
  reflexivity.
Qed.

End Pipeline.

Section Examples.

#[local] Existing Instance Fixture.exact.

Lemma memory_query_plan_witness :
  _create_execution_plan "What did we discuss earlier?" "simple"
    (MemoryAgent.mk_searched "" [] 0) =
  [mk_step 1 "MemoryAgent" "retrieve_conversation" None None
     "Query asks about previous conversation" None].
Proof. apply memory_query_plan. reflexivity. Defined.

(** C8, as stated, fails: "hi" has no memory-reference keyword and the memory
    result is empty, yet the plan has no research step, because no research
    topic can be extracted from the query. *)
Lemma no_topic_no_research :
  Py.any_in memory_keywords (Py.lower "hi") = false
  /\ MemoryAgent.results (MemoryAgent.mk_searched "hi" [] 0) = []
  /\ research_steps_of
       (_create_execution_plan "hi" "simple" (MemoryAgent.mk_searched "hi" [] 0)) = [].
Proof. repeat split; vm_compute; reflexivity. Qed.

Lemma research_omitted_iff_witness :
  let memory_results :=
    MemoryAgent.mk_searched "what is a cnn"
      [MemoryAgent.mk_scored
         (MemoryAgent.mk_record "mem_0" "knowledge" "Convolutional networks."
            MemoryAgent.no_metadata Fixture.noon)
         None (Some (9 # 10))] 1 in
  (research_steps_of (_create_execution_plan "what is a cnn" "simple" memory_results) = [] <->
   sufficient_memory "simple" memory_results \/ _extract_research_topics "what is a cnn" = [])
  /\ (~ sufficient_memory "simple" memory_results ->
      research_steps_of (_create_execution_plan "what is a cnn" "simple" memory_results) =
      research_steps 1 (_extract_research_topics "what is a cnn")).
Proof. intros memory_results. apply research_omitted_iff; reflexivity. Defined.

(** C5, as stated, fails: the empty query, put to a fresh system, ends as a
    normal return whose text is the fixed apology. *)
Lemma empty_query_on_fresh_system :
  option_map fst
    (Coordinator.process_query Fixture.hash Fixture.norm Fixture._research
       Fixture.no_extraction Fixture.no_extraction Fixture.no_extraction
       Fixture.no_extraction MemoryAgent.init "" Fixture.noon)
  = Some not_enough_sentence.
Proof. vm_compute. reflexivity. Qed.

End Examples.

End CoordinatorFacts.

(** ** The comparison analysis *)

Module AnalysisAgentFacts.

Import AnalysisAgent.

Section Reasoner.

Variables _synthesize_data _analyze_tradeoffs _analyze_methodology _identify_challenges :
  list ResearchRecord -> string -> Analysis.

(** C9. A comparison request over fewer than two research records is
    answered normally (status "completed"), with confidence exactly 0.3 and
    a comparison field saying that the data is insufficient; the result
    carries no other field. *)
Theorem comparison_insufficient_data (data : list ResearchRecord) (task : string) :
  List.length data < 2 ->
  let response :=
    process_message _synthesize_data _analyze_tradeoffs _analyze_methodology
      _identify_challenges (mk_payload (Some task) (Some data) (Some "comparison")) in
  status response = "completed"
  /\ analysis_confidence (response_analysis response) = Some (3 # 10)
  /\ comparison (response_analysis response) = Some "Insufficient data for comparison"
  /\ response_analysis response =
     mk_analysis None (Some "Insufficient data for comparison") None None None None
       None None None None (Some (3 # 10)).
Proof.
  intros Hlen response. subst response.
  unfold process_message, _analyze, _compare_data. cbn [MemoryAgent.get p_task p_data p_analysis_type].
  apply Nat.ltb_lt in Hlen.
  change (String.eqb "comparison" "comparison") with true. cbn iota.
  rewrite Hlen. repeat split.
Qed.

End Reasoner.

Lemma comparison_insufficient_data_witness :
  let response :=
    process_message Fixture.no_extraction Fixture.no_extraction Fixture.no_extraction
      Fixture.no_extraction
      (mk_payload (Some "Perform comparison analysis on research results")
         (Some (Fixture._research "cnn")) (Some "comparison")) in
  status response = "completed"
  /\ analysis_confidence (response_analysis response) = Some (3 # 10)
  /\ comparison (response_analysis response) = Some "Insufficient data for comparison"
  /\ response_analysis response =
     mk_analysis None (Some "Insufficient data for comparison") None None None None
       None None None None (Some (3 # 10)).
Proof.
  apply (comparison_insufficient_data Fixture.no_extraction Fixture.no_extraction
           Fixture.no_extraction Fixture.no_extraction (Fixture._research "cnn")).
  simpl. lia.
Defined.

End AnalysisAgentFacts.

(** ** Facts about lists *)

Module ListFacts.

Lemma firstn_In {A : Type} (n : nat) (l : list A) x : In x (firstn n l) -> In x l.
Proof.
  intros H. rewrite <- (firstn_skipn n l). apply in_or_app. now left.
Qed.

Lemma firstn_StronglySorted {A : Type} (R : A -> A -> Prop) (n : nat) (l : list A) :
  StronglySorted R l -> StronglySorted R (firstn n l).
Proof.
  intros H. revert n. induction H as [|x l Hs IH Hx]; intros [|n]; simpl; try constructor.
  - apply IH.
  - rewrite Forall_forall in *. intros y Hy. apply Hx. eapply firstn_In, Hy.
Qed.

Lemma StronglySorted_impl {A : Type} (R R' : A -> A -> Prop) (l : list A) :
  (forall a b, R a b -> R' a b) -> StronglySorted R l -> StronglySorted R' l.
Proof.
  intros HR. induction 1 as [|x l Hs IH Hx]; constructor; [exact IH|].
  eapply Forall_impl; [|exact Hx]. intros b. apply HR.
Qed.

Lemma filter_StronglySorted {A : Type} (R : A -> A -> Prop) (p : A -> bool) (l : list A) :
  StronglySorted R l -> StronglySorted R (filter p l).
Proof.
  induction 1 as [|x l Hs IH Hx]; simpl; [constructor|].
  destruct (p x); [|exact IH]. constructor; [exact IH|].
  rewrite Forall_forall in *. intros y Hy. apply filter_In in Hy as [Hy _]. now apply Hx.
Qed.

Lemma skipn_StronglySorted {A : Type} (R : A -> A -> Prop) (n : nat) (l : list A) :
  StronglySorted R l -> StronglySorted R (skipn n l).
Proof.
  intros H. revert n. induction H as [|x l Hs IH Hx]; intros [|n]; simpl;
    try constructor; auto.
Qed.

Lemma StronglySorted_app_l {A : Type} (R : A -> A -> Prop) (l1 l2 : list A) :
  StronglySorted R (l1 ++ l2) -> StronglySorted R l1.
Proof.
  induction l1 as [|x l1 IH]; simpl; [constructor|].
  intros H. inversion H as [|? ? Hs Hx]; subst. constructor; [now apply IH|].
  now apply Forall_app in Hx as [Hx _].
Qed.

Lemma StronglySorted_app_one {A : Type} (R : A -> A -> Prop) (l : list A) (x : A) :
  StronglySorted R l -> Forall (fun a => R a x) l -> StronglySorted R (l ++ [x]).
Proof.
  induction 1 as [|y l Hs IH Hy]; simpl; intros Hx.
  - repeat constructor.
  - inversion Hx as [|? ? Hyx Hx']; subst. constructor; [now apply IH|].
    apply Forall_app. split; [exact Hy | now constructor].
Qed.

Lemma firstn_NoDup {A : Type} (n : nat) (l : list A) : NoDup l -> NoDup (firstn n l).
Proof.
  intros H. revert n. induction H as [|x l Hx Hl IH]; intros [|n]; simpl; try constructor.
  - intros Hin. apply Hx. eapply firstn_In, Hin.
  - apply IH.
Qed.

(** What a truncation keeps of the elements satisfying [p] is an initial
    part of them. *)
Lemma filter_firstn {A : Type} (p : A -> bool) (n : nat) (l : list A) :
  exists rest, filter p l = filter p (firstn n l) ++ rest.
Proof.
  exists (filter p (skipn n l)). now rewrite <- filter_app, firstn_skipn.
Qed.

Lemma combine_map_seq {A B : Type} (f : A -> B) (l : list A) (s : nat) y i :
  In (y, i) (combine (map f l) (seq s (List.length l))) ->
  exists x, s <= i /\ nth_error l (i - s) = Some x /\ y = f x.
Proof.
  revert s. induction l as [|x l IH]; intros s; simpl; [tauto|].
  intros [H | H].
  - inversion H; subst. exists x. rewrite Nat.sub_diag. auto.
  - destruct (IH _ H) as [x' [Hle [Hnth Hy]]]. exists x'. split; [lia|]. split; [|exact Hy].
    replace (i - s) with (S (i - S s)) by lia. exact Hnth.
Qed.


End ListFacts.

(** ** The similarity scores of the vector store *)

Module VectorStoreFacts.

Import VectorStore ListFacts.

Open Scope Q_scope.

Lemma Qle_bool_total (a b : Q) : Qle_bool a b = true \/ Qle_bool b a = true.
Proof.
  rewrite !Qle_bool_iff. destruct (Qlt_le_dec a b) as [H|H]; [left|right]; auto.
  now apply Qlt_le_weak.
Qed.

Lemma Qle_bool_trans (a b c : Q) :
  Qle_bool a b = true -> Qle_bool b c = true -> Qle_bool a c = true.
Proof. rewrite !Qle_bool_iff. apply Qle_trans. Qed.

Lemma sqr_nonneg (x : Q) : 0 <= x * x.
Proof.
  destruct (Qlt_le_dec x 0) as [H|H].
  - setoid_replace (x * x) with ((- x) * (- x)) by ring.
    apply Qmult_le_0_compat; apply (Qopp_le_compat x 0), Qlt_le_weak, H.
  - now apply Qmult_le_0_compat.
Qed.

Lemma sum_from_nonneg (l : list Q) (a : Q) :
  0 <= a -> Forall (fun x => 0 <= x) l -> 0 <= fold_left Qplus l a.
Proof.
  revert a. induction l as [|x l IH]; intros a Ha Hl; simpl; [exact Ha|].
  inversion Hl; subst. apply IH; [|assumption].
  rewrite <- (Qplus_0_l 0). now apply Qplus_le_compat.
Qed.

Lemma l2sqr_nonneg (u v : vector) : 0 <= l2sqr u v.
Proof.
  unfold l2sqr, Py.sum. apply sum_from_nonneg; [apply Qle_refl|].
  apply Forall_forall. intros x Hx. apply in_map_iff in Hx as [p [<- _]].
  apply sqr_nonneg.
Qed.

Lemma one_plus_pos (d : Q) : 0 <= d -> 0 < 1 + d.
Proof.
  intros H. apply Qlt_le_trans with (y := 1); [reflexivity|].
  rewrite <- (Qplus_0_r 1) at 1. now apply Qplus_le_compat; [apply Qle_refl|].
Qed.

Lemma inverse_antitone (a b : Q) : 0 < a -> a <= b -> 1 / b <= 1 / a.
Proof.
  intros Ha Hab. assert (Hb : 0 < b) by (eapply Qlt_le_trans; eauto).
  apply Qle_shift_div_l; [exact Ha|].
  setoid_replace (1 / b * a) with (a / b)
    by (field; intros E; rewrite E in Hb; discriminate).
  apply Qle_shift_div_r; [exact Hb|]. now rewrite Qmult_1_l.
Qed.

Lemma inverse_pos (a : Q) : 0 < a -> 0 < 1 / a.
Proof. intros Ha. apply Qlt_shift_div_l; [exact Ha | now rewrite Qmult_0_l]. Qed.

Section Rounding.

Context {fl : Float.Rounding}.

(** A rounded positive number lies within a part in 1024 of the number. *)
Lemma round_within (x : Q) :
  0 < x -> x * (1023 # 1024) <= Float.round x /\ Float.round x <= x * (1025 # 1024).
Proof.
  intros Hx. pose proof (Float.round_error x) as H.
  rewrite (Qabs_pos x) in H by now apply Qlt_le_weak.
  apply Qabs_Qle_condition in H as [H1 H2]. split; lra.
Qed.

Lemma round_pos (x : Q) : 0 < x -> 0 < Float.round x.
Proof. intros Hx. destruct (round_within x Hx) as [H _]. lra. Qed.

Lemma round_ge_one (x : Q) : 1 <= x -> 1 <= Float.round x.
Proof.
  intros Hx. apply Qle_trans with (y := Float.round 1).
  - rewrite Float.round_one. apply Qle_refl.
  - now apply Float.round_monotone.
Qed.

Lemma round_le_one (x : Q) : x <= 1 -> Float.round x <= 1.
Proof.
  intros Hx. apply Qle_trans with (y := Float.round 1).
  - now apply Float.round_monotone.
  - rewrite Float.round_one. apply Qle_refl.
Qed.

Lemma similarity_proper (d d' : Q) : d == d' -> similarity d == similarity d'.
Proof.
  intros H. unfold similarity.
  assert (E : Float.round (1 + d) == Float.round (1 + d'))
    by (apply Float.round_proper; now rewrite H).
  apply Float.round_proper. now rewrite E.
Qed.

(** The score of a distance [d >= 0] lies in (0, 1]. *)
Lemma similarity_bounds (d : Q) : 0 <= d -> 0 < similarity d /\ similarity d <= 1.
Proof.
  intros Hd. unfold similarity.
  assert (H1 : 1 <= Float.round (1 + d)) by (apply round_ge_one; lra).
  assert (Hpos : 0 < Float.round (1 + d)) by lra.
  split.
  - apply round_pos, inverse_pos, Hpos.
  - apply round_le_one.
    apply Qle_trans with (y := 1 / 1); [|apply Qle_lteq; right; reflexivity].
    apply inverse_antitone; [reflexivity | exact H1].
Qed.

(** The score does not rise as the distance grows. *)
Lemma similarity_antitone (d1 d2 : Q) :
  0 <= d1 -> d1 <= d2 -> similarity d2 <= similarity d1.
Proof.
  intros H0 H. unfold similarity. apply Float.round_monotone.
  apply inverse_antitone.
  - apply Qlt_le_trans with (y := 1); [reflexivity | apply round_ge_one; lra].
  - apply Float.round_monotone. lra.
Qed.

(** The score of a distance [d] with [1 + d] between [lo] and [hi]. *)
Lemma similarity_between (d lo hi : Q) :
  0 < lo -> lo <= 1 + d -> 1 + d <= hi ->
  1 / (hi * (1025 # 1024)) * (1023 # 1024) <= similarity d
  /\ similarity d <= 1 / (lo * (1023 # 1024)) * (1025 # 1024).
Proof.
  intros Hlo H1 H2. unfold similarity.
  assert (Hx : 0 < 1 + d) by lra.
  destruct (round_within (1 + d) Hx) as [R1 R2].
  set (r := Float.round (1 + d)) in *.
  assert (Hr : 0 < r) by lra.
  assert (Q1 : 1 / (hi * (1025 # 1024)) <= 1 / r)
    by (apply inverse_antitone; [exact Hr | lra]).
  assert (Q2 : 1 / r <= 1 / (lo * (1023 # 1024)))
    by (apply inverse_antitone; lra).
  destruct (round_within (1 / r) (inverse_pos r Hr)) as [S1 S2].
  split; lra.
Qed.

End Rounding.

(** What the flat index reports: positions of stored vectors, each once,
    with the squared distance of that vector to the query, nearest first. *)
Lemma nearest_sound xb xq k d idx :
  In (d, idx) (nearest xb xq k) ->
  exists v, nth_error xb idx = Some v /\ d = l2sqr xq v.
Proof.
  unfold nearest. intros H.
  apply firstn_In, SortingFacts.sort_In, combine_map_seq in H.
  destruct H as [v [_ [Hnth Hd]]]. exists v. now rewrite Nat.sub_0_r in Hnth.
Qed.

Lemma nearest_sorted xb xq k :
  StronglySorted (fun a b => fst a <= fst b) (nearest xb xq k).
Proof.
  unfold nearest. apply firstn_StronglySorted.
  eapply StronglySorted_impl;
    [|apply (SortingFacts.sort_sorted _ _ fst Qle_bool Qle_bool_total Qle_bool_trans)].
  intros a b Hab. now apply Qle_bool_iff.
Qed.


Lemma nearest_length xb xq k : (List.length (nearest xb xq k) <= k)%nat.
Proof. unfold nearest. apply firstn_le_length. Qed.

Section Results.

Context {fl : Float.Rounding}.

Lemma to_results_In ids found memory_id s :
  In (memory_id, s) (to_results ids found) ->
  exists d idx,
    In (d, idx) found /\ nth_error ids idx = Some memory_id /\ s = similarity d.
Proof.
  induction found as [|[d idx] found IH]; simpl; [tauto|].
  destruct (nth_error ids idx) as [m|] eqn:E.
  - intros [H | H].
    + inversion H; subst. exists d, idx. auto.
    + destruct (IH H) as [d' [idx' [Hin H']]]. exists d', idx'. auto.
  - intros H. destruct (IH H) as [d' [idx' [Hin H']]]. exists d', idx'. auto.
Qed.

Lemma to_results_length ids found :
  (List.length (to_results ids found) <= List.length found)%nat.
Proof.
  induction found as [|[d idx] found IH]; simpl; [lia|].
  destruct (nth_error ids idx); simpl; lia.
Qed.

Lemma to_results_sorted ids found :
  Forall (fun p => 0 <= fst p) found ->
  StronglySorted (fun a b => fst a <= fst b) found ->
  StronglySorted (fun a b : string * Q => snd b <= snd a) (to_results ids found).
Proof.
  intros Hpos Hs. induction Hs as [|[d idx] found Hs IH Hd]; simpl; [constructor|].
  inversion Hpos as [|? ? Hd0 Hpos']; subst.
  destruct (nth_error ids idx) as [m|]; [|now apply IH].
  constructor; [now apply IH|].
  apply Forall_forall. intros [m' s'] Hin.
  apply to_results_In in Hin as [d' [idx' [Hin [_ ->]]]].
  rewrite Forall_forall in Hd. specialize (Hd _ Hin). simpl in *.
  now apply similarity_antitone.
Qed.


(** C4. The score is taken from the squared distance.  The stored text and
    the query text of the example have unit vectors at Euclidean distance
    1/2 of each other, every number up to there being one that binary floats
    hold exactly.  The claim's score is 1 / (1 + 1/2) = 2/3.  The index
    reports the squared distance 1/4, and the score [search] returns is
    1.0 / (1.0 + 0.25) as rounded, which lies between 0.79 and 0.81 in every
    format. *)
Theorem score_of_squared_distance :
  let vs := add Fixture.hash Fixture.norm init "mem_0" Fixture.stored_text in
  let query_vector := text_to_vector Fixture.hash Fixture.norm vs Fixture.query_text in
  let stored := text_to_vector Fixture.hash Fixture.norm vs Fixture.stored_text in
  index vs = [stored]
  /\ l2sqr query_vector stored == (1 # 2) * (1 # 2)
  /\ 1 / (1 + (1 # 2)) == 2 # 3
  /\ exists s,
       search Fixture.hash Fixture.norm vs Fixture.query_text 5
       = Some [("mem_0"%string, s)]
       /\ s == similarity (1 # 4)
       /\ 79 # 100 < s /\ s < 81 # 100.
Proof.
  intros vs query_vector stored.
  split; [reflexivity|]. split; [vm_compute; reflexivity|].
  split; [vm_compute; reflexivity|].
  assert (Hn : exists d,
             nearest (index vs) query_vector (Nat.min 5 (size vs)) = [(d, 0%nat)]
             /\ d == 1 # 4).
  { eexists. split; [vm_compute; reflexivity | vm_compute; reflexivity]. }
  destruct Hn as [d [Hn Hd]].
  exists (similarity d). split.
  - unfold search. replace (size vs =? 0)%nat with false by reflexivity.
    unfold IndexFlatL2_search.
    replace (Nat.min 5 (size vs) =? 0)%nat with false by reflexivity.
    fold query_vector. cbn [Raise.bind]. rewrite Hn. reflexivity.
  - split; [now apply similarity_proper|].
    destruct (similarity_between d (5 # 4) (5 # 4)) as [L U];
      [reflexivity | rewrite Hd; discriminate | rewrite Hd; discriminate |].
    split.
    + eapply Qlt_le_trans; [|exact L]. reflexivity.
    + eapply Qle_lt_trans; [exact U|]. reflexivity.
Qed.

End Results.

End VectorStoreFacts.

(** ** The memory agent's store *)

Module MemoryAgentFacts.

Import MemoryAgent ListFacts.

(** The id given to the [n]-th record. *)
Definition mem_id (n : nat) : string := ("mem_" ++ Py.str_of_nat n)%string.

(** The three categories of the store. *)
Definition valid_category (memory_type : string) : Prop :=
  memory_type = "conversation" \/ memory_type = "knowledge" \/ memory_type = "agent_state".

(** [a] was stored before [b]: its id is the earlier one. *)
Definition stored_before (a b : MemoryRecord) : Prop :=
  exists i j, id a = mem_id i /\ id b = mem_id j /\ i < j.

Lemma mem_id_inj n m : mem_id n = mem_id m -> n = m.
Proof.
  unfold mem_id. simpl. intros H. injection H as H. now apply PyFacts.str_of_nat_inj.
Qed.

(** Appending under a key puts the value somewhere into the flattened
    dictionary and moves nothing else. *)
Lemma flatten_append_to {V : Type} (k : string) (v : V) (d : Dict.t V) :
  exists l1 l2,
    Dict.flatten d = l1 ++ l2 /\ Dict.flatten (Dict.append_to k v d) = l1 ++ v :: l2.
Proof.
  induction d as [|[k' l] d IH]; simpl.
  - exists [], []. split; reflexivity.
  - destruct (String.eqb k' k).
    + exists l, (Dict.flatten d). unfold Dict.flatten. simpl.
      split; [reflexivity | now rewrite <- app_assoc].
    + destruct IH as [l1 [l2 [H1 H2]]]. exists (l ++ l1), l2.
      unfold Dict.flatten in *. simpl. rewrite H1, H2, !app_assoc. split; reflexivity.
Qed.

(** What the agent's state must satisfy for ids to identify records: the
    vector store has one entry per id given out, in order, and every logged
    record carries one of those ids, no two the same one. *)
Record consistent (st : t) : Prop := {
  ids_in_order :
    VectorStore.vector_to_id (vector_store st) = map mem_id (seq 0 (memory_id_counter st));
  one_vector_per_id :
    List.length (VectorStore.index (vector_store st)) = memory_id_counter st;
  ids_given_out :
    Forall (fun m => exists i, i < memory_id_counter st /\ id m = mem_id i) (all_memories st);
  ids_distinct : NoDup (map id (all_memories st));
  logged_at_most : List.length (all_memories st) <= memory_id_counter st
}.

Section Embedding.

Variable hash : string -> Z.
Variable norm : VectorStore.vector -> Q.
Context {fl : Float.Rounding}.

(** The record a store request writes. *)
Definition record_of (st : t) (payload : Payload) (now : string) : MemoryRecord :=
  mk_record (mem_id (memory_id_counter st))
    (get (p_memory_type payload) "conversation")
    (get (p_content payload) "")
    (get (p_metadata payload) no_metadata)
    now.

(** The text a store request indexes. *)
Definition search_text_of (payload : Payload) : string :=
  (get (topic (get (p_metadata payload) no_metadata)) "" ++ " "
   ++ get (p_content payload) "")%string.

Lemma store_vector_to_id st payload now :
  VectorStore.vector_to_id (vector_store (snd (_store_memory hash norm st payload now)))
  = VectorStore.vector_to_id (vector_store st) ++ [mem_id (memory_id_counter st)].
Proof. reflexivity. Qed.

Lemma store_index st payload now :
  VectorStore.index (vector_store (snd (_store_memory hash norm st payload now)))
  = VectorStore.index (vector_store st)
    ++ [VectorStore.text_to_vector hash norm (vector_store st) (search_text_of payload)].
Proof. reflexivity. Qed.

Lemma store_counter st payload now :
  memory_id_counter (snd (_store_memory hash norm st payload now))
  = S (memory_id_counter st).
Proof. cbn. lia. Qed.

Lemma store_valid st payload now :
  valid_category (get (p_memory_type payload) "conversation") ->
  exists l1 l2,
    all_memories st = l1 ++ l2
    /\ all_memories (snd (_store_memory hash norm st payload now))
       = l1 ++ record_of st payload now :: l2.
Proof.
  unfold _store_memory, all_memories, record_of. cbn [snd].
  fold (mem_id (memory_id_counter st)).
  set (r := mk_record _ _ _ _ _).
  intros [H | [H | H]]; rewrite H; cbn [String.eqb Ascii.eqb Bool.eqb];
    cbn [conversation_memory knowledge_base agent_state_memory].
  - exists (conversation_memory st),
      (Dict.flatten (knowledge_base st) ++ Dict.flatten (agent_state_memory st)).
    split; [reflexivity | now rewrite <- app_assoc].
  - destruct (flatten_append_to
                (get (topic (get (p_metadata payload) no_metadata)) "general") r
                (knowledge_base st)) as [l1 [l2 [H1 H2]]].
    exists (conversation_memory st ++ l1), (l2 ++ Dict.flatten (agent_state_memory st)).
    rewrite H1, H2, <- !app_assoc. split; reflexivity.
  - destruct (flatten_append_to
                (get (agent (get (p_metadata payload) no_metadata)) "unknown") r
                (agent_state_memory st)) as [l1 [l2 [H1 H2]]].
    exists (conversation_memory st ++ Dict.flatten (knowledge_base st) ++ l1), l2.
    rewrite H1, H2, <- !app_assoc. split; reflexivity.
Qed.

Lemma not_valid_category memory_type :
  ~ valid_category memory_type ->
  String.eqb memory_type "conversation" = false
  /\ String.eqb memory_type "knowledge" = false
  /\ String.eqb memory_type "agent_state" = false.
Proof.
  unfold valid_category. intros H.
  repeat split; apply String.eqb_neq; intros E; apply H; auto.
Qed.

Lemma store_invalid st payload now :
  ~ valid_category (get (p_memory_type payload) "conversation") ->
  let st' := snd (_store_memory hash norm st payload now) in
  conversation_memory st' = conversation_memory st
  /\ knowledge_base st' = knowledge_base st
  /\ agent_state_memory st' = agent_state_memory st.
Proof.
  intros H. apply not_valid_category in H as [H1 [H2 H3]].
  unfold _store_memory. cbn [snd conversation_memory knowledge_base agent_state_memory].
  rewrite H1, H2, H3. repeat split.
Qed.

Lemma valid_category_dec memory_type :
  valid_category memory_type \/ ~ valid_category memory_type.
Proof.
  unfold valid_category.
  destruct (string_dec memory_type "conversation"); [now left; left|].
  destruct (string_dec memory_type "knowledge"); [now left; right; left|].
  destruct (string_dec memory_type "agent_state"); [now left; right; right|].
  right. intros [H | [H | H]]; contradiction.
Qed.

Lemma fresh_id st :
  consistent st ->
  ~ In (mem_id (memory_id_counter st)) (map id (all_memories st))
  /\ ~ In (mem_id (memory_id_counter st)) (VectorStore.vector_to_id (vector_store st)).
Proof.
  intros [Hids _ Hgiven _ _]. split; intros Hin.
  - apply in_map_iff in Hin as [m [Hm Hin]].
    rewrite Forall_forall in Hgiven. destruct (Hgiven _ Hin) as [i [Hi Hid]].
    rewrite Hid in Hm. apply mem_id_inj in Hm. lia.
  - rewrite Hids in Hin. apply in_map_iff in Hin as [i [Hm Hin]].
    apply mem_id_inj in Hm. apply in_seq in Hin. lia.
Qed.

Lemma store_consistent st payload now :
  consistent st -> consistent (snd (_store_memory hash norm st payload now)).
Proof.
  intros Hst. pose proof (fresh_id st Hst) as [Hfresh _].
  destruct Hst as [Hids Hone Hgiven Hdistinct Hmost].
  pose proof (store_counter st payload now) as Hcounter.
  assert (Hall :
    (exists l1 l2, all_memories st = l1 ++ l2
       /\ all_memories (snd (_store_memory hash norm st payload now))
          = l1 ++ record_of st payload now :: l2)
    \/ all_memories (snd (_store_memory hash norm st payload now)) = all_memories st).
  { destruct (valid_category_dec (get (p_memory_type payload) "conversation")) as [H | H].
    - left. now apply store_valid.
    - right. destruct (store_invalid st payload now H) as [H1 [H2 H3]].
      unfold all_memories. now rewrite H1, H2, H3. }
  constructor; rewrite ?Hcounter.
  - rewrite store_vector_to_id, Hids, seq_S, map_app. reflexivity.
  - rewrite store_index, length_app, Hone. simpl. lia.
  - destruct Hall as [[l1 [l2 [H1 H2]]] | H].
    + rewrite H2. rewrite H1 in Hgiven. apply Forall_app in Hgiven as [Hg1 Hg2].
      apply Forall_app. split; [|constructor].
      * eapply Forall_impl; [|exact Hg1]. intros m [i [Hi Hm]]. exists i. split; [lia | exact Hm].
      * exists (memory_id_counter st). split; [lia | reflexivity].
      * eapply Forall_impl; [|exact Hg2]. intros m [i [Hi Hm]]. exists i. split; [lia | exact Hm].
    + rewrite H. eapply Forall_impl; [|exact Hgiven].
      intros m [i [Hi Hm]]. exists i. split; [lia | exact Hm].
  - destruct Hall as [[l1 [l2 [H1 H2]]] | H]; [|now rewrite H].
    rewrite H2. rewrite H1 in Hdistinct, Hfresh.
    apply (Permutation_NoDup (l := map id (record_of st payload now :: l1 ++ l2))).
    + apply Permutation_map, Permutation_middle.
    + simpl. constructor; assumption.
  - destruct Hall as [[l1 [l2 [H1 H2]]] | H].
    + rewrite H2. rewrite H1 in Hmost. rewrite length_app in *. simpl. lia.
    + rewrite H. lia.
Qed.

Lemma init_consistent : consistent init.
Proof. constructor; simpl; try constructor; reflexivity. Qed.

Lemma reachable_consistent st : reachable hash norm st -> consistent st.
Proof.
  induction 1; [apply init_consistent | now apply store_consistent].
Qed.

(** In a reachable state the conversation log is in the order of insertion. *)
Lemma conversation_in_insertion_order st :
  reachable hash norm st -> StronglySorted stored_before (conversation_memory st).
Proof.
  induction 1 as [|st payload now Hreach IH]; [constructor|].
  pose proof (reachable_consistent st Hreach) as Hst.
  unfold _store_memory. cbn [snd conversation_memory].
  destruct (String.eqb _ "conversation"); [|exact IH].
  apply StronglySorted_app_one; [exact IH|].
  pose proof (ids_given_out st Hst) as Hgiven. unfold all_memories in Hgiven.
  apply Forall_app in Hgiven as [Hgiven _].
  eapply Forall_impl; [|exact Hgiven].
  intros m [i [Hi Hm]]. exists i, (memory_id_counter st). auto.
Qed.

(** C3, amended. A store request never fails and never signals an invalid
    category: for every category, content and metadata it returns status
    "stored" with the next id, advances the counter by one and adds the
    searchable text to the vector store under that id.  The record is appended
    to the log of its category when the category is one of the three, and to
    no log otherwise. *)
Theorem store_always_succeeds (st : t) (payload : Payload) (now : string) :
  let memory_type := get (p_memory_type payload) "conversation" in
  let metadata := get (p_metadata payload) no_metadata in
  let memory_record := record_of st payload now in
  let r := fst (_store_memory hash norm st payload now) in
  let st' := snd (_store_memory hash norm st payload now) in
  r = mk_stored (mem_id (memory_id_counter st)) "stored" memory_type
  /\ (operation payload = Some "store" ->
      option_map fst (process_message hash norm st payload now)
      = Some (mk_response "store" (Stored r) "stored"))
  /\ memory_id_counter st' = S (memory_id_counter st)
  /\ VectorStore.vector_to_id (vector_store st')
     = VectorStore.vector_to_id (vector_store st) ++ [memory_id r]
  /\ VectorStore.index (vector_store st')
     = VectorStore.index (vector_store st)
       ++ [VectorStore.text_to_vector hash norm (vector_store st) (search_text_of payload)]
  /\ (memory_type = "conversation" ->
      conversation_memory st' = conversation_memory st ++ [memory_record]
      /\ knowledge_base st' = knowledge_base st
      /\ agent_state_memory st' = agent_state_memory st)
  /\ (memory_type = "knowledge" ->
      conversation_memory st' = conversation_memory st
      /\ knowledge_base st'
         = Dict.append_to (get (topic metadata) "general") memory_record (knowledge_base st)
      /\ agent_state_memory st' = agent_state_memory st)
  /\ (memory_type = "agent_state" ->
      conversation_memory st' = conversation_memory st
      /\ knowledge_base st' = knowledge_base st
      /\ agent_state_memory st'
         = Dict.append_to (get (agent metadata) "unknown") memory_record
             (agent_state_memory st))
  /\ (valid_category memory_type ->
      exists l1 l2,
        all_memories st = l1 ++ l2 /\ all_memories st' = l1 ++ memory_record :: l2)
  /\ (~ valid_category memory_type ->
      conversation_memory st' = conversation_memory st
      /\ knowledge_base st' = knowledge_base st
      /\ agent_state_memory st' = agent_state_memory st).
Proof.
  intros memory_type metadata memory_record r st'.
  split; [reflexivity|].
  split.
  { intros Hop. unfold process_message. rewrite Hop. cbn [get].
    change (String.eqb "store" "store") with true. cbn iota.
    subst r. now destruct (_store_memory hash norm st payload now). }
  split; [apply store_counter|].
  split; [apply store_vector_to_id|].
  split; [apply store_index|].
  split; [|split; [|split; [|split]]].
  - intros H. subst st' memory_record metadata memory_type.
    unfold _store_memory, record_of, mem_id.
    cbn [snd conversation_memory knowledge_base agent_state_memory].
    rewrite H. repeat split.
  - intros H. subst st' memory_record metadata memory_type.
    unfold _store_memory, record_of, mem_id.
    cbn [snd conversation_memory knowledge_base agent_state_memory].
    rewrite H. repeat split.
  - intros H. subst st' memory_record metadata memory_type.
    unfold _store_memory, record_of, mem_id.
    cbn [snd conversation_memory knowledge_base agent_state_memory].
    rewrite H. repeat split.
  - apply store_valid.
  - apply store_invalid.
Qed.

(** C10. In a state the agent can reach, a store request whose category is
    none of the three still returns status "stored" with a fresh id, advances
    the counter and adds the text to the vector store, but appends the record
    to no log: afterwards the vector store holds more entries than the three
    logs hold records. *)
Theorem malformed_category_orphans_index_entry (st : t) (payload : Payload) (now : string) :
  reachable hash norm st ->
  ~ valid_category (get (p_memory_type payload) "conversation") ->
  let r := fst (_store_memory hash norm st payload now) in
  let st' := snd (_store_memory hash norm st payload now) in
  stored_status r = "stored"
  /\ memory_id r = mem_id (memory_id_counter st)
  /\ ~ In (memory_id r) (map id (all_memories st))
  /\ ~ In (memory_id r) (VectorStore.vector_to_id (vector_store st))
  /\ memory_id_counter st' = S (memory_id_counter st)
  /\ VectorStore.size (vector_store st') = S (VectorStore.size (vector_store st))
  /\ VectorStore.vector_to_id (vector_store st')
     = VectorStore.vector_to_id (vector_store st) ++ [memory_id r]
  /\ VectorStore.index (vector_store st')
     = VectorStore.index (vector_store st)
       ++ [VectorStore.text_to_vector hash norm (vector_store st) (search_text_of payload)]
  /\ conversation_memory st' = conversation_memory st
  /\ knowledge_base st' = knowledge_base st
  /\ agent_state_memory st' = agent_state_memory st
  /\ List.length (all_memories st') < VectorStore.size (vector_store st').
Proof.
  intros Hreach Hbad r st'. subst r st'.
  pose proof (reachable_consistent st Hreach) as Hst.
  destruct (fresh_id st Hst) as [Hfresh1 Hfresh2].
  destruct (store_invalid st payload now Hbad) as [H1 [H2 H3]].
  assert (Hsize : VectorStore.size (vector_store (snd (_store_memory hash norm st payload now)))
                  = S (VectorStore.size (vector_store st))).
  { unfold VectorStore.size. rewrite store_index, length_app. simpl. lia. }
  repeat split; try assumption; try reflexivity.
  - apply store_counter.
  - rewrite Hsize. unfold all_memories. rewrite H1, H2, H3.
    fold (all_memories st). unfold VectorStore.size.
    rewrite (one_vector_per_id st Hst). pose proof (logged_at_most st Hst). lia.
Qed.

End Embedding.

Section Examples.

#[local] Existing Instance Fixture.exact.

(** C3, as stated, fails: a store request with the category "bogus" is
    answered with status "stored" and the id mem_0, as any other. *)
Lemma malformed_category_is_stored :
  option_map fst
    (process_message Fixture.hash Fixture.norm init
       (mk_payload (Some "store") (Some "bogus") (Some "hello") None None None None)
       Fixture.noon)
  = Some (mk_response "store" (Stored (mk_stored "mem_0" "stored" "bogus")) "stored").
Proof. vm_compute. reflexivity. Qed.

End Examples.

Lemma bogus_is_no_category : ~ valid_category "bogus".
Proof. intros [H | [H | H]]; discriminate. Qed.

Lemma malformed_category_orphans_index_entry_witness :
  let payload :=
    mk_payload (Some "store") (Some "bogus") (Some "hello") None None None None in
  let r := fst (_store_memory Fixture.hash Fixture.norm init payload Fixture.noon) in
  let st' := snd (_store_memory Fixture.hash Fixture.norm init payload Fixture.noon) in
  stored_status r = "stored"
  /\ memory_id r = mem_id (memory_id_counter init)
  /\ ~ In (memory_id r) (map id (all_memories init))
  /\ ~ In (memory_id r) (VectorStore.vector_to_id (vector_store init))
  /\ memory_id_counter st' = S (memory_id_counter init)
  /\ VectorStore.size (vector_store st') = S (VectorStore.size (vector_store init))
  /\ VectorStore.vector_to_id (vector_store st')
     = VectorStore.vector_to_id (vector_store init) ++ [memory_id r]
  /\ VectorStore.index (vector_store st')
     = VectorStore.index (vector_store init)
       ++ [VectorStore.text_to_vector Fixture.hash Fixture.norm (vector_store init)
             (search_text_of payload)]
  /\ conversation_memory st' = conversation_memory init
  /\ knowledge_base st' = knowledge_base init
  /\ agent_state_memory st' = agent_state_memory init
  /\ List.length (all_memories st') < VectorStore.size (vector_store st').
Proof.
  intros payload.
  apply (malformed_category_orphans_index_entry Fixture.hash Fixture.norm init payload
           Fixture.noon).
  - apply reachable_init.
  - exact bogus_is_no_category.
Defined.

End MemoryAgentFacts.

(** ** Retrieval and search in the memory agent *)

Module MemoryRetrievalFacts.

Import MemoryAgent ListFacts MemoryAgentFacts.

Lemma later_first_total t1 t2 : later_first t1 t2 = true \/ later_first t2 t1 = true.
Proof. unfold later_first. apply String.leb_total. Qed.

Lemma later_first_trans t1 t2 t3 :
  later_first t1 t2 = true -> later_first t2 t3 = true -> later_first t1 t3 = true.
Proof. unfold later_first. intros H1 H2. exact (PyFacts.leb_trans _ _ _ H2 H1). Qed.

Lemma leb_refl (s : string) : String.leb s s = true.
Proof. destruct (String.leb_total s s); assumption. Qed.

(** Two time stamps compare equal only when they are the same string. *)
Lemma same_timestamp t1 t2 : Sorting.same_key later_first t1 t2 = String.eqb t1 t2.
Proof.
  unfold Sorting.same_key, later_first.
  destruct (String.eqb_spec t1 t2) as [-> | Hne].
  - now rewrite leb_refl.
  - apply andb_false_iff.
    destruct (String.leb t2 t1) eqn:E1; [|now left].
    destruct (String.leb t1 t2) eqn:E2; [|now right].
    exfalso. apply Hne. now apply String.leb_antisym.
Qed.

Lemma StronglySorted_split {A : Type} (R : A -> A -> Prop) (l1 l2 : list A) :
  StronglySorted R (l1 ++ l2) -> forall a b, In a l1 -> In b l2 -> R a b.
Proof.
  induction l1 as [|x l1 IH]; simpl; [tauto|].
  intros H a b [<- | Ha] Hb; inversion H as [|? ? Hs Hx]; subst.
  - rewrite Forall_forall in Hx. apply Hx, in_or_app. now right.
  - now apply IH.
Qed.

Section Embedding.

Variable hash : string -> Z.
Variable norm : VectorStore.vector -> Q.

(** C2, amended. [retrieve] draws on the records it collects for the filter:
    the last [limit] conversation records, then the knowledge records topic by
    topic, then the agent-state records agent by agent; for a filter that
    names one category the records of that category alone, and nothing for
    any other filter.  It returns [limit] of them, or all when there are
    fewer, in descending time-stamp order; whatever it leaves out is no later
    than anything it returns; and the records sharing one time stamp come
    back in the order they have in that collection, as an initial part of
    them.  For the conversation category, in a state the agent can reach,
    that order is the order of insertion. *)
Theorem retrieve_order (st : t) (payload : Payload) :
  let memory_type := get (p_memory_type payload) "all" in
  let limit := get (p_limit payload) 10 in
  let collected := _retrieve_collect st memory_type limit in
  let found := memories (_retrieve_memory st payload) in
  retrieved_count (_retrieve_memory st payload) = List.length found
  /\ List.length found = Nat.min limit (List.length collected)
  /\ StronglySorted (fun a b => String.leb (timestamp b) (timestamp a) = true) found
  /\ (exists dropped,
        Permutation collected (found ++ dropped)
        /\ forall a b, In a found -> In b dropped ->
                       String.leb (timestamp b) (timestamp a) = true)
  /\ (forall ts, exists rest,
        filter (fun m => String.eqb (timestamp m) ts) collected
        = filter (fun m => String.eqb (timestamp m) ts) found ++ rest)
  /\ (memory_type = "all" ->
      collected = Py.last_n limit (conversation_memory st)
                  ++ Dict.flatten (knowledge_base st)
                  ++ Dict.flatten (agent_state_memory st))
  /\ (memory_type = "conversation" ->
      collected = Py.last_n limit (conversation_memory st))
  /\ (memory_type = "knowledge" -> collected = Dict.flatten (knowledge_base st))
  /\ (memory_type = "agent_state" -> collected = Dict.flatten (agent_state_memory st))
  /\ (memory_type <> "all" -> ~ valid_category memory_type -> collected = [])
  /\ (reachable hash norm st -> memory_type = "conversation" ->
      forall ts,
        StronglySorted stored_before
          (filter (fun m => String.eqb (timestamp m) ts) found)).
Proof.
  intros memory_type limit collected found.
  assert (Hconv : memory_type = "conversation" ->
                  collected = Py.last_n limit (conversation_memory st)).
  { intros H. subst collected. unfold _retrieve_collect. rewrite H. simpl.
    now rewrite app_nil_r. }
  assert (Hties : forall ts, exists rest,
             filter (fun m => String.eqb (timestamp m) ts) collected
             = filter (fun m => String.eqb (timestamp m) ts) found ++ rest).
  { intros ts.
    destruct (filter_firstn (fun m => String.eqb (timestamp m) ts) limit
                (Sorting.sort timestamp later_first collected)) as [rest Hrest].
    exists rest. change found with (firstn limit (Sorting.sort timestamp later_first collected)).
    rewrite <- Hrest.
    rewrite (filter_ext _ (fun m => Sorting.same_key later_first (timestamp m) ts))
      by (intros m; symmetry; apply same_timestamp).
    rewrite (filter_ext (fun m => String.eqb (timestamp m) ts)
               (fun m => Sorting.same_key later_first (timestamp m) ts))
      by (intros m; symmetry; apply same_timestamp).
    symmetry.
    apply (SortingFacts.sort_stable _ _ _ _ later_first_total later_first_trans). }
  assert (Hsorted : StronglySorted (Sorting.in_order timestamp later_first)
                      (Sorting.sort timestamp later_first collected))
    by apply (SortingFacts.sort_sorted _ _ _ _ later_first_total later_first_trans).
  assert (Hfound : found = firstn limit (Sorting.sort timestamp later_first collected))
    by reflexivity.
  split; [reflexivity|].
  split; [now rewrite Hfound, length_firstn, SortingFacts.sort_length|].
  split; [rewrite Hfound; now apply firstn_StronglySorted|].
  split.
  { exists (skipn limit (Sorting.sort timestamp later_first collected)). split.
    - rewrite Hfound, firstn_skipn. apply Permutation_sym, SortingFacts.sort_perm.
    - rewrite Hfound. apply (StronglySorted_split (Sorting.in_order timestamp later_first)).
      now rewrite firstn_skipn. }
  split; [exact Hties|].
  split.
  { intros H. subst collected. unfold _retrieve_collect. now rewrite H. }
  split; [exact Hconv|].
  split.
  { intros H. subst collected. unfold _retrieve_collect. rewrite H. simpl.
    now rewrite app_nil_r. }
  split.
  { intros H. subst collected. unfold _retrieve_collect. now rewrite H. }
  split.
  { intros Hall Hbad. subst collected. unfold _retrieve_collect.
    replace (String.eqb memory_type "all") with false
      by (symmetry; now apply String.eqb_neq).
    replace (String.eqb memory_type "conversation") with false
      by (symmetry; apply String.eqb_neq; intros E; apply Hbad; now left).
    replace (String.eqb memory_type "knowledge") with false
      by (symmetry; apply String.eqb_neq; intros E; apply Hbad; right; now left).
    replace (String.eqb memory_type "agent_state") with false
      by (symmetry; apply String.eqb_neq; intros E; apply Hbad; right; now right).
    reflexivity. }
  intros Hreach H ts. destruct (Hties ts) as [rest Hrest].
  apply (StronglySorted_app_l _ _ rest). rewrite <- Hrest, (Hconv H).
  apply filter_StronglySorted.
  pose proof (conversation_in_insertion_order hash norm st Hreach) as Hlog.
  unfold Py.last_n. destruct limit; [exact Hlog | now apply skipn_StronglySorted].
Qed.

End Embedding.

(** C2, as stated, fails: a knowledge record stored first and a conversation
    record stored second, at one time stamp, come back conversation first. *)
Lemma retrieve_ties_follow_logs :
  let store st memory_type content :=
    snd (_store_memory Fixture.hash Fixture.norm st
           (mk_payload (Some "store") (Some memory_type) (Some content) None None None
              None)
           Fixture.noon) in
  let st := store (store init "knowledge" "first") "conversation" "second" in
  map (fun m => (id m, content m, timestamp m))
      (memories (_retrieve_memory st
                   (mk_payload (Some "retrieve") (Some "all") None None (Some 10) None
                      None)))
  = [("mem_1", "second", Fixture.noon); ("mem_0", "first", Fixture.noon)].
Proof. vm_compute. reflexivity. Qed.

End MemoryRetrievalFacts.

(** ** Hybrid search *)

Module MemorySearchFacts.

Import MemoryAgent ListFacts MemoryAgentFacts.

(** The id of a scored record. *)
Definition id_of (x : ScoredRecord) : string := id (record x).


Lemma higher_first_total s1 s2 : higher_first s1 s2 = true \/ higher_first s2 s1 = true.
Proof. unfold higher_first. apply VectorStoreFacts.Qle_bool_total. Qed.

Lemma higher_first_trans s1 s2 s3 :
  higher_first s1 s2 = true -> higher_first s2 s3 = true -> higher_first s1 s3 = true.
Proof.
  unfold higher_first. intros H1 H2. exact (VectorStoreFacts.Qle_bool_trans _ _ _ H2 H1).
Qed.

Lemma find_has_id l memory_id m : find (has_id memory_id) l = Some m -> id m = memory_id.
Proof.
  intros H. apply find_some in H as [_ H]. now apply String.eqb_eq in H.
Qed.

Lemma _find_memory_by_id_id st memory_id m :
  _find_memory_by_id st memory_id = Some m -> id m = memory_id.
Proof.
  unfold _find_memory_by_id.
  destruct (find _ (conversation_memory st)) eqn:E1.
  { intros H. inversion H; subst. exact (find_has_id _ _ _ E1). }
  destruct (find _ (Dict.flatten (knowledge_base st))) eqn:E2.
  { intros H. inversion H; subst. exact (find_has_id _ _ _ E2). }
  apply find_has_id.
Qed.








Section Embedding.

Variable hash : string -> Z.
Variable norm : VectorStore.vector -> Q.
Context {fl : Float.Rounding}.






End Embedding.

Section Examples.

#[local] Existing Instance Fixture.exact.



(** The same search with the limit 5: both logged records are found by the
    vector path, the nearer one first, and the keyword path adds nothing
    new. *)
Example hybrid_search_run :
  option_map (fun found => map id_of (results found))
    (_search_memory Fixture.hash Fixture.norm Fixture.three_stores
       (mk_payload (Some "search") None None None (Some 5) (Some "cnn")
          (Some "hybrid")))
  = Some ["mem_1"; "mem_0"].
Proof. vm_compute. reflexivity. Qed.

(** With limit 1 and the query "images" the nearest vector is the entry of
    the malformed category, which has no record; the one result is the
    keyword hit. *)
Example hybrid_search_keyword_only :
  option_map (fun found => map id_of (results found))
    (_search_memory Fixture.hash Fixture.norm Fixture.three_stores
       (mk_payload (Some "search") None None None (Some 1) (Some "images")
          (Some "hybrid")))
  = Some ["mem_0"].
Proof. vm_compute. reflexivity. Qed.

End Examples.

End MemorySearchFacts.

(** ** The embedding and the index it feeds *)

Module EmbeddingFacts.

Import VectorStore ListFacts VectorStoreFacts.

Open Scope Q_scope.

(** The id list and the index run in step. *)
Definition aligned (vs : t) : Prop :=
  List.length (vector_to_id vs) = List.length (index vs).

Lemma bump_length position v : List.length (bump position v) = List.length v.
Proof.
  revert position. induction v as [|x v IH]; intros [|p]; simpl; auto.
Qed.

Lemma bump_nonneg position v :
  Forall (fun x => 0 <= x) v -> Forall (fun x => 0 <= x) (bump position v).
Proof.
  intros H. revert position. induction H as [|x v Hx Hv IH]; intros [|p]; simpl;
    constructor; auto.
  apply Qle_trans with (y := x); [exact Hx|].
  rewrite <- (Qplus_0_r x) at 1. apply Qplus_le_compat; [apply Qle_refl | discriminate].
Qed.

Lemma l2sqr_self (v : vector) : l2sqr v v == 0.
Proof.
  unfold l2sqr, Py.sum.
  assert (H : forall a, fold_left Qplus
                          (map (fun p : Q * Q => (fst p - snd p) * (fst p - snd p))
                               (combine v v)) a == a).
  { induction v as [|x v IH]; intros a; simpl; [reflexivity|].
    rewrite IH. ring. }
  apply H.
Qed.

Lemma combine_app_eq {A B : Type} (l1 l2 : list A) (m1 m2 : list B) :
  List.length l1 = List.length m1 ->
  combine (l1 ++ l2) (m1 ++ m2) = combine l1 m1 ++ combine l2 m2.
Proof.
  revert m1. induction l1 as [|x l1 IH]; intros [|y m1] H; simpl in *; try discriminate.
  - reflexivity.
  - now rewrite IH by lia.
Qed.

Lemma candidates_length (xb : list vector) (xq : vector) :
  List.length (combine (map (l2sqr xq) xb) (seq 0 (List.length xb))) = List.length xb.
Proof. rewrite length_combine, length_map, length_seq. apply Nat.min_id. Qed.

Lemma nearest_exact_length xb xq k :
  List.length (nearest xb xq k) = Nat.min k (List.length xb).
Proof.
  unfold nearest.
  now rewrite length_firstn, SortingFacts.sort_length, candidates_length.
Qed.

Section Embedding.

Variable hash : string -> Z.
Variable norm : vector -> Q.
Context {fl : Float.Rounding}.

Lemma to_results_complete ids found d idx memory_id :
  In (d, idx) found -> nth_error ids idx = Some memory_id ->
  In (memory_id, similarity d) (to_results ids found).
Proof.
  intros Hin Hnth. induction found as [|[d' idx'] found IH]; simpl in *; [tauto|].
  destruct Hin as [H | H].
  - inversion H; subst. rewrite Hnth. now left.
  - destruct (nth_error ids idx'); [right|]; now apply IH.
Qed.

Lemma to_results_all ids found :
  Forall (fun p => (snd p < List.length ids)%nat) found ->
  List.length (to_results ids found) = List.length found.
Proof.
  induction 1 as [|[d idx] found Hidx _ IH]; simpl; [reflexivity|].
  simpl in Hidx. apply nth_error_Some in Hidx.
  destruct (nth_error ids idx); [|congruence].
  simpl. now rewrite IH.
Qed.

Lemma count_words_length dim words v :
  List.length (count_words hash dim words v) = List.length v.
Proof.
  revert v. induction words as [|w words IH]; intros v; simpl; [reflexivity|].
  destruct (String.eqb _ ""); rewrite IH; [reflexivity | apply bump_length].
Qed.

Lemma count_words_nonneg dim words v :
  Forall (fun x => 0 <= x) v -> Forall (fun x => 0 <= x) (count_words hash dim words v).
Proof.
  revert v. induction words as [|w words IH]; intros v Hv; simpl; [exact Hv|].
  destruct (String.eqb _ ""); apply IH; [exact Hv | now apply bump_nonneg].
Qed.

Lemma count_words_no_token dim words v :
  Forall (fun w => filter Py.isalnum (list_ascii_of_string w) = []) words ->
  count_words hash dim words v = v.
Proof.
  revert v. induction 1 as [|w words Hw _ IH]; intros; simpl; [reflexivity|].
  rewrite Hw. simpl. apply IH.
Qed.

(** X4. The vector of a text has exactly [dimension] entries, none negative,
    whatever the hash and the norm; and a text none of whose words holds a
    letter or digit (the empty text for one) gets the zero vector. *)
Theorem text_to_vector_shape (vs : t) (text : string) :
  List.length (text_to_vector hash norm vs text) = dimension vs
  /\ Forall (fun x => 0 <= x) (text_to_vector hash norm vs text)
  /\ (Forall (fun w => filter Py.isalnum (list_ascii_of_string w) = [])
        (Py.split (Py.lower text)) ->
      Forall (fun x => x == 0) (text_to_vector hash norm vs text)).
Proof.
  unfold text_to_vector.
  set (v := count_words hash (dimension vs) _ _).
  assert (Hlen : List.length v = dimension vs)
    by (subst v; now rewrite count_words_length, repeat_length).
  assert (Hpos : Forall (fun x => 0 <= x) v).
  { subst v. apply count_words_nonneg, Forall_forall.
    intros x Hx. apply repeat_spec in Hx. subst. apply Qle_refl. }
  destruct (Py.gt (norm v) 0) eqn:E.
  - apply PyFacts.gt_iff in E. repeat split.
    + now rewrite length_map.
    + apply Forall_forall. intros y Hy. apply in_map_iff in Hy as [x [<- Hx]].
      rewrite Forall_forall in Hpos. apply Qle_shift_div_l; [exact E|].
      rewrite Qmult_0_l. now apply Hpos.
    + intros Hno. subst v. rewrite (count_words_no_token _ _ _ Hno).
      apply Forall_forall. intros y Hy. apply in_map_iff in Hy as [x [<- Hx]].
      apply repeat_spec in Hx. subst. unfold Qdiv. apply Qmult_0_l.
  - repeat split; auto.
    intros Hno. subst v. rewrite (count_words_no_token _ _ _ Hno).
    apply Forall_forall. intros x Hx. apply repeat_spec in Hx. subst. reflexivity.
Qed.

Lemma add_aligned vs memory_id text : aligned vs -> aligned (add hash norm vs memory_id text).
Proof. unfold aligned, add. simpl. rewrite !length_app. simpl. lia. Qed.

(** X5. On a store whose id list and index run in step, [search] raises
    exactly when it is asked for no neighbour of an index that is not empty;
    whenever it returns, it returns exactly [min top_k size] pairs: what is
    asked for, clamped to what is stored. *)
Theorem search_length (vs : t) (query_text : string) (top_k : nat) :
  aligned vs ->
  match search hash norm vs query_text top_k with
  | Some found =>
      (1 <= top_k \/ size vs = 0)%nat
      /\ List.length found = Nat.min top_k (size vs)
  | None => top_k = 0%nat /\ size vs <> 0%nat
  end.
Proof.
  intros Hal. rewrite ReturnFacts.search_cases. unfold ReturnFacts.refused.
  destruct (size vs =? 0)%nat eqn:E.
  - apply Nat.eqb_eq in E. cbn [negb andb]. split; [now right|].
    unfold ReturnFacts.similar_ids. rewrite E. now rewrite Nat.min_0_r.
  - cbn [negb andb]. destruct (top_k =? 0)%nat eqn:Ek.
    + apply Nat.eqb_eq in Ek. apply Nat.eqb_neq in E. auto.
    + apply Nat.eqb_neq in Ek. split; [left; lia|].
      unfold ReturnFacts.similar_ids. rewrite E. rewrite to_results_all.
      * rewrite nearest_exact_length. unfold size. lia.
      * apply Forall_forall. intros [d idx] Hin.
        apply nearest_sound in Hin as [v [Hv _]]. simpl.
        rewrite Hal. apply nth_error_Some. congruence.
Qed.

(** X6. Round trip: an entry just added is found again by a search with its own
    text, at distance 0 and hence with score 1, provided the search asks for
    more entries than the store held before. *)
Theorem add_then_search (vs : t) (memory_id text : string) (top_k : nat) :
  aligned vs ->
  (size vs < top_k)%nat ->
  exists found s,
    search hash norm (add hash norm vs memory_id text) text top_k = Some found
    /\ In (memory_id, s) found
    /\ s == 1.
Proof.
  intros Hal Hk.
  set (v := text_to_vector hash norm vs text).
  assert (Hsize : (size (add hash norm vs memory_id text) =? 0)%nat = false)
    by (unfold size, add; simpl; rewrite length_app; simpl; apply Nat.eqb_neq; lia).
  exists (ReturnFacts.similar_ids hash norm (add hash norm vs memory_id text) text top_k),
         (similarity (l2sqr v v)).
  split; [|split].
  - rewrite ReturnFacts.search_cases.
    now rewrite ReturnFacts.not_refused by (left; lia).
  - unfold ReturnFacts.similar_ids. rewrite Hsize.
    change (text_to_vector hash norm (add hash norm vs memory_id text) text) with v.
    apply to_results_complete with (idx := size vs).
    + unfold nearest. rewrite firstn_all2.
      * apply SortingFacts.sort_In. unfold add, size. simpl.
        rewrite map_app, length_app. simpl.
        rewrite Nat.add_1_r, seq_S.
        rewrite combine_app_eq
          by (rewrite length_map, length_seq; reflexivity).
        apply in_or_app. right. now left.
      * rewrite SortingFacts.sort_length, candidates_length.
        unfold add, size. simpl. rewrite length_app. simpl.
        unfold size in Hk. lia.
    + unfold add, size. simpl. rewrite <- Hal.
      rewrite nth_error_app2 by lia. now rewrite Nat.sub_diag.
  - apply Qeq_trans with (y := similarity 0); [apply similarity_proper, l2sqr_self|].
    unfold similarity.
    assert (E : Float.round (1 + 0) == 1).
    { apply Qeq_trans with (y := Float.round 1); [|apply Float.round_one].
      apply Float.round_proper. ring. }
    apply Qeq_trans with (y := Float.round 1); [|apply Float.round_one].
    apply Float.round_proper. rewrite E. reflexivity.
Qed.

End Embedding.

Section Examples.

#[local] Existing Instance Fixture.exact.

Lemma search_length_witness :
  match search Fixture.hash Fixture.norm
          (add Fixture.hash Fixture.norm init "mem_0" "neural networks") "networks" 5
  with
  | Some found =>
      (1 <= 5 \/ size (add Fixture.hash Fixture.norm init "mem_0" "neural networks") = 0)%nat
      /\ List.length found
         = Nat.min 5 (size (add Fixture.hash Fixture.norm init "mem_0" "neural networks"))
  | None =>
      5%nat = 0%nat
      /\ size (add Fixture.hash Fixture.norm init "mem_0" "neural networks") <> 0%nat
  end.
Proof.
  apply (search_length Fixture.hash Fixture.norm
           (add Fixture.hash Fixture.norm init "mem_0" "neural networks") "networks" 5).
  apply add_aligned. reflexivity.
Defined.

Lemma add_then_search_witness :
  exists found s,
    search Fixture.hash Fixture.norm
      (add Fixture.hash Fixture.norm init "mem_0" "neural networks")
      "neural networks" 5
    = Some found
    /\ In ("mem_0"%string, s) found
    /\ s == 1.
Proof.
  apply (add_then_search Fixture.hash Fixture.norm init "mem_0" "neural networks" 5).
  - reflexivity.
  - unfold size. simpl. lia.
Defined.

End Examples.

End EmbeddingFacts.

(** ** What the logs hold *)

Module MemoryLogFacts.

Import MemoryAgent ListFacts MemoryAgentFacts MemorySearchFacts.

Lemma find_app {A : Type} (p : A -> bool) (l1 l2 : list A) :
  find p (l1 ++ l2) = match find p l1 with Some x => Some x | None => find p l2 end.
Proof.
  induction l1 as [|x l1 IH]; simpl; [reflexivity|]. destruct (p x); auto.
Qed.

(** The three loops of [_find_memory_by_id] are one search through all the
    records. *)
Lemma _find_memory_by_id_all st memory_id :
  _find_memory_by_id st memory_id = find (has_id memory_id) (all_memories st).
Proof.
  unfold _find_memory_by_id, all_memories. rewrite !find_app.
  destruct (find _ (conversation_memory st)); [reflexivity|].
  destruct (find _ (Dict.flatten (knowledge_base st))); reflexivity.
Qed.

Lemma find_by_distinct_id l m :
  NoDup (map id l) -> In m l -> find (has_id (id m)) l = Some m.
Proof.
  induction l as [|x l IH]; simpl; [tauto|].
  intros H. inversion H as [|? ? Hnew Hrest]; subst. intros [-> | Hin].
  - unfold has_id. now rewrite String.eqb_refl.
  - unfold has_id at 1. destruct (String.eqb_spec (id x) (id m)) as [E | _].
    + exfalso. apply Hnew. rewrite E. now apply in_map.
    + now apply IH.
Qed.

Lemma find_absent_id l memory_id :
  ~ In memory_id (map id l) -> find (has_id memory_id) l = None.
Proof.
  induction l as [|x l IH]; simpl; [reflexivity|].
  intros H. unfold has_id at 1. destruct (String.eqb_spec (id x) memory_id) as [E | _].
  - exfalso. apply H. now left.
  - apply IH. intros Hin. apply H. now right.
Qed.

(** What a log under a key must hold: records of the category, filed under
    the key their metadata names, and at least one of them. *)
Definition filed (category : string) (key_of : MemoryRecord -> string)
  (e : string * list MemoryRecord) : Prop :=
  snd e <> []
  /\ Forall (fun m => type m = category /\ key_of m = fst e) (snd e).

Definition topic_of (m : MemoryRecord) : string := get (topic (metadata m)) "general".

Definition agent_of (m : MemoryRecord) : string := get (agent (metadata m)) "unknown".

Record well_logged (st : t) : Prop := {
  conversation_typed : Forall (fun m => type m = "conversation") (conversation_memory st);
  knowledge_filed : Forall (filed "knowledge" topic_of) (knowledge_base st);
  knowledge_keys : NoDup (map fst (knowledge_base st));
  agent_state_filed : Forall (filed "agent_state" agent_of) (agent_state_memory st);
  agent_state_keys : NoDup (map fst (agent_state_memory st))
}.

Lemma append_to_filed category key_of (r : MemoryRecord) (d : Dict.t MemoryRecord) :
  type r = category ->
  Forall (filed category key_of) d ->
  Forall (filed category key_of) (Dict.append_to (key_of r) r d).
Proof.
  intros Hr. induction 1 as [|[k l] d [Hne Hl] Hd IH]; simpl.
  - constructor; [|constructor]. split; simpl; [discriminate|].
    constructor; [now split | constructor].
  - destruct (String.eqb_spec k (key_of r)) as [-> | Hk].
    + constructor; [|exact Hd]. split; simpl.
      * destruct l; discriminate.
      * apply Forall_app. split; [exact Hl | repeat constructor; auto].
    + constructor; [now split | exact IH].
Qed.

Lemma append_to_keys {V : Type} (k : string) (v : V) (d : Dict.t V) :
  map fst (Dict.append_to k v d)
  = if Py.mem k (map fst d) then map fst d else map fst d ++ [k].
Proof.
  induction d as [|[k' l] d IH]; simpl; [reflexivity|].
  rewrite (String.eqb_sym k k'). destruct (String.eqb k' k); simpl; [reflexivity|].
  rewrite IH. unfold Py.mem. now destruct (existsb _ _).
Qed.

Lemma append_to_keys_NoDup {V : Type} (k : string) (v : V) (d : Dict.t V) :
  NoDup (map fst d) -> NoDup (map fst (Dict.append_to k v d)).
Proof.
  intros H. rewrite append_to_keys. destruct (Py.mem k (map fst d)) eqn:E; [exact H|].
  apply NoDup_app; [exact H | repeat constructor; simpl; tauto |].
  intros a Ha [<- | []]. apply PyFacts.mem_iff in Ha. congruence.
Qed.

Lemma flatten_filed category key_of (d : Dict.t MemoryRecord) :
  Forall (filed category key_of) d ->
  Forall (fun m => type m = category) (Dict.flatten d).
Proof.
  unfold Dict.flatten, Dict.values.
  induction 1 as [|[k l] d [_ Hl] _ IH]; simpl; [constructor|].
  apply Forall_app. split; [|exact IH].
  eapply Forall_impl; [|exact Hl]. now intros m [H _].
Qed.

Lemma flatten_length {V : Type} (d : Dict.t V) :
  List.length (Dict.flatten d) = list_sum (map (@List.length V) (Dict.values d)).
Proof. unfold Dict.flatten. apply length_concat. Qed.

Lemma filed_at_least_one category key_of (d : Dict.t MemoryRecord) :
  Forall (filed category key_of) d -> List.length d <= List.length (Dict.flatten d).
Proof.
  unfold Dict.flatten, Dict.values.
  induction 1 as [|[k l] d [Hne _] _ IH]; simpl; [lia|].
  rewrite length_app. simpl in Hne. destruct l; [congruence | simpl in *; lia].
Qed.

Section Embedding.

Variable hash : string -> Z.
Variable norm : VectorStore.vector -> Q.
Context {fl : Float.Rounding}.

Lemma store_well_logged st payload now :
  well_logged st -> well_logged (snd (_store_memory hash norm st payload now)).
Proof.
  intros [Hc Hk Hkk Ha Hak]. unfold _store_memory.
  set (r := mk_record _ _ _ _ _).
  constructor; cbn [snd conversation_memory knowledge_base agent_state_memory].
  - destruct (String.eqb_spec (get (p_memory_type payload) "conversation") "conversation")
      as [E | _]; [|exact Hc].
    apply Forall_app. split; [exact Hc | repeat constructor; exact E].
  - destruct (String.eqb _ "conversation"); [exact Hk|].
    destruct (String.eqb_spec (get (p_memory_type payload) "conversation") "knowledge")
      as [E | _]; [|exact Hk].
    now apply (append_to_filed "knowledge" topic_of r).
  - destruct (String.eqb _ "conversation"); [exact Hkk|].
    destruct (String.eqb _ "knowledge"); [|exact Hkk].
    now apply append_to_keys_NoDup.
  - destruct (String.eqb _ "conversation"); [exact Ha|].
    destruct (String.eqb _ "knowledge"); [exact Ha|].
    destruct (String.eqb_spec (get (p_memory_type payload) "conversation") "agent_state")
      as [E | _]; [|exact Ha].
    now apply (append_to_filed "agent_state" agent_of r).
  - destruct (String.eqb _ "conversation"); [exact Hak|].
    destruct (String.eqb _ "knowledge"); [exact Hak|].
    destruct (String.eqb _ "agent_state"); [|exact Hak].
    now apply append_to_keys_NoDup.
Qed.

Lemma reachable_well_logged (st : t) :
  reachable hash norm st -> well_logged st.
Proof.
  induction 1; [|now apply store_well_logged].
  constructor; simpl; constructor.
Qed.

(** X7. In every state the agent can reach, the conversation log holds
    conversation records only; each knowledge record sits under the key of its
    own topic ("general" when it names none) and each agent-state record under
    its agent ("unknown" when it names none); no key holds an empty log and no
    key occurs twice. *)
Theorem logs_hold_their_category (st : t) :
  reachable hash norm st -> well_logged st.
Proof. exact (reachable_well_logged st). Qed.

(** X8. Round trip through the logs: in a reachable state, a record stored under
    one of the three categories is found again by its id, with the content,
    metadata and time stamp given; a record stored under any other category is
    not found; and every record found before the store is still found,
    unchanged, after it. *)
Theorem store_then_find (st : t) (payload : Payload) (now : string) :
  reachable hash norm st ->
  let r := fst (_store_memory hash norm st payload now) in
  let st' := snd (_store_memory hash norm st payload now) in
  (valid_category (get (p_memory_type payload) "conversation") ->
   _find_memory_by_id st' (memory_id r) = Some (record_of st payload now))
  /\ (~ valid_category (get (p_memory_type payload) "conversation") ->
      _find_memory_by_id st' (memory_id r) = None)
  /\ (forall m, In m (all_memories st) -> _find_memory_by_id st' (id m) = Some m).
Proof.
  intros Hreach r st'. subst r st'.
  pose proof (reachable_consistent hash norm st Hreach) as Hst.
  pose proof (store_consistent hash norm st payload now Hst) as Hst'.
  rewrite !_find_memory_by_id_all.
  split; [|split].
  - intros Hv. destruct (store_valid hash norm st payload now Hv) as [l1 [l2 [_ H2]]].
    apply (find_by_distinct_id _ (record_of st payload now)); [apply (ids_distinct _ Hst')|].
    rewrite H2. apply in_or_app. right. now left.
  - intros Hbad. destruct (store_invalid hash norm st payload now Hbad) as [H1 [H2 H3]].
    apply find_absent_id. unfold all_memories. rewrite H1, H2, H3.
    apply (fresh_id st Hst).
  - intros m Hm. rewrite _find_memory_by_id_all.
    apply find_by_distinct_id; [apply (ids_distinct _ Hst')|].
    destruct (valid_category_dec (get (p_memory_type payload) "conversation")) as [Hv | Hbad].
    + destruct (store_valid hash norm st payload now Hv) as [l1 [l2 [H1 H2]]].
      rewrite H2. rewrite H1 in Hm. apply in_app_or in Hm as [Hm | Hm];
        apply in_or_app; [now left | right; now right].
    + destruct (store_invalid hash norm st payload now Hbad) as [H1 [H2 H3]].
      unfold all_memories in *. now rewrite H1, H2, H3.
Qed.

(** X9. A retrieval for one of the three categories returns records of that
    category only, in every reachable state. *)
Theorem retrieve_respects_filter (st : t) (payload : Payload) :
  reachable hash norm st ->
  valid_category (get (p_memory_type payload) "all") ->
  Forall (fun m => type m = get (p_memory_type payload) "all")
         (memories (_retrieve_memory st payload)).
Proof.
  intros Hreach Hv. destruct (reachable_well_logged st Hreach) as [Hc Hk _ Ha _].
  apply Forall_forall. intros m Hm. unfold _retrieve_memory in Hm. cbn [memories] in Hm.
  apply firstn_In, SortingFacts.sort_In in Hm. unfold _retrieve_collect in Hm.
  apply flatten_filed in Hk, Ha. rewrite Forall_forall in Hc, Hk, Ha.
  destruct Hv as [E | [E | E]]; rewrite E in *; simpl in Hm;
    rewrite ?app_nil_r in Hm.
  - apply Hc. unfold Py.last_n in Hm. destruct (get (p_limit payload) 10); [exact Hm|].
    rewrite <- (firstn_skipn (List.length (conversation_memory st) - S n)).
    apply in_or_app. now right.
  - now apply Hk.
  - now apply Ha.
Qed.

(** X10. The statistics of a reachable state: the vector store holds one entry
    per id given out; the logged conversation and knowledge records and the
    agents with a state together never outnumber those entries; and there are at
    most as many knowledge topics as knowledge records. *)
Theorem statistics_consistent (st : t) :
  reachable hash norm st ->
  let stats := get_statistics st in
  vector_store_size stats = memory_id_counter st
  /\ conversation_count stats + total_knowledge stats + agent_states stats
     <= vector_store_size stats
  /\ knowledge_topics stats <= total_knowledge stats.
Proof.
  intros Hreach stats. subst stats. unfold get_statistics. simpl.
  pose proof (reachable_consistent hash norm st Hreach) as Hst.
  destruct (reachable_well_logged st Hreach) as [_ Hk _ Ha _].
  pose proof (logged_at_most st Hst) as Hmost. unfold all_memories in Hmost.
  rewrite !length_app in Hmost.
  apply filed_at_least_one in Ha. pose proof (filed_at_least_one _ _ _ Hk) as Hk'.
  rewrite <- flatten_length. unfold VectorStore.size.
  rewrite (one_vector_per_id st Hst). lia.
Qed.

(** X11. A request whose operation is none of store, retrieve and search is
    answered, not refused: the response names the operation, carries the error
    text and the status "error", and the state stays as it was. *)
Theorem unknown_operation_reported (st : t) (payload : Payload) (now : string) :
  let operation := get (operation payload) "retrieve" in
  operation <> "store" -> operation <> "retrieve" -> operation <> "search" ->
  process_message hash norm st payload now
  = Some (mk_response operation (Error ("Unknown operation: " ++ operation)%string)
            "error",
          st).
Proof.
  intros op H1 H2 H3. subst op. unfold process_message.
  apply String.eqb_neq in H1, H2, H3. now rewrite H1, H2, H3.
Qed.

End Embedding.

Section Examples.

#[local] Existing Instance Fixture.exact.

Lemma unknown_operation_reported_witness :
  process_message Fixture.hash Fixture.norm Fixture.three_stores
    (mk_payload (Some "delete") None None None None None None) Fixture.noon
  = Some (mk_response "delete" (Error "Unknown operation: delete") "error",
          Fixture.three_stores).
Proof.
  apply (unknown_operation_reported Fixture.hash Fixture.norm Fixture.three_stores
           (mk_payload (Some "delete") None None None None None None) Fixture.noon);
    discriminate.
Defined.

End Examples.

Lemma store_then_find_witness :
  let payload :=
    mk_payload (Some "store") (Some "knowledge") (Some "Attention weighs tokens.")
      (Some (mk_metadata (Some "transformers") None None None None None))
      None None None in
  let r := fst (_store_memory Fixture.hash Fixture.norm Fixture.three_stores payload
                  Fixture.noon) in
  let st' := snd (_store_memory Fixture.hash Fixture.norm Fixture.three_stores payload
                    Fixture.noon) in
  (valid_category (get (p_memory_type payload) "conversation") ->
   _find_memory_by_id st' (memory_id r)
   = Some (record_of Fixture.three_stores payload Fixture.noon))
  /\ (~ valid_category (get (p_memory_type payload) "conversation") ->
      _find_memory_by_id st' (memory_id r) = None)
  /\ (forall m, In m (all_memories Fixture.three_stores) ->
                _find_memory_by_id st' (id m) = Some m).
Proof.
  intros payload.
  apply (store_then_find Fixture.hash Fixture.norm Fixture.three_stores payload Fixture.noon).
  unfold Fixture.three_stores, Fixture.store.
  repeat apply reachable_store. apply reachable_init.
Defined.

Lemma three_stores_reachable : reachable Fixture.hash Fixture.norm Fixture.three_stores.
Proof.
  unfold Fixture.three_stores, Fixture.store.
  repeat apply reachable_store. apply reachable_init.
Qed.

Lemma logs_hold_their_category_witness : well_logged Fixture.three_stores.
Proof. apply (logs_hold_their_category Fixture.hash Fixture.norm), three_stores_reachable. Defined.

Lemma retrieve_respects_filter_witness :
  Forall (fun m => type m = "knowledge")
         (memories (_retrieve_memory Fixture.three_stores
                      (mk_payload (Some "retrieve") (Some "knowledge") None None (Some 10)
                         None None))).
Proof.
  apply (retrieve_respects_filter Fixture.hash Fixture.norm Fixture.three_stores
           (mk_payload (Some "retrieve") (Some "knowledge") None None (Some 10) None None)).
  - exact three_stores_reachable.
  - right. left. reflexivity.
Defined.

Lemma statistics_consistent_witness :
  let stats := get_statistics Fixture.three_stores in
  vector_store_size stats = memory_id_counter Fixture.three_stores
  /\ conversation_count stats + total_knowledge stats + agent_states stats
     <= vector_store_size stats
  /\ knowledge_topics stats <= total_knowledge stats.
Proof.
  apply (statistics_consistent Fixture.hash Fixture.norm), three_stores_reachable.
Defined.

End MemoryLogFacts.

(** ** The scores of search results *)

Module SearchScoreFacts.

Import MemoryAgent ListFacts MemoryAgentFacts MemorySearchFacts MemoryLogFacts.

Open Scope Q_scope.

Lemma ratio_bounds (a b : nat) :
  (0 < a)%nat -> (a <= b)%nat ->
  0 < inject_Z (Z.of_nat a) / inject_Z (Z.of_nat b)
  /\ inject_Z (Z.of_nat a) / inject_Z (Z.of_nat b) <= 1.
Proof.
  intros Ha Hab.
  assert (Hb : 0 < inject_Z (Z.of_nat b)).
  { change 0 with (inject_Z 0). rewrite <- Zlt_Qlt. lia. }
  split.
  - apply Qlt_shift_div_l; [exact Hb|]. rewrite Qmult_0_l.
    change 0 with (inject_Z 0). rewrite <- Zlt_Qlt. lia.
  - apply Qle_shift_div_r; [exact Hb|]. rewrite Qmult_1_l. rewrite <- Zle_Qle. lia.
Qed.

(** A match score is 0 or lies in (0, 1]. *)
Lemma keyword_match_score_bounds query_lower m :
  keyword_match_score query_lower m <= 1.
Proof.
  unfold keyword_match_score.
  destruct (_ || _); [apply Qle_refl|].
  set (query_words := distinct (Py.split query_lower)).
  set (overlap := filter _ query_words).
  pose proof (filter_length_le
                (fun w => Py.mem w (Py.split (Py.lower (content m)))
                          || Py.mem w (Py.split (Py.lower (get (topic (metadata m)) ""))))
                query_words) as Hle.
  fold overlap in Hle. clearbody overlap.
  destruct overlap as [|w ws]; [discriminate|].
  apply ratio_bounds; [simpl; lia | exact Hle].
Qed.

Lemma keyword_matches_hit query_lower l x :
  In x (keyword_matches query_lower l) ->
  In (record x) l
  /\ x = mk_scored (record x) (Some (keyword_match_score query_lower (record x))) None
  /\ 0 < keyword_match_score query_lower (record x).
Proof.
  induction l as [|m l IH]; simpl; [tauto|].
  destruct (Py.gt (keyword_match_score query_lower m) 0) eqn:E.
  - intros [<- | H].
    + simpl. apply PyFacts.gt_iff in E. auto.
    + destruct (IH H) as [H1 H2]. auto.
  - intros H. destruct (IH H) as [H1 H2]. auto.
Qed.

Lemma keyword_search_hit st query limit x :
  In x (_keyword_search st query limit) ->
  In (record x) (all_memories st)
  /\ x = mk_scored (record x)
           (Some (keyword_match_score (Py.lower query) (record x))) None
  /\ 0 < keyword_match_score (Py.lower query) (record x).
Proof.
  unfold _keyword_search. intros H.
  apply firstn_In, SortingFacts.sort_In in H. now apply keyword_matches_hit.
Qed.

(** X12. The keyword search returns at most [limit] hits, each a logged record
    with its match score, which lies in (0, 1]; the hits come in non-increasing
    match score. *)
Theorem keyword_search_scores (st : t) (query : string) (limit : nat) :
  let hits := _keyword_search st query limit in
  (List.length hits <= limit)%nat
  /\ Forall (fun x =>
               In (record x) (all_memories st)
               /\ match_score x = Some (keyword_match_score (Py.lower query) (record x))
               /\ 0 < score (match_score x) /\ score (match_score x) <= 1)
            hits
  /\ StronglySorted (fun a b => score (match_score b) <= score (match_score a)) hits.
Proof.
  intros hits. split; [apply firstn_le_length|]. split.
  - apply Forall_forall. intros x Hx.
    destruct (keyword_search_hit _ _ _ _ Hx) as [Hin [Heq Hpos]].
    rewrite Heq. simpl. repeat split; auto. apply keyword_match_score_bounds.
  - subst hits. unfold _keyword_search. apply firstn_StronglySorted.
    eapply StronglySorted_impl;
      [|apply (SortingFacts.sort_sorted _ _ (fun x => score (match_score x)) higher_first
                 higher_first_total higher_first_trans)].
    intros a b Hab. now apply Qle_bool_iff.
Qed.

Lemma vector_hits_hit st similar_ids x :
  In x (vector_hits st similar_ids) ->
  exists s,
    In (id_of x, s) similar_ids
    /\ In (record x) (all_memories st)
    /\ x = mk_scored (record x) None (Some s).
Proof.
  induction similar_ids as [|[memory_id s] rest IH]; simpl; [tauto|].
  destruct (_find_memory_by_id st memory_id) as [m|] eqn:E.
  - intros [<- | H].
    + exists s. unfold id_of. simpl.
      rewrite (_find_memory_by_id_id _ _ _ E). split; [now left|]. split; [|reflexivity].
      rewrite _find_memory_by_id_all in E. now apply find_some in E as [E _].
    + destruct (IH H) as [s' [H1 H2]]. exists s'. split; [now right | exact H2].
  - intros H. destruct (IH H) as [s' [H1 H2]]. exists s'. split; [now right | exact H2].
Qed.

Lemma keyword_only_hit existing_ids l x :
  In x (keyword_only existing_ids l) ->
  exists kr, In kr l /\ x = mk_scored (record kr) (match_score kr) (Some (7 # 10)).
Proof.
  induction l as [|kr l IH]; simpl; [tauto|].
  destruct (negb _).
  - intros [<- | H]; [exists kr; auto|].
    destruct (IH H) as [kr' [H1 H2]]. exists kr'. auto.
  - intros H. destruct (IH H) as [kr' [H1 H2]]. exists kr'. auto.
Qed.

Section Embedding.

Variable hash : string -> Z.
Variable norm : VectorStore.vector -> Q.
Context {fl : Float.Rounding}.

Lemma search_pair_bounds vs query_text top_k memory_id s :
  In (memory_id, s) (ReturnFacts.similar_ids hash norm vs query_text top_k) ->
  0 < s /\ s <= 1.
Proof.
  unfold ReturnFacts.similar_ids.
  destruct (VectorStore.size vs =? 0)%nat; [simpl; tauto|].
  intros H. apply VectorStoreFacts.to_results_In in H as [d [idx [Hin [_ ->]]]].
  apply VectorStoreFacts.nearest_sound in Hin as [v [_ ->]].
  apply VectorStoreFacts.similarity_bounds, VectorStoreFacts.l2sqr_nonneg.
Qed.

(** X13. Every search result is a copy of a logged record: an index entry
    without a record is never returned. A result of the vector path carries a
    similarity in (0, 1] and no match score; a keyword-only result carries the
    similarity 0.7 and its match score, which lies in (0, 1]. *)
Theorem search_results_scored (st : t) (payload : Payload) :
  match _search_memory hash norm st payload with
  | Some found =>
      Forall (fun x =>
                In (record x) (all_memories st)
                /\ ((match_score x = None
                     /\ exists s, similarity_score x = Some s /\ 0 < s /\ s <= 1)
                    \/ (similarity_score x = Some (7 # 10)
                        /\ exists s, match_score x = Some s /\ 0 < s /\ s <= 1)))
             (results found)
  | None => True
  end.
Proof.
  rewrite ReturnFacts.search_memory_cases.
  destruct (ReturnFacts.search_refused st payload); [exact I|].
  apply Forall_forall. intros x Hx.
  unfold ReturnFacts.searched, merged in Hx. cbn [results] in Hx.
  apply firstn_In, SortingFacts.sort_In, in_app_or in Hx. destruct Hx as [Hx | Hx].
  - unfold ReturnFacts.vector_results in Hx. destruct (Py.mem _ _); [|destruct Hx].
    apply vector_hits_hit in Hx as [s [Hs [Hin Heq]]].
    split; [exact Hin|]. left. rewrite Heq. simpl. split; [reflexivity|].
    exists s. split; [reflexivity|]. exact (search_pair_bounds _ _ _ _ _ Hs).
  - unfold keyword_path in Hx. destruct (Py.mem _ _); [|destruct Hx].
    apply keyword_only_hit in Hx as [kr [Hkr Heq]].
    destruct (keyword_search_hit _ _ _ _ Hkr) as [Hin [Hkr_eq Hpos]].
    rewrite Heq. simpl. split; [exact Hin|]. right. split; [reflexivity|].
    rewrite Hkr_eq. simpl. eexists. split; [reflexivity|]. split; [exact Hpos|].
    apply keyword_match_score_bounds.
Qed.

End Embedding.

End SearchScoreFacts.

(** ** The shape of plans and of their execution *)

Module PlanFacts.

Import Coordinator PyFacts CoordinatorFacts.

Lemma filter_nil_iff {A : Type} (p : A -> bool) (l : list A) :
  filter p l = [] <-> forall x, In x l -> p x = false.
Proof.
  induction l as [|x l IH]; simpl; [tauto|].
  destruct (p x) eqn:E; split.
  - discriminate.
  - intros H. specialize (H x (or_introl eq_refl)). congruence.
  - intros H y [<- | Hy]; [exact E | now apply IH].
  - intros H. apply IH. intros y Hy. apply H. now right.
Qed.

(** X14. At most two research topics are extracted. When a keyword of the topic
    table occurs in the query, the topics are table topics with such a keyword,
    in table order; otherwise there is at most one topic, made of up to three
    words of the query, each longer than three characters and not a stop word,
    joined by blanks. *)
Theorem extract_research_topics_bounds (query : string) :
  let topics := _extract_research_topics query in
  List.length topics <= 2
  /\ ((exists e, In e topic_keywords /\ Py.any_in (snd e) (Py.lower query) = true) ->
      topics <> []
      /\ Forall (fun t => exists kws,
                   In (t, kws) topic_keywords /\ Py.any_in kws (Py.lower query) = true)
                topics)
  /\ ((forall e, In e topic_keywords -> Py.any_in (snd e) (Py.lower query) = false) ->
      topics = []
      \/ exists words,
           topics = [Py.join " " words]
           /\ 1 <= List.length words <= 3
           /\ Forall (fun w => In w (Py.split (Py.lower query))
                               /\ 3 < String.length w
                               /\ Py.mem w stop_words = false)
                     words).
Proof.
  intros topics. subst topics. unfold _extract_research_topics.
  set (hits := filter (fun e => Py.any_in (snd e) (Py.lower query)) topic_keywords).
  split; [apply firstn_le_length|]. split.
  - intros [e [He Hany]].
    assert (Hin : In e hits) by (apply filter_In; auto).
    destruct hits as [|h hits'] eqn:E; [destruct Hin|].
    cbn [map]. split; [simpl; discriminate|].
    apply Forall_forall. intros t Ht. apply ListFacts.firstn_In in Ht.
    change (fst h :: map fst hits') with (map fst (h :: hits')) in Ht.
    rewrite <- E in Ht. apply in_map_iff in Ht as [[t' kws] [<- Ht]].
    apply filter_In in Ht as [Ht Hk]. exists kws. auto.
  - intros Hnone.
    assert (E : hits = []) by (apply filter_nil_iff; exact Hnone).
    rewrite E. cbn [map].
    set (meaningful := filter _ (Py.split (Py.lower query))).
    destruct meaningful as [|w ws] eqn:Em; [now left|].
    right. exists (firstn 3 (w :: ws)). split; [reflexivity|]. split.
    + split; [simpl; lia | apply firstn_le_length].
    + apply Forall_forall. intros x Hx. apply ListFacts.firstn_In in Hx.
      rewrite <- Em in Hx. apply filter_In in Hx as [Hx Hp].
      apply andb_prop in Hp as [Hs Hl]. apply negb_true_iff in Hs.
      apply Nat.ltb_lt in Hl. auto.
Qed.

(** X15. For a query without a planner memory keyword the plan is at most two
    research steps followed, exactly when the complexity is medium or complex,
    by one analysis step whose type is the one determined from the query and
    which depends on all the research steps. *)
Theorem plan_shape {fl : Float.Rounding} (query complexity : string)
  (memory_results : MemoryAgent.SearchResult) :
  Py.any_in plan_memory_keywords (Py.lower query) = false ->
  let plan := _create_execution_plan query complexity memory_results in
  let research := research_steps_of plan in
  List.length research <= 2
  /\ Forall (fun s => agent s = "ResearchAgent" /\ action s = "research") research
  /\ (complexity = COMPLEXITY_MEDIUM \/ complexity = COMPLEXITY_COMPLEX ->
      exists a,
        plan = research ++ [a]
        /\ agent a = "AnalysisAgent"
        /\ analysis_type a = Some (_determine_analysis_type query)
        /\ depends_on a = Some (map step research))
  /\ (complexity <> COMPLEXITY_MEDIUM -> complexity <> COMPLEXITY_COMPLEX ->
      plan = research).
Proof.
  intros Hq plan research. subst research plan.
  rewrite (plan_research_steps query complexity memory_results Hq).
  unfold _create_execution_plan. rewrite Hq.
  set (topics := _extract_research_topics query).
  assert (Htopics : List.length topics <= 2) by apply firstn_le_length.
  set (R := if needs_research complexity memory_results
            then research_steps 1 topics else []).
  assert (HR : (if needs_research complexity memory_results
                   && negb (List.length topics =? 0)
                then research_steps 1 topics else []) = R).
  { subst R. destruct (needs_research complexity memory_results); [|reflexivity].
    destruct topics; reflexivity. }
  rewrite HR.
  assert (Hnum : map step R = seq 1 (List.length R)
                 /\ List.length R <= 2
                 /\ Forall (fun s => agent s = "ResearchAgent" /\ action s = "research") R).
  { subst R. destruct (needs_research complexity memory_results).
    - destruct (research_steps_numbers 1 topics) as [H1 [H2 _]].
      rewrite H2. repeat split; auto.
      clear. generalize 1. induction topics as [|t ts IH]; intros n; simpl;
        constructor; auto.
    - repeat split; simpl; auto. }
  destruct Hnum as [Hnum [Hlen Hagents]].
  split; [exact Hlen|]. split; [exact Hagents|]. split.
  - intros Hc.
    replace (Py.mem complexity [COMPLEXITY_MEDIUM; COMPLEXITY_COMPLEX]) with true
      by (symmetry; apply mem_iff; simpl; destruct Hc; auto).
    eexists. split; [reflexivity|]. simpl. repeat split.
    now rewrite Hnum, Nat.sub_0_r.
  - intros H1 H2.
    replace (Py.mem complexity [COMPLEXITY_MEDIUM; COMPLEXITY_COMPLEX]) with false.
    + apply app_nil_r.
    + symmetry. apply not_true_iff_false. intros H. apply mem_iff in H.
      destruct H as [H | [H | []]]; congruence.
Qed.

Section Examples.

#[local] Existing Instance Fixture.exact.

Lemma plan_shape_witness :
  let plan := _create_execution_plan "Compare cnn and rnn" "complex"
                (MemoryAgent.mk_searched "" [] 0) in
  let research := research_steps_of plan in
  List.length research <= 2
  /\ Forall (fun s => agent s = "ResearchAgent" /\ action s = "research") research
  /\ ("complex" = COMPLEXITY_MEDIUM \/ "complex" = COMPLEXITY_COMPLEX ->
      exists a,
        plan = research ++ [a]
        /\ agent a = "AnalysisAgent"
        /\ analysis_type a = Some (_determine_analysis_type "Compare cnn and rnn")
        /\ depends_on a = Some (map step research))
  /\ ("complex" <> COMPLEXITY_MEDIUM -> "complex" <> COMPLEXITY_COMPLEX ->
      plan = research).
Proof.
  apply (plan_shape "Compare cnn and rnn" "complex" (MemoryAgent.mk_searched "" [] 0)).
  reflexivity.
Defined.

End Examples.

End PlanFacts.

(** ** The pipeline from plan to stored interaction *)

Module PipelineFacts.

Import Coordinator PyFacts CoordinatorFacts.

(** The agents [_execute_plan] knows. *)
Definition known_agent (s : Step) : bool :=
  Py.mem (agent s) ["ResearchAgent"; "AnalysisAgent"; "MemoryAgent"].

(** The first part of a response is not empty. *)
Definition starts_with_text (parts : list string) : Prop :=
  match parts with
  | [] => True
  | part :: _ => 0 < String.length part
  end.

Lemma join_length sep parts :
  parts <> [] -> starts_with_text parts -> 0 < String.length (Py.join sep parts).
Proof.
  destruct parts as [|x [|y rest]]; simpl; [congruence | auto |].
  intros _ H. destruct x; simpl in *; lia.
Qed.

Lemma join_prefix sep part parts :
  prefix part (Py.join sep (part :: parts)) = true.
Proof.
  apply prefix_iff. destruct parts; simpl.
  - exists "". clear. induction part; simpl; congruence.
  - eexists. reflexivity.
Qed.

Lemma starts_with_text_app l1 l2 :
  starts_with_text l1 -> starts_with_text l2 -> starts_with_text (l1 ++ l2).
Proof. destruct l1; simpl; auto. Qed.

Lemma analysis_lines_start analysis : starts_with_text (analysis_lines analysis).
Proof. unfold analysis_lines. simpl. lia. Qed.

Lemma research_lines_start memory_results research_results :
  starts_with_text (research_lines memory_results research_results).
Proof.
  unfold research_lines. destruct research_results as [|r rs]; simpl; [exact I|].
  destruct (0 <? MemoryAgent.count memory_results); simpl; lia.
Qed.

Lemma memory_lines_start memories :
  memory_lines memories <> [] /\ starts_with_text (memory_lines memories).
Proof.
  unfold memory_lines. destruct memories; simpl; split; try discriminate; lia.
Qed.

(** X16. The response is never the empty text, whatever was executed. *)
Theorem response_never_empty (execution_results : list ExecResult)
  (memory_results : MemoryAgent.SearchResult) :
  0 < String.length (_synthesize_response execution_results memory_results).
Proof.
  unfold _synthesize_response. destruct (memory_only execution_results).
  - apply join_length; apply memory_lines_start.
  - set (parts := research_lines _ _ ++ flat_map analysis_lines _).
    assert (Hstart : starts_with_text parts).
    { subst parts. apply starts_with_text_app; [apply research_lines_start|].
      destruct (flat_map _ execution_results) as [|a rest]; [exact I|].
      cbn [flat_map]. pose proof (analysis_lines_start a) as Ha.
      unfold analysis_lines in *. exact Ha. }
    destruct parts; [simpl; lia|].
    apply join_length; [discriminate | exact Hstart].
Qed.

Section Pipeline.

Variable hash : string -> Z.
Variable norm : VectorStore.vector -> Q.
Variable _research : string -> list AnalysisAgent.ResearchRecord.
Variables _synthesize_data _analyze_tradeoffs _analyze_methodology _identify_challenges :
  list AnalysisAgent.ResearchRecord -> string -> AnalysisAgent.Analysis.
Context {fl : Float.Rounding}.

Local Abbreviation execute_from :=
  (execute_from hash norm _research _synthesize_data _analyze_tradeoffs
     _analyze_methodology _identify_challenges).
Local Abbreviation _execute_plan :=
  (_execute_plan hash norm _research _synthesize_data _analyze_tradeoffs
     _analyze_methodology _identify_challenges).
Local Abbreviation process_query :=
  (process_query hash norm _research _synthesize_data _analyze_tradeoffs
     _analyze_methodology _identify_challenges).

Lemma execute_from_steps st now research_data plan :
  map (fun r => (exec_agent r, exec_action r)) (execute_from st now research_data plan)
  = map (fun s => (agent s, action s)) (filter known_agent plan).
Proof.
  revert research_data. induction plan as [|s plan IH]; intros research_data;
    [reflexivity|].
  cbn [Coordinator.execute_from filter]. unfold known_agent at 1, Py.mem. cbn [existsb].
  destruct (String.eqb (agent s) "ResearchAgent"); cbn [orb map]; [now rewrite IH|].
  destruct (String.eqb (agent s) "AnalysisAgent"); cbn [orb map]; [now rewrite IH|].
  destruct (String.eqb (agent s) "MemoryAgent"); cbn [orb map]; [now rewrite IH|].
  apply IH.
Qed.

Lemma planned_agents_known query complexity memory_results :
  filter known_agent (_create_execution_plan query complexity memory_results)
  = _create_execution_plan query complexity memory_results.
Proof.
  apply forallb_filter_id. unfold _create_execution_plan.
  destruct (Py.any_in plan_memory_keywords _); [reflexivity|].
  rewrite forallb_app. apply andb_true_intro. split.
  - destruct (_ && _); [|reflexivity].
    generalize 1. induction (_extract_research_topics query) as [|t ts IH]; intros n;
      [reflexivity | simpl; apply IH].
  - destruct (Py.mem complexity _); reflexivity.
Qed.

(** X17. Execution yields one result per step that names a known agent, in plan
    order and under the step's agent and action; a step naming any other agent
    is skipped without a result. Every plan the planner builds is executed step
    for step. *)
Theorem execute_one_result_per_step (st : MemoryAgent.t) (now : string) (plan : list Step) :
  map (fun r => (exec_agent r, exec_action r)) (_execute_plan st now plan)
  = map (fun s => (agent s, action s)) (filter known_agent plan)
  /\ forall query complexity memory_results,
       map (fun r => (exec_agent r, exec_action r))
           (_execute_plan st now (_create_execution_plan query complexity memory_results))
       = map (fun s => (agent s, action s))
             (_create_execution_plan query complexity memory_results).
Proof.
  split; [apply execute_from_steps|].
  intros query complexity memory_results.
  unfold Coordinator._execute_plan. now rewrite execute_from_steps, planned_agents_known.
Qed.

(** The payload of the retrieval a memory step issues. *)
Definition conversation_request : MemoryAgent.Payload :=
  MemoryAgent.mk_payload (Some "retrieve") (Some "conversation") None None (Some 10)
    None None.

Lemma retrieve_nonempty st :
  MemoryAgent.conversation_memory st <> [] ->
  MemoryAgent.memories (MemoryAgent._retrieve_memory st conversation_request) <> [].
Proof.
  intros H Hnil. apply (f_equal (@List.length _)) in Hnil.
  unfold MemoryAgent._retrieve_memory in Hnil. cbn [MemoryAgent.memories] in Hnil.
  rewrite length_firstn, SortingFacts.sort_length in Hnil.
  unfold MemoryAgent._retrieve_collect, conversation_request in Hnil.
  cbn [MemoryAgent.get MemoryAgent.p_memory_type MemoryAgent.p_limit] in Hnil.
  change (String.eqb "conversation" "conversation") with true in Hnil.
  change (String.eqb "conversation" "knowledge") with false in Hnil.
  change (String.eqb "conversation" "agent_state") with false in Hnil.
  change (String.eqb "conversation" "all") with false in Hnil.
  cbn [orb app] in Hnil. rewrite app_nil_r in Hnil.
  unfold Py.last_n in Hnil. rewrite length_skipn in Hnil.
  destruct (MemoryAgent.conversation_memory st); [congruence|].
  cbn [List.length] in Hnil. lia.
Qed.

(** X18. A query with one of the planner's memory keywords is answered from the
    conversation log alone: the response is the memory answer built from the
    retrieval of up to ten conversation records. With an empty log it is the
    fixed no-information sentence; otherwise it opens with the heading of a
    memory answer. *)
Theorem memory_query_answer (st : MemoryAgent.t) (query now : string) :
  Py.any_in plan_memory_keywords (Py.lower query) = true ->
  exists response st',
    process_query st query now = Some (response, st')
    /\ response
       = Py.join nl
           (memory_lines
              (MemoryAgent.memories (MemoryAgent._retrieve_memory st conversation_request)))
    /\ (MemoryAgent.conversation_memory st = [] -> response = no_memory_sentence)
    /\ (MemoryAgent.conversation_memory st <> [] ->
        prefix "Based on our previous conversation:" response = true).
Proof.
  intros Hq.
  pose proof (CoordinatorFacts.process_query_returns hash norm _research _synthesize_data
                _analyze_tradeoffs _analyze_methodology _identify_challenges st query now)
    as Hret.
  cbv zeta in Hret. unfold _create_execution_plan in Hret. rewrite Hq in Hret.
  eexists. eexists. split; [exact Hret|].
  assert (Hanswer :
    _synthesize_response
      (_execute_plan st now
         [mk_step 1 "MemoryAgent" "retrieve_conversation" None None
            "Query asks about previous conversation" None])
      (CoordinatorFacts.memory_found hash norm st query)
    = Py.join nl
        (memory_lines
           (MemoryAgent.memories (MemoryAgent._retrieve_memory st conversation_request))))
    by reflexivity.
  split; [exact Hanswer|]. split.
  - intros Hempty. rewrite Hanswer.
    unfold MemoryAgent._retrieve_memory, MemoryAgent._retrieve_collect, conversation_request.
    cbn [MemoryAgent.get MemoryAgent.p_memory_type MemoryAgent.p_limit].
    rewrite Hempty. reflexivity.
  - intros Hlog. rewrite Hanswer.
    pose proof (retrieve_nonempty st Hlog) as Hfound.
    destruct (MemoryAgent.memories _) as [|m ms]; [congruence|].
    unfold memory_lines.
    set (rest := flat_map _ _).
    apply prefix_iff.
    destruct (prefix_iff ("Based on our previous conversation:" ++ nl)
                (Py.join nl (("Based on our previous conversation:" ++ nl)%string :: rest)))
      as [Hp _].
    destruct (Hp (join_prefix _ _ _)) as [post Hpost].
    rewrite Hpost. exists (nl ++ post)%string.
    clear. simpl. reflexivity.
Qed.

End Pipeline.

Section Examples.

#[local] Existing Instance Fixture.exact.

Lemma memory_query_answer_witness :
  exists response st',
    Coordinator.process_query Fixture.hash Fixture.norm Fixture._research
      Fixture.no_extraction Fixture.no_extraction Fixture.no_extraction
      Fixture.no_extraction Fixture.three_stores "What did we discuss earlier?"
      Fixture.noon
    = Some (response, st')
    /\ response
       = Py.join nl
           (memory_lines
              (MemoryAgent.memories
                 (MemoryAgent._retrieve_memory Fixture.three_stores conversation_request)))
    /\ (MemoryAgent.conversation_memory Fixture.three_stores = [] ->
        response = no_memory_sentence)
    /\ (MemoryAgent.conversation_memory Fixture.three_stores <> [] ->
        prefix "Based on our previous conversation:" response = true).
Proof.
  apply (memory_query_answer Fixture.hash Fixture.norm Fixture._research
           Fixture.no_extraction Fixture.no_extraction Fixture.no_extraction
           Fixture.no_extraction Fixture.three_stores "What did we discuss earlier?"
           Fixture.noon).
  reflexivity.
Defined.

End Examples.

End PipelineFacts.

(** ** What a query leaves in memory *)

Module InteractionFacts.

Import Coordinator MemoryAgentFacts.

(** The research records among the results of an execution. *)
Definition research_found (execution_results : list ExecResult)
  : list AnalysisAgent.ResearchRecord :=
  flat_map (fun r => if String.eqb (exec_agent r) "ResearchAgent"
                     then payload_results (exec_result r) else [])
           execution_results.

Section Pipeline.

Variable hash : string -> Z.
Variable norm : VectorStore.vector -> Q.
Variable _research : string -> list AnalysisAgent.ResearchRecord.
Variables _synthesize_data _analyze_tradeoffs _analyze_methodology _identify_challenges :
  list AnalysisAgent.ResearchRecord -> string -> AnalysisAgent.Analysis.
Context {fl : Float.Rounding}.

Local Abbreviation process_query :=
  (process_query hash norm _research _synthesize_data _analyze_tradeoffs
     _analyze_methodology _identify_challenges).

(** The results of executing the plan made for a query, with what
    [_check_memory] finds for it. *)
Definition executed (st : MemoryAgent.t) (query now : string) : list ExecResult :=
  _execute_plan hash norm _research _synthesize_data _analyze_tradeoffs
    _analyze_methodology _identify_challenges st now
    (_create_execution_plan query (_analyze_complexity query)
       (CoordinatorFacts.memory_found hash norm st query)).

Lemma store_knowledge_effect st topic content source confidence agent_name now :
  let st' := snd (MemoryAgent.store_knowledge hash norm st topic content source
                    confidence agent_name now) in
  MemoryAgent.conversation_memory st' = MemoryAgent.conversation_memory st
  /\ MemoryAgent.agent_state_memory st' = MemoryAgent.agent_state_memory st
  /\ MemoryAgent.memory_id_counter st' = S (MemoryAgent.memory_id_counter st)
  /\ List.length (Dict.flatten (MemoryAgent.knowledge_base st'))
     = S (List.length (Dict.flatten (MemoryAgent.knowledge_base st)))
  /\ (MemoryAgent.reachable hash norm st -> MemoryAgent.reachable hash norm st').
Proof.
  intros st'. subst st'. unfold MemoryAgent.store_knowledge.
  split; [reflexivity|]. split; [reflexivity|]. split; [apply store_counter|]. split.
  - unfold MemoryAgent._store_memory.
    cbn [snd MemoryAgent.knowledge_base MemoryAgent.get MemoryAgent.p_memory_type].
    change (String.eqb "knowledge" "conversation") with false.
    change (String.eqb "knowledge" "knowledge") with true. cbn iota.
    match goal with
    | |- context [Dict.append_to ?k ?r ?d] =>
        destruct (flatten_append_to k r d) as [l1 [l2 [H1 H2]]]
    end.
    rewrite H1, H2, !length_app. simpl. lia.
  - intros H. now apply MemoryAgent.reachable_store.
Qed.

Lemma store_research_effect found now st :
  let st' := store_research hash norm st found now in
  MemoryAgent.conversation_memory st' = MemoryAgent.conversation_memory st
  /\ MemoryAgent.agent_state_memory st' = MemoryAgent.agent_state_memory st
  /\ MemoryAgent.memory_id_counter st'
     = MemoryAgent.memory_id_counter st + List.length found
  /\ List.length (Dict.flatten (MemoryAgent.knowledge_base st'))
     = List.length (Dict.flatten (MemoryAgent.knowledge_base st)) + List.length found
  /\ (MemoryAgent.reachable hash norm st -> MemoryAgent.reachable hash norm st').
Proof.
  revert st. induction found as [|r found IH]; intros st.
  - simpl. repeat split; auto.
  - cbn [store_research List.length].
    match goal with
    | |- context [MemoryAgent.store_knowledge hash norm st ?a ?b ?c ?d ?e now] =>
        destruct (store_knowledge_effect st a b c d e now) as [H1 [H2 [H3 [H4 H5]]]];
        destruct (IH (snd (MemoryAgent.store_knowledge hash norm st a b c d e now)))
          as [I1 [I2 [I3 [I4 I5]]]]
    end.
    cbv zeta in *. rewrite I1, I2, I3, I4, H1, H2, H3, H4.
    repeat split; auto; lia.
Qed.

(** X19. What a query leaves behind: exactly one new conversation record, the
    last of the log, holding the response as content and the query, the
    coordinator's name and the complexity as metadata; one new knowledge record
    per research result the execution returned; no agent-state record; and a
    state that is reachable when the one before was. *)
Theorem process_query_records (st : MemoryAgent.t) (query now : string) :
  exists response st',
    process_query st query now = Some (response, st')
    /\ let found := research_found (executed st query now) in
       MemoryAgent.conversation_memory st'
       = MemoryAgent.conversation_memory st
         ++ [MemoryAgent.mk_record (mem_id (MemoryAgent.memory_id_counter st))
               "conversation" response
               (MemoryAgent.mk_metadata None None None (Some "Coordinator") (Some query)
                  (Some (_analyze_complexity query)))
               now]
       /\ List.length (Dict.flatten (MemoryAgent.knowledge_base st'))
          = List.length (Dict.flatten (MemoryAgent.knowledge_base st)) + List.length found
       /\ MemoryAgent.agent_state_memory st' = MemoryAgent.agent_state_memory st
       /\ MemoryAgent.memory_id_counter st'
          = S (MemoryAgent.memory_id_counter st) + List.length found
       /\ (MemoryAgent.reachable hash norm st -> MemoryAgent.reachable hash norm st').
Proof.
  eexists. eexists. split.
  { rewrite CoordinatorFacts.process_query_returns. cbv zeta. reflexivity. }
  intros found. subst found.
  unfold _store_interaction, executed, research_found.
  match goal with
  | |- context [store_research hash norm ?s ?f now] =>
      destruct (store_research_effect f now s) as [H1 [H2 [H3 [H4 H5]]]]
  end.
  cbv zeta in *. rewrite H1, H2, H3, H4.
  split; [reflexivity|]. split; [reflexivity|]. split; [reflexivity|].
  split; [unfold MemoryAgent.store_conversation; now rewrite store_counter|].
  intros Hreach. apply H5. unfold MemoryAgent.store_conversation.
  now apply MemoryAgent.reachable_store.
Qed.

End Pipeline.

End InteractionFacts.

(** ** The research agent and its knowledge table *)

Module ResearchAgentFacts.

Import PyFacts ResearchAgent.

Lemma string_app_assoc (a b c : string) : ((a ++ b) ++ c = a ++ b ++ c)%string.
Proof. induction a as [|x a IH]; simpl; [reflexivity | now rewrite IH]. Qed.

Lemma string_app_nil (a : string) : (a ++ "" = a)%string.
Proof. induction a as [|x a IH]; simpl; [reflexivity | now rewrite IH]. Qed.

(** Every word [split] yields stands in the text. *)
Lemma split_from_occurs (cur s w : string) :
  In w (Py.split_from cur s) -> occurs w (cur ++ s).
Proof.
  revert cur. induction s as [|c s IH]; intros cur; cbn [Py.split_from].
  - destruct (String.eqb cur ""); simpl; [tauto|].
    intros [<- | []]. exists "", "". simpl. now rewrite string_app_nil.
  - destruct (Py.isspace c).
    + assert (Hrest : In w (Py.split_from "" s) -> occurs w (cur ++ String c s)).
      { intros H. destruct (IH "" H) as [pre [post Hs]]. simpl in Hs.
        exists (cur ++ String c pre)%string, post.
        rewrite string_app_assoc. simpl. now rewrite Hs. }
      destruct (String.eqb cur ""); [exact Hrest|].
      intros [<- | H]; [|now apply Hrest].
      exists "", (String c s). reflexivity.
    + intros H. apply IH in H. now rewrite string_app_assoc in H.
Qed.

Lemma split_occurs (s w : string) : In w (Py.split s) -> occurs w s.
Proof. apply (split_from_occurs "" s w). Qed.

Lemma filter_implied {A : Type} (p1 p2 : A -> bool) (l : list A) :
  (forall x, p2 x = true -> p1 x = true) -> filter p2 (filter p1 l) = filter p2 l.
Proof.
  intros H. induction l as [|x l IH]; simpl; [reflexivity|].
  destruct (p1 x) eqn:E1; simpl; rewrite IH; [reflexivity|].
  destruct (p2 x) eqn:E2; [|reflexivity]. apply H in E2. congruence.
Qed.

Section Table.

Variable KNOWLEDGE_DB : KnowledgeBase.table.

Lemma second_pass_within_first (query_lower : string) :
  second_pass KNOWLEDGE_DB query_lower
  = filter (fun kv => existsb (fun word => Py.mem word (Py.split (fst kv)))
                              (Py.split query_lower))
           (first_pass KNOWLEDGE_DB query_lower).
Proof.
  unfold second_pass, first_pass. symmetry. apply filter_implied.
  intros [k e] Hk. simpl in *. apply orb_true_iff. right.
  apply existsb_exists in Hk as [word [Hw Hmem]].
  apply existsb_exists. exists word. split; [exact Hw|].
  apply contains_iff, split_occurs. now apply mem_iff.
Qed.

Lemma matched_topics_first_pass (query_lower : string) :
  matched_topics KNOWLEDGE_DB query_lower = first_pass KNOWLEDGE_DB query_lower.
Proof.
  unfold matched_topics. destruct (first_pass KNOWLEDGE_DB query_lower) eqn:E;
    [|reflexivity].
  now rewrite second_pass_within_first, E.
Qed.

(** X20. The second, broader loop of [_research] never finds a topic the first
    loop missed: a topic sharing a whole word with the query holds that word,
    which the first loop already tests. So the matched topics are always those
    of the first loop. *)
Theorem second_pass_adds_nothing (query_lower : string) :
  second_pass KNOWLEDGE_DB query_lower
  = filter (fun kv => existsb (fun word => Py.mem word (Py.split (fst kv)))
                              (Py.split query_lower))
           (first_pass KNOWLEDGE_DB query_lower)
  /\ matched_topics KNOWLEDGE_DB query_lower = first_pass KNOWLEDGE_DB query_lower.
Proof.
  split; [apply second_pass_within_first | apply matched_topics_first_pass].
Qed.

(** X21. Every research result is built from an entry of the table whose topic
    occurs in the query or holds a word of it, or else is the general result
    built from the entry for machine learning; and every topic of the table that
    occurs in the query is among the results. *)
Theorem research_results_from_table (query : string) :
  Forall (fun r =>
            (exists kv,
               In kv KNOWLEDGE_DB /\ r = result_of kv
               /\ (occurs (fst kv) (Py.lower query)
                   \/ exists word, In word (Py.split (Py.lower query))
                                   /\ occurs word (fst kv)))
            \/ (exists knowledge,
                  KnowledgeBase.lookup KNOWLEDGE_DB "machine learning" = Some knowledge
                  /\ r = fallback_of knowledge))
         (_research KNOWLEDGE_DB query)
  /\ (forall kv, In kv KNOWLEDGE_DB -> Py.contains (fst kv) (Py.lower query) = true ->
                 In (result_of kv) (_research KNOWLEDGE_DB query)).
Proof.
  unfold _research.
  rewrite matched_topics_first_pass.
  split.
  - apply Forall_forall. intros r Hr.
    destruct (map result_of (first_pass KNOWLEDGE_DB (Py.lower query))) as [|r0 rs] eqn:E.
    + right. destruct (KnowledgeBase.lookup KNOWLEDGE_DB "machine learning") as [k|];
        [|destruct Hr]. destruct Hr as [<- | []]. exists k. auto.
    + left. rewrite <- E in Hr. apply in_map_iff in Hr as [kv [<- Hkv]].
      apply filter_In in Hkv as [Hin Hp]. exists kv. split; [exact Hin|].
      split; [reflexivity|]. apply orb_true_iff in Hp as [Hp | Hp].
      * left. now apply contains_iff.
      * right. apply existsb_exists in Hp as [word [Hw Hc]]. exists word.
        split; [exact Hw | now apply contains_iff].
  - intros kv Hin Hc.
    assert (Hfirst : In kv (first_pass KNOWLEDGE_DB (Py.lower query))).
    { apply filter_In. split; [exact Hin|]. now rewrite Hc. }
    apply (in_map result_of) in Hfirst.
    destruct (map result_of (first_pass KNOWLEDGE_DB (Py.lower query)));
      [destruct Hfirst | exact Hfirst].
Qed.

(** X22. With an entry for machine learning in the table, as in the table
    shipped, the research agent never comes back empty-handed: every request
    gets at least one result, and the status "no_results" is never given. *)
Theorem research_never_empty (payload : Payload) (knowledge : KnowledgeBase.Entry) :
  KnowledgeBase.lookup KNOWLEDGE_DB "machine learning" = Some knowledge ->
  0 < List.length (Coordinator.research_results (process_message KNOWLEDGE_DB payload))
  /\ Coordinator.research_status (process_message KNOWLEDGE_DB payload) = "completed".
Proof.
  intros Hml. unfold process_message. cbn [Coordinator.research_results Coordinator.research_status].
  assert (H : 0 < List.length (_research KNOWLEDGE_DB (MemoryAgent.get (p_query payload) ""))).
  { unfold _research. destruct (map result_of _); [rewrite Hml|]; simpl; lia. }
  destruct (_research KNOWLEDGE_DB _); [simpl in H; lia|]. split; [exact H | reflexivity].
Qed.

(** What the coordinator takes for the research agent's answer to a step is
    the agent's response to the message it sends. *)
Lemma coordinator_calls_research_agent (s : Coordinator.Step) :
  Coordinator._call_research_agent (_research KNOWLEDGE_DB) s
  = Coordinator.FromResearch
      (process_message KNOWLEDGE_DB
         (mk_payload (Some (MemoryAgent.get (Coordinator.topic s) ""))
            (Some (Coordinator.reason s)))).
Proof. reflexivity. Qed.

(** X23. [search_knowledge] answers with an entry of the table whose topic is
    the lower-cased query, holds it or is held by it, the exact topic first; it
    answers nothing exactly when no topic is so related. In particular the empty
    query, which every topic holds, gets the first entry of a table that has no
    empty topic. *)
Theorem search_knowledge_sound (query : string) :
  (forall value, KnowledgeBase.search_knowledge KNOWLEDGE_DB query = Some value ->
     exists key,
       In (key, value) KNOWLEDGE_DB
       /\ (key = Py.lower query \/ occurs (Py.lower query) key
           \/ occurs key (Py.lower query)))
  /\ (KnowledgeBase.search_knowledge KNOWLEDGE_DB query = None <->
      forall kv, In kv KNOWLEDGE_DB ->
        ~ occurs (Py.lower query) (fst kv) /\ ~ occurs (fst kv) (Py.lower query))
  /\ (forall value, KnowledgeBase.lookup KNOWLEDGE_DB (Py.lower query) = Some value ->
        KnowledgeBase.search_knowledge KNOWLEDGE_DB query = Some value)
  /\ (forall kv rest, KNOWLEDGE_DB = kv :: rest ->
        KnowledgeBase.lookup KNOWLEDGE_DB "" = None ->
        KnowledgeBase.search_knowledge KNOWLEDGE_DB "" = Some (snd kv)).
Proof.
  unfold KnowledgeBase.search_knowledge, KnowledgeBase.lookup.
  set (ql := Py.lower query).
  set (related := fun kv : string * KnowledgeBase.Entry =>
                    Py.contains ql (fst kv) || Py.contains (fst kv) ql).
  assert (Hexact : forall kv, String.eqb (fst kv) ql = true -> related kv = true).
  { intros kv H. apply String.eqb_eq in H. unfold related. rewrite H.
    apply orb_true_iff. left. apply contains_iff. exists "", "". simpl.
    now rewrite string_app_nil. }
  split; [|split; [|split]].
  - intros value. destruct (find (fun kv => String.eqb (fst kv) ql) KNOWLEDGE_DB)
      as [[k e]|] eqn:E1; simpl.
    + intros H. inversion H; subst. apply find_some in E1 as [Hin Hk].
      apply String.eqb_eq in Hk. exists k. auto.
    + destruct (find related KNOWLEDGE_DB) as [[k e]|] eqn:E2; simpl; [|discriminate].
      intros H. inversion H; subst. apply find_some in E2 as [Hin Hk].
      exists k. split; [exact Hin|]. right. unfold related in Hk. simpl in Hk.
      apply orb_true_iff in Hk as [Hk | Hk]; [left | right]; now apply contains_iff.
  - destruct (find (fun kv => String.eqb (fst kv) ql) KNOWLEDGE_DB) as [[k e]|] eqn:E1;
      simpl.
    + split; [discriminate|]. intros H. exfalso.
      apply find_some in E1 as [Hin Hk]. apply Hexact in Hk.
      destruct (H _ Hin) as [H1 H2]. unfold related in Hk.
      apply orb_true_iff in Hk as [Hk | Hk]; apply contains_iff in Hk; contradiction.
    + destruct (find related KNOWLEDGE_DB) as [[k e]|] eqn:E2; simpl.
      * split; [discriminate|]. intros H. exfalso.
        apply find_some in E2 as [Hin Hk]. destruct (H _ Hin) as [H1 H2].
        unfold related in Hk.
        apply orb_true_iff in Hk as [Hk | Hk]; apply contains_iff in Hk; contradiction.
      * split; [|reflexivity]. intros _ kv Hin.
        pose proof (find_none _ _ E2 kv Hin) as Hk. unfold related in Hk.
        apply orb_false_iff in Hk as [H1 H2].
        split; intros Ho; apply contains_iff in Ho; congruence.
  - intros value H. destruct (find _ KNOWLEDGE_DB) as [[k e]|]; simpl in *;
      [exact H | discriminate].
  - intros kv rest Hdb Hnone. subst ql. change (Py.lower "") with "" in *.
    destruct (find (fun kv0 => String.eqb (fst kv0) "") KNOWLEDGE_DB); [discriminate|].
    rewrite Hdb. cbn [find]. subst related. cbn beta.
    replace (Py.contains "" (fst kv)) with true by (destruct (fst kv); reflexivity).
    reflexivity.
Qed.

End Table.

Lemma research_never_empty_witness :
  0 < List.length
        (Coordinator.research_results
           (process_message Fixture.KNOWLEDGE_DB
              (mk_payload (Some "quantum computing") None)))
  /\ Coordinator.research_status
       (process_message Fixture.KNOWLEDGE_DB (mk_payload (Some "quantum computing") None))
     = "completed".
Proof.
  apply (research_never_empty Fixture.KNOWLEDGE_DB (mk_payload (Some "quantum computing") None)
           (KnowledgeBase.mk_entry "Learning from data." None "ML Textbooks" (93 # 100))).
  reflexivity.
Defined.

End ResearchAgentFacts.

(** ** Comparison and counting in the analysis agent *)

Module AnalysisAgentMoreFacts.

Import AnalysisAgent ListFacts.

Open Scope Q_scope.

(** [max_by] returns an element of greatest key. *)
Lemma max_by_greatest (key : ResearchRecord -> Q) (best : ResearchRecord)
  (rest : list ResearchRecord) :
  In (max_by key best rest) (best :: rest)
  /\ Forall (fun x => key x <= key (max_by key best rest)) (best :: rest).
Proof.
  revert best. induction rest as [|x rest IH]; intros best; cbn [max_by].
  - split; [now left | repeat constructor; apply Qle_refl].
  - set (best' := if Py.gt (key x) (key best) then x else best).
    destruct (IH best') as [Hin Hall].
    inversion Hall as [|? ? Hbest' Hrest]; subst.
    assert (Hx : key x <= key best' /\ key best <= key best').
    { subst best'. destruct (Py.gt (key x) (key best)) eqn:E.
      - apply PyFacts.gt_iff in E. split; [apply Qle_refl | now apply Qlt_le_weak].
      - split; [|apply Qle_refl].
        unfold Py.gt in E. apply negb_false_iff in E. now apply Qle_bool_iff. }
    destruct Hx as [Hx Hb]. split.
    + destruct Hin as [Hin | Hin]; [|right; now right].
      subst best'. destruct (Py.gt (key x) (key best)); rewrite <- Hin; simpl; auto.
    + constructor; [eapply Qle_trans; eauto|].
      constructor; [eapply Qle_trans; eauto | exact Hrest].
Qed.

Lemma enumerate_map {A B : Type} (f : nat * A -> B) (g : A -> B) (l : list A) (start : nat) :
  (forall i x, f (i, x) = g x) -> map f (enumerate l start) = map g l.
Proof.
  intros H. unfold enumerate. revert start.
  induction l as [|x l IH]; intros start; simpl; [reflexivity|]. now rewrite H, IH.
Qed.

Lemma enumerate_Forall2 {A B : Type} (f : nat * A -> B) (R : A -> B -> Prop)
  (l : list A) (start : nat) :
  (forall i x, R x (f (i, x))) -> Forall2 R l (map f (enumerate l start)).
Proof.
  intros H. unfold enumerate. revert start.
  induction l as [|x l IH]; intros start; simpl; constructor; auto.
Qed.

(** The confidence a record is compared by. *)
Definition confidence_of (r : ResearchRecord) : Q := MemoryAgent.get (confidence r) 0.

(** X24. A comparison over two or more records lists every record, in order, as
    an approach with its summary and details (a record without a topic is named
    by its position), counts them, has confidence 0.85, and recommends the topic
    of a record whose confidence no other record exceeds. *)
Theorem comparison_of_records (data : list ResearchRecord) (task : string) :
  (2 <= List.length data)%nat ->
  let result := _compare_data data task in
  type result = Some "comparison"%string
  /\ items_compared result = Some (List.length data)
  /\ analysis_confidence result = Some (85 # 100)
  /\ (exists compared,
        comparisons result = Some compared
        /\ map description compared = map (fun r => MemoryAgent.get (summary r) "") data
        /\ map analysis compared = map (fun r => MemoryAgent.get (details r) "") data
        /\ Forall2 (fun r c => forall t, topic r = Some t -> approach c = t) data compared)
  /\ (exists best,
        In best data
        /\ Forall (fun r => confidence_of r <= confidence_of best) data
        /\ recommendation result
           = Some ("Based on the analysis, " ++ MemoryAgent.get (topic best) ""
                   ++ " appears most suitable due to its strong foundation and proven effectiveness in the domain.")%string).
Proof.
  intros Hlen result. subst result. unfold _compare_data.
  replace (List.length data <? 2)%nat with false by (symmetry; apply Nat.ltb_ge; exact Hlen).
  cbn [type items_compared analysis_confidence comparisons recommendation].
  split; [reflexivity|]. split; [reflexivity|]. split; [reflexivity|]. split.
  - eexists. split; [reflexivity|]. split; [|split].
    + rewrite map_map. now apply enumerate_map.
    + rewrite map_map. now apply enumerate_map.
    + apply enumerate_Forall2. intros i r t Ht. simpl. now rewrite Ht.
  - destruct data as [|first rest]; [simpl in Hlen; lia|].
    unfold _generate_recommendation.
    destruct (max_by_greatest (fun x => MemoryAgent.get (confidence x) 0) first rest)
      as [Hin Hall].
    eexists. split; [exact Hin|]. split; [exact Hall | reflexivity].
Qed.

Lemma comparison_of_records_witness :
  let data :=
    [mk_research (Some "cnn") (Some "Convolutional networks.") (Some "Used for images.")
       (Some "Computer Vision Research") (Some (91 # 100));
     mk_research (Some "rnn") (Some "Recurrent networks.") (Some "Used for sequences.")
       (Some "Sequence Modeling Research") (Some (89 # 100))]%string in
  let result := _compare_data data "Perform comparison analysis on research results" in
  type result = Some "comparison"%string
  /\ items_compared result = Some (List.length data)
  /\ analysis_confidence result = Some (85 # 100)
  /\ (exists compared,
        comparisons result = Some compared
        /\ map description compared = map (fun r => MemoryAgent.get (summary r) "") data
        /\ map analysis compared = map (fun r => MemoryAgent.get (details r) "") data
        /\ Forall2 (fun r c => forall t, topic r = Some t -> approach c = t) data compared)
  /\ (exists best,
        In best data
        /\ Forall (fun r => confidence_of r <= confidence_of best) data
        /\ recommendation result
           = Some ("Based on the analysis, " ++ MemoryAgent.get (topic best) ""
                   ++ " appears most suitable due to its strong foundation and proven effectiveness in the domain.")%string).
Proof.
  intros data. apply (comparison_of_records data). simpl. lia.
Defined.

Close Scope Q_scope.

(** How often a name occurs in a list. *)
Definition occ (x : string) (names : list string) : nat := count_occ string_dec names x.

(** [counts.get(x, 0)] *)
Definition count_of (x : string) (counts : list (string * nat)) : nat :=
  match find (fun kv => String.eqb (fst kv) x) counts with
  | Some kv => snd kv
  | None => 0
  end.

Lemma count_of_count_one x y counts :
  count_of y (count_one x counts)
  = count_of y counts + (if String.eqb x y then 1 else 0).
Proof.
  unfold count_of. induction counts as [|[z n] counts IH]; simpl.
  - destruct (String.eqb x y); reflexivity.
  - destruct (String.eqb_spec z x) as [-> | Hzx]; simpl.
    + destruct (String.eqb x y); simpl; lia.
    + destruct (String.eqb_spec z y) as [-> | Hzy]; simpl; [|exact IH].
      destruct (String.eqb_spec x y); [congruence | lia].
Qed.

Lemma count_one_keys x counts :
  map fst (count_one x counts)
  = if Py.mem x (map fst counts) then map fst counts else map fst counts ++ [x].
Proof.
  induction counts as [|[z n] counts IH]; simpl; [reflexivity|].
  rewrite (String.eqb_sym x z). destruct (String.eqb z x); simpl; [reflexivity|].
  rewrite IH. unfold Py.mem. now destruct (existsb _ _).
Qed.

Lemma count_one_NoDup x counts :
  NoDup (map fst counts) -> NoDup (map fst (count_one x counts)).
Proof.
  intros H. rewrite count_one_keys. destruct (Py.mem x (map fst counts)) eqn:E; [exact H|].
  apply NoDup_app; [exact H | repeat constructor; simpl; tauto |].
  intros a Ha [<- | []]. apply PyFacts.mem_iff in Ha. congruence.
Qed.

Lemma count_one_positive x counts :
  Forall (fun kv => 0 < snd kv) counts -> Forall (fun kv => 0 < snd kv) (count_one x counts).
Proof.
  induction 1 as [|[z n] counts Hz Hrest IH]; simpl; [repeat constructor|].
  destruct (String.eqb z x); constructor; simpl in *; auto; lia.
Qed.

Lemma occ_snoc x y names :
  occ y (names ++ [x]) = occ y names + (if String.eqb x y then 1 else 0).
Proof.
  unfold occ. rewrite count_occ_app. simpl.
  destruct (string_dec x y) as [-> | H].
  - now rewrite String.eqb_refl.
  - apply String.eqb_neq in H. now rewrite H.
Qed.

(** The counting loop yields, for each name that occurs, one entry with the
    number of its occurrences. *)
Lemma count_all_spec names :
  NoDup (map fst (count_all names))
  /\ Forall (fun kv => 0 < snd kv) (count_all names)
  /\ forall y, count_of y (count_all names) = occ y names.
Proof.
  unfold count_all. rewrite <- (rev_involutive names).
  induction (rev names) as [|x l IH]; simpl.
  - repeat split; constructor.
  - rewrite fold_left_app. simpl. destruct IH as [H1 [H2 H3]].
    split; [now apply count_one_NoDup|]. split; [now apply count_one_positive|].
    intros y. now rewrite count_of_count_one, H3, occ_snoc.
Qed.

Lemma In_count_of x n counts :
  NoDup (map fst counts) -> In (x, n) counts -> count_of x counts = n.
Proof.
  unfold count_of. induction counts as [|[z m] counts IH]; simpl; [tauto|].
  intros H. inversion H as [|? ? Hnew Hrest]; subst. intros [E | Hin].
  - inversion E; subst. now rewrite String.eqb_refl.
  - destruct (String.eqb_spec z x) as [-> | _]; [|now apply IH].
    exfalso. apply Hnew. change x with (fst (x, n)). now apply in_map.
Qed.

Lemma count_of_In x counts :
  0 < count_of x counts -> In (x, count_of x counts) counts.
Proof.
  unfold count_of. destruct (find _ counts) as [[z n]|] eqn:E; simpl; [|lia].
  intros _. apply find_some in E as [Hin Hz]. apply String.eqb_eq in Hz.
  simpl in Hz. now subst.
Qed.

Lemma at_most_first (a b : nat) :
  Nat.leb b a = true \/ Nat.leb a b = true.
Proof. destruct (Nat.leb_spec b a); [now left | right; apply Nat.leb_le; lia]. Qed.

(** [common] are the most common of [names]: the default alone when there is
    no name at all; otherwise one to three different names of the list, in
    falling number of occurrences, none of them rarer than a name left out. *)
Definition most_common_of (names : list string) (default : string)
  (common : list string) : Prop :=
  (names = [] -> common = [default])
  /\ (names <> [] ->
      1 <= List.length common <= 3
      /\ NoDup common
      /\ Forall (fun x => In x names) common
      /\ StronglySorted (fun a b => occ b names <= occ a names) common
      /\ forall x y, In x names -> ~ In x common -> In y common ->
                     occ x names <= occ y names).

Lemma most_common_spec (names : list string) (default : string) :
  most_common_of names default (most_common names default).
Proof.
  unfold most_common_of, most_common.
  destruct (count_all_spec names) as [Hkeys [Hpos Hocc]].
  set (counts := count_all names) in *.
  set (by_count := fun a b : nat => Nat.leb b a).
  set (sorted := Sorting.sort snd by_count counts).
  split.
  { intros ->. reflexivity. }
  intros Hnames.
  assert (Hsorted : StronglySorted (fun a b : string * nat => snd b <= snd a) sorted).
  { eapply StronglySorted_impl;
      [|apply (SortingFacts.sort_sorted _ _ snd by_count)].
    - intros a b Hab. now apply Nat.leb_le.
    - intros a b. unfold by_count. apply at_most_first.
    - intros a b c H1 H2. unfold by_count in *. apply Nat.leb_le in H1, H2.
      apply Nat.leb_le. lia. }
  assert (Hentry : forall kv, In kv sorted -> snd kv = occ (fst kv) names /\ In (fst kv) names).
  { intros [x n] Hin. apply SortingFacts.sort_In in Hin. simpl.
    pose proof (In_count_of _ _ _ Hkeys Hin) as Hn. rewrite Hocc in Hn.
    split; [now symmetry|]. rewrite Forall_forall in Hpos. specialize (Hpos _ Hin).
    simpl in Hpos. unfold occ in Hn. apply (count_occ_In string_dec). lia. }
  assert (Hall : forall x, In x names -> In (x, occ x names) sorted).
  { intros x Hx. apply SortingFacts.sort_In. rewrite <- Hocc. apply count_of_In.
    rewrite Hocc. unfold occ. now apply (count_occ_In string_dec). }
  assert (Hne : sorted <> []).
  { destruct names as [|x names']; [congruence|].
    intros E. specialize (Hall x (or_introl eq_refl)). rewrite E in Hall. destruct Hall. }
  replace (match sorted with [] => [default] | _ :: _ => map fst (firstn 3 sorted) end)
    with (map fst (firstn 3 sorted)) by (destruct sorted; [congruence | reflexivity]).
  split; [|split; [|split; [|split]]].
  - rewrite length_map, length_firstn.
    destruct sorted; [congruence | cbn [List.length]; lia].
  - rewrite <- firstn_map. apply firstn_NoDup.
    subst sorted. now apply SortingFacts.sort_NoDup_map.
  - apply Forall_forall. intros x Hx. apply in_map_iff in Hx as [kv [<- Hkv]].
    apply firstn_In in Hkv. now apply Hentry.
  - assert (Hfirst : StronglySorted (fun a b : string * nat => snd b <= snd a)
                       (firstn 3 sorted)) by now apply firstn_StronglySorted.
    assert (Hsub : forall kv, In kv (firstn 3 sorted) -> In kv sorted)
      by (intros kv; apply firstn_In).
    induction Hfirst as [|kv l _ IH Hkv]; simpl; constructor.
    + apply IH. intros kv' Hkv'. apply Hsub. now right.
    + apply Forall_forall. intros y Hy. apply in_map_iff in Hy as [kv' [<- Hkv']].
      rewrite Forall_forall in Hkv. specialize (Hkv _ Hkv').
      destruct (Hentry kv (Hsub _ (or_introl eq_refl))) as [E1 _].
      destruct (Hentry kv' (Hsub _ (or_intror Hkv'))) as [E2 _].
      now rewrite <- E1, <- E2.
  - intros x y Hx Hnot Hy. apply in_map_iff in Hy as [kv [<- Hkv]].
    pose proof (Hall x Hx) as Hxs.
    rewrite <- (firstn_skipn 3 sorted) in Hxs, Hsorted.
    apply in_app_or in Hxs as [Hxs | Hxs].
    + exfalso. apply Hnot. apply in_map_iff. exists (x, occ x names). auto.
    + pose proof (MemoryRetrievalFacts.StronglySorted_split _ _ _ Hsorted _ _ Hkv Hxs)
        as Hle.
      simpl in Hle. destruct (Hentry kv (firstn_In _ _ _ Hkv)) as [E _]. now rewrite <- E.
Qed.

(** X25. The common approaches are the most common of the methods identified
    over all methodologies, and the common challenges the most common of the
    challenges over all areas: at most three, different, the most frequent
    first, with a fixed default when there is none. *)
Theorem find_common_spec (methodologies : list Methodology)
  (all_challenges : list AreaChallenges) :
  most_common_of (flat_map methods_identified methodologies)
    "Various domain-specific methods" (_find_common_approaches methodologies)
  /\ most_common_of (flat_map challenges all_challenges)
       "Implementation and resource considerations"
       (_find_common_challenges all_challenges).
Proof. split; apply most_common_spec. Qed.

End AnalysisAgentMoreFacts.

(** ** The analyses that read the records' prose *)

Module TextAnalysesFacts.

Import MemoryAgent (get).
Import AnalysisAgent TextAnalyses PyFacts.

(** *** [str.split(sep)] and [str.lower] *)

Lemma split_on_from_nonempty sep skip cur s : Py.split_on_from sep skip cur s <> [].
Proof.
  revert skip cur. induction s as [|c s IH]; intros skip cur; cbn [Py.split_on_from];
    [discriminate|].
  destruct skip; [|apply IH].
  destruct (prefix sep (String c s)); [discriminate | apply IH].
Qed.

(** Without an occurrence of the separator there is one piece, the text. *)
Lemma split_on_absent sep cur s :
  Py.contains sep s = false -> Py.split_on_from sep 0 cur s = [(cur ++ s)%string].
Proof.
  revert cur. induction s as [|c s IH]; intros cur H; cbn [Py.contains] in H.
  - simpl. now rewrite ResearchAgentFacts.string_app_nil.
  - apply orb_false_iff in H as [Hp Hc]. cbn [Py.split_on_from]. rewrite Hp.
    rewrite (IH _ Hc), ResearchAgentFacts.string_app_assoc. reflexivity.
Qed.

(** With an occurrence there are at least two pieces. *)
Lemma split_on_present sep cur s :
  sep <> "" -> Py.contains sep s = true ->
  exists first second rest, Py.split_on_from sep 0 cur s = first :: second :: rest.
Proof.
  intros Hsep. revert cur. induction s as [|c s IH]; intros cur H; cbn [Py.contains] in H.
  - rewrite orb_false_r in H. destruct sep; [congruence | discriminate].
  - cbn [Py.split_on_from]. apply orb_true_iff in H.
    destruct (prefix sep (String c s)) eqn:Hp.
    + destruct (Py.split_on_from sep (String.length sep - 1) "" s) as [|x l] eqn:E.
      * now apply split_on_from_nonempty in E.
      * now exists cur, x, l.
    + destruct H as [H | H]; [congruence|]. now apply IH.
Qed.

(** [s[n:]] *)
Fixpoint drop (n : nat) (s : string) : string :=
  match n, s with
  | S k, String _ s' => drop k s'
  | _, _ => s
  end.

Lemma drop_app (a b : string) : drop (String.length a) (a ++ b) = b.
Proof. induction a as [|c a IH]; simpl; [now destruct b | exact IH]. Qed.

(** The pieces, joined by the separator, give the text back. *)
Lemma split_on_from_join sep skip cur s :
  sep <> "" ->
  Py.join sep (Py.split_on_from sep skip cur s) = (cur ++ drop skip s)%string.
Proof.
  intros Hsep. revert skip cur. induction s as [|c s IH]; intros skip cur.
  - destruct skip; simpl; now rewrite ResearchAgentFacts.string_app_nil.
  - destruct skip as [|k]; cbn [Py.split_on_from]; [|now rewrite IH].
    destruct (prefix sep (String c s)) eqn:Hp.
    + unfold Py.join in *. cbn [String.concat].
      destruct (Py.split_on_from sep (String.length sep - 1) "" s) as [|x l] eqn:E;
        [now apply split_on_from_nonempty in E|].
      rewrite <- E, IH. f_equal.
      apply prefix_iff in Hp as [post Hpost].
      destruct sep as [|d sep]; [congruence|].
      cbn [append] in Hpost. injection Hpost as -> ->.
      cbn [String.length append].
      replace (S (String.length sep) - 1) with (String.length sep) by lia.
      now rewrite drop_app.
    + rewrite IH, ResearchAgentFacts.string_app_assoc. reflexivity.
Qed.

Lemma split_on_join sep s : sep <> "" -> Py.join sep (Py.split_on sep s) = s.
Proof. intros Hsep. unfold Py.split_on. now rewrite split_on_from_join. Qed.

Lemma lower_app (a b : string) : Py.lower (a ++ b) = (Py.lower a ++ Py.lower b)%string.
Proof. induction a as [|c a IH]; simpl; [reflexivity | now rewrite IH]. Qed.

Lemma occurs_lower (kw s : string) : occurs kw s -> occurs (Py.lower kw) (Py.lower s).
Proof.
  intros [pre [post ->]]. exists (Py.lower pre), (Py.lower post). now rewrite !lower_app.
Qed.

Lemma occurs_shorter (kw more s : string) : occurs (kw ++ more) s -> occurs kw s.
Proof.
  intros [pre [post ->]]. exists pre, (more ++ post)%string.
  now rewrite ResearchAgentFacts.string_app_assoc.
Qed.

(** *** Loops *)

Lemma for_each_none {A B : Type} (body : A -> option B) (l : list A) :
  for_each body l = None <-> Exists (fun x => body x = None) l.
Proof.
  induction l as [|x l IH]; simpl.
  - split; [discriminate | intros H; inversion H].
  - destruct (body x) as [y|] eqn:E.
    + destruct (for_each body l) as [ys|].
      * split; [discriminate|]. intros H. inversion H as [? ? Hx | ? ? Hl]; subst.
        -- congruence.
        -- apply IH in Hl. discriminate.
      * split; [|reflexivity]. intros _. right. now apply IH.
    + split; [|reflexivity]. intros _. now left.
Qed.

Lemma for_each_some {A B : Type} (body : A -> option B) (l : list A) (ys : list B) :
  for_each body l = Some ys -> Forall2 (fun x y => body x = Some y) l ys.
Proof.
  revert ys. induction l as [|x l IH]; simpl; intros ys H.
  - injection H as <-. constructor.
  - destruct (body x) as [y|] eqn:E; [|discriminate].
    destruct (for_each body l) as [ys'|]; [|discriminate].
    injection H as <-. constructor; [exact E | now apply IH].
Qed.

Lemma or_default_nonempty (l default : list string) :
  default <> [] -> or_default l default <> [].
Proof. destruct l; simpl; [auto | discriminate]. Qed.

(** *** Synthesis *)

(** The source a record is consulted under. *)
Definition source_of (item : ResearchRecord) : string := get (source item) "Unknown".

Lemma consult_all (data : list ResearchRecord) (sources : list string) :
  NoDup sources ->
  let out := fold_left (fun sources item => consult sources (source_of item)) data sources in
  NoDup out /\ forall s, In s out <-> In s sources \/ In s (map source_of data).
Proof.
  revert sources. induction data as [|item data IH]; intros sources Hnd; simpl.
  - split; [exact Hnd|]. intros s. tauto.
  - assert (Hc : NoDup (consult sources (source_of item))
                 /\ forall s, In s (consult sources (source_of item))
                              <-> In s sources \/ source_of item = s).
    { unfold consult. destruct (Py.mem (source_of item) sources) eqn:E.
      - apply mem_iff in E. split; [exact Hnd|]. intros s. split; [tauto|].
        intros [H | <-]; assumption.
      - assert (Hnot : ~ In (source_of item) sources).
        { intros H. apply mem_iff in H. congruence. }
        split.
        + apply NoDup_app; [exact Hnd | repeat constructor; intros [] |].
          intros x Hx [<- | []]. exact (Hnot Hx).
        + intros s. rewrite in_app_iff. simpl. tauto. }
    destruct Hc as [Hnd' Hin]. destruct (IH _ Hnd') as [H1 H2].
    split; [exact H1|]. intros s. rewrite H2, Hin. tauto.
Qed.

(** X26. The synthesis has one key point per record and joins them by blanks;
    the sources consulted are the sources of the records ("Unknown" for a record
    that names none), each listed once, so there are never more sources than
    records. *)
Theorem synthesis_sources (data : list ResearchRecord) (task : string) :
  let r := _synthesize_data data task in
  List.length (key_points r) = List.length data
  /\ synthesis r = Py.join " " (key_points r)
  /\ NoDup (sources_consulted r)
  /\ (forall s, In s (sources_consulted r) <-> exists item, In item data /\ source_of item = s)
  /\ List.length (sources_consulted r) <= List.length data.
Proof.
  intros r. subst r. unfold _synthesize_data.
  cbn [key_points synthesis sources_consulted].
  destruct (consult_all data [] (NoDup_nil _)) as [Hnd Hin]. cbv zeta in Hnd, Hin.
  split; [apply length_map|]. split; [reflexivity|]. split; [exact Hnd|].
  assert (Hiff : forall s,
             In s (fold_left (fun sources item => consult sources (source_of item)) data [])
             <-> exists item, In item data /\ source_of item = s).
  { intros s. rewrite Hin, in_map_iff. split.
    - intros [[] | [item [E H]]]. now exists item.
    - intros [item [H E]]. right. now exists item. }
  split; [exact Hiff|].
  rewrite <- (length_map source_of data). apply NoDup_incl_length; [exact Hnd|].
  intros s Hs. apply Hin in Hs as [[] | Hs]. exact Hs.
Qed.

(** *** Trade-offs *)

(** The clause after "Trade-offs:" holds "but" in some other letter case
    only: the condition under which [pros_cons[1]] is out of range. *)
Definition unsplit_clause (item : ResearchRecord) : Prop :=
  exists before tradeoff_text rest,
    Py.split_on "Trade-offs:" (get (details item) "") = before :: tradeoff_text :: rest
    /\ occurs "but" (Py.lower tradeoff_text)
    /\ ~ occurs "but" tradeoff_text.

Lemma clause_tradeoffs_none (item : ResearchRecord) :
  clause_tradeoffs (get (details item) "") = None <-> unsplit_clause item.
Proof.
  unfold unsplit_clause, clause_tradeoffs. set (d := get (details item) "").
  split.
  - destruct (_ || _); [|discriminate].
    destruct (Py.split_on "Trade-offs:" d) as [|before [|text rest]]; try discriminate.
    destruct (Py.contains "but" (Py.lower text)) eqn:El; [|discriminate].
    destruct (Py.contains "but" text) eqn:Eb.
    + destruct (split_on_present "but" "" text) as [a [b [l E]]];
        [discriminate | exact Eb |].
      unfold Py.split_on. rewrite E. discriminate.
    + intros _. exists before, text, rest. split; [reflexivity|].
      split; [now apply contains_iff|]. intros H. apply contains_iff in H. congruence.
  - intros [before [text [rest [E [Hl Hb]]]]].
    assert (Hocc : Py.contains "Trade-offs:" d = true).
    { destruct (Py.contains "Trade-offs:" d) eqn:Ec; [reflexivity|].
      unfold Py.split_on in E. rewrite (split_on_absent _ _ _ Ec) in E. discriminate. }
    apply contains_iff, occurs_lower in Hocc. change (Py.lower "Trade-offs:") with "trade-offs:" in Hocc.
    assert (Hguard : Py.contains "trade-off" (Py.lower d) = true).
    { apply contains_iff. apply (occurs_shorter "trade-off" "s:"). exact Hocc. }
    rewrite Hguard, E. cbn [orb].
    apply contains_iff in Hl. rewrite Hl.
    assert (Hb' : Py.contains "but" text = false).
    { destruct (Py.contains "but" text) eqn:Eb; [|reflexivity].
      exfalso. apply Hb. now apply contains_iff. }
    unfold Py.split_on. now rewrite (split_on_absent _ _ _ Hb').
Qed.

Lemma tradeoff_of_none (item : ResearchRecord) :
  tradeoff_of item = None <-> unsplit_clause item.
Proof.
  rewrite <- clause_tradeoffs_none. unfold tradeoff_of.
  destruct (clause_tradeoffs (get (details item) "")) as [[a d]|];
    split; congruence.
Qed.

Lemma tradeoff_of_some (item : ResearchRecord) (t : Tradeoff) :
  tradeoff_of item = Some t ->
  tradeoff_approach t = get (topic item) ""
  /\ tradeoff_summary t = get (summary item) ""
  /\ advantages t <> [] /\ disadvantages t <> [].
Proof.
  unfold tradeoff_of. destruct (clause_tradeoffs _) as [[a d]|]; [|discriminate].
  intros H. injection H as <-. cbn [tradeoff_approach tradeoff_summary advantages disadvantages].
  repeat split; apply or_default_nonempty; discriminate.
Qed.

(** X27. The trade-off analysis fails, with the IndexError of [pros_cons[1]],
    exactly when the clause after "Trade-offs:" of some record holds "but" in
    another letter case only: the test for "but" ignores case, the split does
    not. When it returns, it has one trade-off per record, in order, under the
    record's topic and summary, and no trade-off is without an advantage or
    without a disadvantage. *)
Theorem tradeoffs_fail_or_complete (data : list ResearchRecord) (task : string) :
  (_analyze_tradeoffs data task = None <-> Exists unsplit_clause data)
  /\ (forall r, _analyze_tradeoffs data task = Some r ->
        tradeoff_type r = "trade_off_analysis"
        /\ map tradeoff_approach (analysed_tradeoffs r)
           = map (fun item => get (topic item) "") data
        /\ map tradeoff_summary (analysed_tradeoffs r)
           = map (fun item => get (summary item) "") data
        /\ Forall (fun t => advantages t <> [] /\ disadvantages t <> [])
                  (analysed_tradeoffs r)).
Proof.
  unfold _analyze_tradeoffs. split.
  - split.
    + destruct (for_each tradeoff_of data) eqn:E; [discriminate|]. intros _.
      apply for_each_none, Exists_exists in E as [item [Hin Hitem]].
      apply Exists_exists. exists item. split; [exact Hin | now apply tradeoff_of_none].
    + intros H. apply Exists_exists in H as [item [Hin Hitem]].
      apply tradeoff_of_none in Hitem.
      assert (E : for_each tradeoff_of data = None)
        by (apply for_each_none, Exists_exists; eauto).
      now rewrite E.
  - intros r H. destruct (for_each tradeoff_of data) as [ts|] eqn:E; [|discriminate].
    injection H as <-. cbn [tradeoff_type analysed_tradeoffs].
    apply for_each_some in E. split; [reflexivity|].
    induction E as [|item t data ts Ht _ IH]; simpl.
    + repeat split. constructor.
    + destruct (tradeoff_of_some _ _ Ht) as [H1 [H2 [H3 H4]]].
      destruct IH as [I1 [I2 I3]]. rewrite H1, H2, I1, I2.
      repeat split. constructor; auto.
Qed.

(** A record whose clause says "BUT": the analysis of it fails. *)
Example tradeoffs_index_error :
  _analyze_tradeoffs
    [mk_research (Some "z") None (Some "Trade-offs: fast BUT costly") None None] "compare"
  = None.
Proof. reflexivity. Qed.

(** *** Methodology *)

(** The details speak of methods or of algorithms. *)
Definition speaks_of_methods (details : string) : Prop :=
  occurs "methods" (Py.lower details) \/ occurs "algorithms" (Py.lower details).

Lemma methods_of_spec (details method_keyword : string) :
  In method_keyword (methods_of details)
  <-> In method_keyword method_keywords
      /\ occurs (Py.lower method_keyword) (Py.lower details)
      /\ speaks_of_methods details.
Proof.
  unfold methods_of, speaks_of_methods.
  destruct (Py.contains "methods" (Py.lower details)
            || Py.contains "algorithms" (Py.lower details)) eqn:E.
  - rewrite filter_In, contains_iff. apply orb_true_iff in E.
    rewrite !contains_iff in E. tauto.
  - apply orb_false_iff in E as [E1 E2]. split; [intros []|].
    intros [_ [_ [H | H]]]; apply contains_iff in H; congruence.
Qed.

Lemma methodology_of_methods (item : ResearchRecord) :
  methods_identified (methodology_of item) <> []
  /\ (methods_identified (methodology_of item) = ["Domain-specific approaches"]
      \/ methods_identified (methodology_of item) = methods_of (get (details item) "")).
Proof.
  unfold methodology_of. cbn [methods_identified].
  destruct (methods_of (get (details item) "")); simpl.
  - split; [discriminate | now left].
  - split; [discriminate | now right].
Qed.

Lemma flat_map_nonempty {A B : Type} (f : A -> list B) (l : list A) :
  l <> [] -> Forall (fun x => f x <> []) l -> flat_map f l <> [].
Proof.
  destruct l as [|x l]; [congruence|]. intros _ H. inversion H as [|? ? Hx _]; subst.
  simpl. destruct (f x); [congruence | discriminate].
Qed.

(** X28. The methodology analysis has one entry per record, in order. The
    methods of an entry are never none: they are the keywords of the fixed list
    that occur in the record's details, letter case apart, when the details
    speak of methods or algorithms and hold such a keyword, and the single
    default otherwise. The common approaches are the default of an empty
    analysis only when there is no record; otherwise they are up to three
    different names, each a keyword or the entries' default. *)
Theorem methodology_methods (data : list ResearchRecord) (task : string) :
  let r := _analyze_methodology data task in
  Forall2 (fun item m =>
             methodology_topic m = get (topic item) ""
             /\ methodology_description m = get (summary item) ""
             /\ methods_identified m <> []
             /\ (methods_identified m = ["Domain-specific approaches"]
                 \/ forall method_keyword,
                      In method_keyword (methods_identified m)
                      <-> In method_keyword method_keywords
                          /\ occurs (Py.lower method_keyword)
                                    (Py.lower (get (details item) ""))
                          /\ speaks_of_methods (get (details item) "")))
          data (methodologies r)
  /\ (data = [] -> common_approaches r = ["Various domain-specific methods"])
  /\ (data <> [] ->
      1 <= List.length (common_approaches r) <= 3
      /\ NoDup (common_approaches r)
      /\ Forall (fun a => a = "Domain-specific approaches" \/ In a method_keywords)
                (common_approaches r)).
Proof.
  intros r. subst r. unfold _analyze_methodology.
  cbn [methodologies common_approaches]. split; [|split].
  - induction data as [|item data IH]; simpl; constructor; [|exact IH].
    destruct (methodology_of_methods item) as [Hne Hm].
    split; [reflexivity|]. split; [reflexivity|]. split; [exact Hne|].
    destruct Hm as [Hm | Hm]; [now left | right].
    intros k. rewrite Hm. apply methods_of_spec.
  - intros ->. reflexivity.
  - intros Hne. unfold _find_common_approaches.
    destruct (AnalysisAgentMoreFacts.most_common_spec
                (flat_map methods_identified (map methodology_of data))
                "Various domain-specific methods") as [_ H].
    destruct H as [Hlen [Hnd [Hin _]]].
    { apply flat_map_nonempty.
      - destruct data; [congruence | discriminate].
      - apply Forall_forall. intros m Hm. apply in_map_iff in Hm as [item [<- _]].
        apply methodology_of_methods. }
    split; [exact Hlen|]. split; [exact Hnd|].
    apply Forall_forall. intros a Ha. rewrite Forall_forall in Hin.
    apply Hin, in_flat_map in Ha as [m [Hm Ha]].
    apply in_map_iff in Hm as [item [<- _]].
    destruct (methodology_of_methods item) as [_ [E | E]]; rewrite E in Ha.
    + left. destruct Ha as [<- | []]. reflexivity.
    + right. now apply methods_of_spec in Ha.
Qed.

(** *** Challenges *)

Lemma area_of_challenges (item : ResearchRecord) :
  1 <= List.length (challenges (area_of item)) <= 3.
Proof.
  unfold area_of. cbn [challenges].
  destruct (listed_challenges (get (details item) "")) as [|c l] eqn:E.
  - unfold generic_challenges.
    destruct (Py.contains "data" _); destruct (_ || _);
      destruct (Py.contains "complex" _); simpl; lia.
  - rewrite <- E. unfold or_default.
    assert (H : List.length (listed_challenges (get (details item) "")) <= 3).
    { unfold listed_challenges. destruct (Py.contains "challenge" _); [|simpl; lia].
      destruct (Py.split_on "Challenges" _) as [|x [|y l']]; try (simpl; lia).
      destruct (Py.contains "include" _); [|simpl; lia].
      destruct (Py.split_on "include" y) as [|u [|v l'']]; try (simpl; lia).
      rewrite length_map. apply firstn_le_length. }
    rewrite E in *. cbn [List.length] in *. lia.
Qed.

(** X29. The challenge analysis never fails and has one area per record, in
    order, under the record's topic; every area holds between one and three
    challenges. The common challenges are the default of an empty analysis only
    when there is no record; otherwise they are up to three different
    challenges, each one of some area. *)
Theorem challenges_per_area (data : list ResearchRecord) (task : string) :
  let r := _identify_challenges data task in
  exists areas common,
    type r = Some "challenge_identification"
    /\ challenges_by_area r = Some areas
    /\ common_challenges r = Some common
    /\ map area areas = map (fun item => get (topic item) "") data
    /\ Forall (fun a => 1 <= List.length (challenges a) <= 3) areas
    /\ (data = [] -> common = ["Implementation and resource considerations"])
    /\ (data <> [] ->
        1 <= List.length common <= 3
        /\ NoDup common
        /\ Forall (fun c => exists a, In a areas /\ In c (challenges a)) common).
Proof.
  intros r. subst r. unfold _identify_challenges.
  cbn [type challenges_by_area common_challenges].
  exists (map area_of data), (_find_common_challenges (map area_of data)).
  split; [reflexivity|]. split; [reflexivity|]. split; [reflexivity|].
  split; [rewrite map_map; reflexivity|]. split; [|split].
  - apply Forall_forall. intros a Ha. apply in_map_iff in Ha as [item [<- _]].
    apply area_of_challenges.
  - intros ->. reflexivity.
  - intros Hne. unfold _find_common_challenges.
    destruct (AnalysisAgentMoreFacts.most_common_spec
                (flat_map challenges (map area_of data))
                "Implementation and resource considerations") as [_ H].
    destruct H as [Hlen [Hnd [Hin _]]].
    { apply flat_map_nonempty.
      - destruct data; [congruence | discriminate].
      - apply Forall_forall. intros a Ha. apply in_map_iff in Ha as [item [<- _]].
        pose proof (area_of_challenges item) as H.
        destruct (challenges (area_of item)); [simpl in H; lia | discriminate]. }
    split; [exact Hlen|]. split; [exact Hnd|].
    apply Forall_forall. intros c Hc. rewrite Forall_forall in Hin.
    apply Hin, in_flat_map in Hc as [a [Ha Hc]]. now exists a.
Qed.

(** *** The analyses in the response *)

Lemma most_common_nonempty (names : list string) (default : string) :
  most_common names default <> [].
Proof.
  destruct (AnalysisAgentMoreFacts.most_common_spec names default) as [H1 H2].
  destruct names as [|x names].
  - rewrite H1 by reflexivity. discriminate.
  - destruct H2 as [Hlen _]; [discriminate|].
    destruct (most_common (x :: names) default); [simpl in Hlen; lia | discriminate].
Qed.

(** X30. What the response shows of the four analyses. Of a synthesis and of a
    methodology analysis it shows the heading and nothing else: the key points,
    the sources, the methods and the common approaches are never read. Of a
    challenge analysis it shows the heading, one line per area and, always, the
    line of common challenges. Of a trade-off analysis that returned it shows
    the heading and three lines per record. *)
Theorem analyses_in_response (data : list ResearchRecord) (task : string) :
  Coordinator.analysis_lines (synthesis_read (_synthesize_data data task))
  = [(Coordinator.nl ++ Coordinator.nl ++ "Analysis (synthesis):")%string]
  /\ Coordinator.analysis_lines (methodology_read (_analyze_methodology data task))
     = [(Coordinator.nl ++ Coordinator.nl ++ "Analysis (methodology_analysis):")%string]
  /\ Coordinator.analysis_lines (_identify_challenges data task)
     = [(Coordinator.nl ++ Coordinator.nl ++ "Analysis (challenge_identification):")%string]
       ++ map (fun item =>
                 (Coordinator.nl ++ "- " ++ get (topic item) "" ++ ": "
                  ++ Py.join ", " (challenges (area_of item)))%string)
              data
       ++ [(Coordinator.nl ++ "Common challenges: "
            ++ Py.join ", " (_find_common_challenges (map area_of data)))%string]
  /\ (forall r, _analyze_tradeoffs data task = Some r ->
        List.length (Coordinator.analysis_lines (tradeoffs_read r))
        = 1 + 3 * List.length data).
Proof.
  split; [reflexivity|]. split; [reflexivity|]. split.
  - unfold Coordinator.analysis_lines, _identify_challenges.
    cbn [type challenges_by_area common_challenges MemoryAgent.get].
    cbn [String.eqb Ascii.eqb Bool.eqb]. cbn [app]. f_equal. f_equal.
    + rewrite map_map. reflexivity.
    + pose proof (most_common_nonempty (flat_map challenges (map area_of data))
                    "Implementation and resource considerations") as Hne.
      unfold _find_common_challenges.
      destruct (most_common _ _); [congruence | reflexivity].
  - intros r H. unfold _analyze_tradeoffs in H.
    destruct (for_each tradeoff_of data) as [ts|] eqn:E; [|discriminate].
    injection H as <-. apply for_each_some, Forall2_length in E.
    unfold Coordinator.analysis_lines, tradeoffs_read.
    cbn [type tradeoffs tradeoff_type analysed_tradeoffs MemoryAgent.get].
    cbn [String.eqb Ascii.eqb Bool.eqb]. cbn [List.length]. f_equal.
    rewrite E. clear E.
    induction ts as [|t ts IH]; cbn [flat_map app List.length]; [reflexivity|].
    rewrite IH. lia.
Qed.

End TextAnalysesFacts.
